(** * containerlab runtime drivers: podman and containerd

    A shallow embedding of the parts of the podman driver
    (runtime/podman/util.go) and of the containerd driver that translate
    bind mounts, filters and labels, record the management network, pull
    images and stop containers, together with the properties of the
    runtime abstraction layer that concern them. *)

From Stdlib Require Import ZArith Ascii String.
From stdpp Require Import gmap strings list fin_maps.

Local Open Scope string_scope.

(** ** Go values: errors, panics and results *)

Module Go.

(** A Go [error] value.  Sentinels created with [errors.New] are
    constructors, [fmt.Errorf("%w: %s", e, s)] is [Wrapf], any other
    [fmt.Errorf] is its format string with its arguments; errors that
    come out of an engine or of a library are opaque messages. *)
Inductive error : Type :=
| errInvalidBind
| Wrapf (inner : error) (detail : string)
| ErrSyntax (fn num : string)
| ErrRange (fn num : string)
| Errorf (format : string) (args : list string)
| Engine (msg : string).

(** [errors.Is(e, target)] for a sentinel target: follows the [%w] chain. *)
Fixpoint Is_errInvalidBind (e : error) : bool :=
  match e with
  | errInvalidBind => true
  | Wrapf inner _ => Is_errInvalidBind inner
  | _ => false
  end.

(** A run-time panic of the Go runtime. *)
Inductive panic : Type :=
| IndexOutOfRange (index len : nat)
| NilMapWrite.

(** What a call of a function of type [func(...) (A, error)] does: it
    returns a value with a nil error, returns a non-nil error, or
    panics. *)
Inductive outcome (A : Type) : Type :=
| Ret (a : A)
| Fail (e : error)
| Panicked (p : panic).
Arguments Ret {A} a.
Arguments Fail {A} e.
Arguments Panicked {A} p.

(** Sequencing: an error or a panic of the first step ends the call. *)
#[export] Instance outcome_ret : MRet outcome := fun A a => Ret a.
#[export] Instance outcome_bind : MBind outcome := fun A B k m =>
  match m with
  | Ret a => k a
  | Fail e => Fail e
  | Panicked p => Panicked p
  end.

(** [l[i]] on a slice: panics out of range. *)
Definition index {A} (l : list A) (i : nat) : outcome A :=
  match l !! i with
  | Some a => Ret a
  | None => Panicked (IndexOutOfRange i (length l))
  end.

End Go.
Import Go.

(** ** The [strings] package *)

Module strings.

(** [strings.Cut(s, sep)] for a one-byte separator: the text before and
    after the first occurrence of [sep], if there is one. *)
Fixpoint Cut (s : string) (sep : ascii) : option (string * string) :=
  match s with
  | EmptyString => None
  | String c s' =>
      if Ascii.eqb c sep then Some (EmptyString, s')
      else match Cut s' sep with
           | Some (before, after) => Some (String c before, after)
           | None => None
           end
  end.

(** The loop of [strings.genSplit]: at most [k] more cuts, the rest of
    the string is the last piece. *)
Fixpoint genSplit (k : nat) (s : string) (sep : ascii) : list string :=
  match k with
  | O => [s]
  | S k' =>
      match Cut s sep with
      | None => [s]
      | Some (before, after) => before :: genSplit k' after sep
      end
  end.

(** [strings.SplitN(s, sep, n)]: [n = 0] gives nil, [n < 0] all the
    pieces, [n > 0] at most [n] pieces, the last one unsplit. *)
Definition SplitN (s : string) (sep : ascii) (n : Z) : list string :=
  if (n =? 0)%Z then []
  else if (n <? 0)%Z then genSplit (String.length s) s sep
  else genSplit (Z.to_nat n - 1) s sep.

(** [strings.Split(s, sep)] is [SplitN(s, sep, -1)]. *)
Definition Split (s : string) (sep : ascii) : list string :=
  SplitN s sep (-1).

(** [strings.Contains(s, sep)] for a one-byte separator. *)
Fixpoint ContainsByte (s : string) (sep : ascii) : bool :=
  match s with
  | EmptyString => false
  | String c s' => Ascii.eqb c sep || ContainsByte s' sep
  end.

End strings.

(** ** OCI mounts ([specs.Mount]) *)

Record Mount : Type := mkMount {
  Destination : string;
  Type_ : string;
  Source : string;
  Options : list string
}.

(** The zero value of [specs.Mount]. *)
Definition Mount_zero : Mount := mkMount "" "" "" [].

Definition Mount_setOptions (m : Mount) (o : list string) : Mount :=
  mkMount (Destination m) (Type_ m) (Source m) o.

(** ** The podman driver: bind mounts *)

Module podman_mounts.

(** The body of the [for i, mnt := range mounts] loop of
    [convertMounts], from index [i] on, over the slice [mntSpec]
    allocated before the loop. *)
Fixpoint convertMounts_loop (i : nat) (mounts : list string)
         (mntSpec : list Mount) : outcome (list Mount) :=
  match mounts with
  | [] => Ret mntSpec
  | mnt :: rest =>
      let mntSplit := strings.SplitN mnt ":" 3 in
      if (length mntSplit =? 1)%nat then Fail (Wrapf errInvalidBind mnt)
      else
        dst ← Go.index mntSplit 1;
        src ← Go.index mntSplit 0;
        let mntSpec := <[i := mkMount dst "bind" src []]> mntSpec in
        mntSpec ←
          (if (length mntSplit =? 3)%nat then
             opts ← Go.index mntSplit 2;
             cur ← Go.index mntSpec i;
             Ret (<[i := Mount_setOptions cur (strings.Split opts ",")]> mntSpec)
           else Ret mntSpec);
        convertMounts_loop (S i) rest mntSpec
  end.

(** [convertMounts] *)
Definition convertMounts (mounts : list string) : outcome (list Mount) :=
  if (length mounts =? 0)%nat then Ret []
  else convertMounts_loop 0 mounts (replicate (length mounts) Mount_zero).

(** What one round of the loop of [convertMounts] leaves at its index. *)
Definition entry (mnt : string) : outcome Mount :=
  let mntSplit := strings.SplitN mnt ":" 3 in
  if (length mntSplit =? 1)%nat then Fail (Wrapf errInvalidBind mnt)
  else
    dst ← Go.index mntSplit 1;
    src ← Go.index mntSplit 0;
    if (length mntSplit =? 3)%nat then
      opts ← Go.index mntSplit 2;
      Ret (mkMount dst "bind" src (strings.Split opts ","))
    else Ret (mkMount dst "bind" src []).

(** The entries of a whole list, up to the first that fails. *)
Fixpoint entries (mounts : list string) : outcome (list Mount) :=
  match mounts with
  | [] => Ret []
  | mnt :: rest => m ← entry mnt; ms ← entries rest; Ret (m :: ms)
  end.

(** The first bind without a [:], if there is one. *)
Definition first_malformed (mounts : list string) : option string :=
  List.find (fun mnt => negb (strings.ContainsByte mnt ":")) mounts.

End podman_mounts.

(** ** The containerd driver: bind mounts *)

Module containerd_mounts.

(** The loop over [node.Binds] at the head of [CreateContainer], from
    index [idx] on, over the slice [mounts] allocated before it.  No
    error is returned by this loop: an index out of range is a panic. *)
Fixpoint CreateContainer_mounts_loop (idx : nat) (binds : list string)
         (mounts : list Mount) : outcome (list Mount) :=
  match binds with
  | [] => Ret mounts
  | mount :: rest =>
      let s := strings.Split mount ":" in
      src ← Go.index s 0;
      dst ← Go.index s 1;
      let m := mkMount dst "" src ["rbind"; "rprivate"] in
      m ←
        (if (String.length mount =? 3)%nat then
           opts ← Go.index s 2;
           Ret (Mount_setOptions m (Options m ++ strings.Split opts ",")%list)
         else Ret m);
      CreateContainer_mounts_loop (S idx) rest (<[idx := m]> mounts)
  end.

Definition CreateContainer_mounts (binds : list string) : outcome (list Mount) :=
  CreateContainer_mounts_loop 0 binds (replicate (length binds) Mount_zero).

End containerd_mounts.

(** ** Generic container model ([types] package) *)

(** [types.GenericFilter]: one query predicate. *)
Record GenericFilter : Type := mkFilter {
  FilterType : string;
  Field : string;
  Operator : string;
  Match : string
}.

(** [types.GenericMgmtIPs] *)
Record GenericMgmtIPs : Type := mkMgmtIPs {
  Set_ : bool;
  IPv4addr : string;
  IPv4pLen : Z;
  IPv4Gw : string;
  IPv6addr : string;
  IPv6pLen : Z;
  IPv6Gw : string
}.

(** [types.MgmtNet]: the management network descriptor. *)
Record MgmtNet : Type := mkMgmtNet {
  Network : string;
  Bridge : string;
  IPv4Subnet : string;
  IPv4Gw_ : string;
  IPv6Subnet : string;
  IPv6Gw_ : string;
  MTU : string
}.

Definition MgmtNet_setBridge (n : MgmtNet) (b : string) : MgmtNet :=
  mkMgmtNet (Network n) b (IPv4Subnet n) (IPv4Gw_ n) (IPv6Subnet n) (IPv6Gw_ n) (MTU n).

(** ** Logging ([logrus])

    Lines logged at warning and at error level are part of the model: a
    line is its level, its format string and its arguments.  Debug lines
    are left out. *)

Module log.

Inductive level : Type := WarnLevel | ErrorLevel.

Inductive arg : Type :=
| Str (s : string)
| Strs (l : list string)
| Err (e : Go.error)
| Filter (f : GenericFilter).

Record entry : Type := mkEntry {
  lvl : level;
  format : string;
  args : list arg
}.

Definition Warnf (fmt : string) (a : list arg) : entry := mkEntry WarnLevel fmt a.
Definition Errorf (fmt : string) (a : list arg) : entry := mkEntry ErrorLevel fmt a.

Definition is_warning (e : entry) : bool :=
  match lvl e with WarnLevel => true | ErrorLevel => false end.

End log.

(** ** The podman driver: filters *)

Module podman_filters.

(** What is kept between two rounds of the loop of [buildFilterString]:
    the [filters] map and the lines logged so far. *)
Definition acc : Type := (gmap string (list string) * list log.entry)%type.

(** One round of [for _, gF := range gFilters].  [filterStr] is
    [None] on the branch that warns and goes on to the next filter. *)
Definition buildFilterString_step (a : acc) (gF : GenericFilter) : acc :=
  let '(filters, logged) := a in
  let filterType := FilterType gF in
  let filterOp := Operator gF in
  let filterValue := Match gF in
  let '(filterOp, filterValue) :=
    if String.eqb filterOp "exists" then ("=", "") else (filterOp, filterValue) in
  let filterStr :=
    if String.eqb filterType "name" then Some filterValue
    else if negb (String.eqb filterOp "=") then None
    else Some (Field gF +:+ filterOp +:+ filterValue) in
  match filterStr with
  | None =>
      (filters,
       (logged ++
        [log.Warnf "received a filter with unsupported match type: %+v" [log.Filter gF]])%list)
  | Some filterStr =>
      let filters := match filters !! filterType with
                     | Some _ => filters
                     | None => <[filterType := []]> filters
                     end in
      (<[filterType := (default [] (filters !! filterType) ++ [filterStr])%list]> filters,
       logged)
  end.

(** [buildFilterString]: the engine-native filter map, with the
    warnings logged on the way. *)
Definition buildFilterString (gFilters : list GenericFilter) : acc :=
  fold_left buildFilterString_step gFilters (∅, []).

End podman_filters.

(** ** The containerd driver: filters *)

Module containerd_filters.

(** What is kept between two rounds of the loop of
    [filterStringBuilder]: [filterstring] and [delim]. *)
Definition acc : Type := (string * string)%type.

(** One round of [for _, filterEntry := range filter]. *)
Definition filterStringBuilder_step (a : acc) (filterEntry : GenericFilter) : acc :=
  let '(filterstring, delim) := a in
  let '(operator, isExistsOperator) :=
    if String.eqb (Operator filterEntry) "=" then ("==", false)
    else if String.eqb (Operator filterEntry) "exists" then ("", true)
    else (Operator filterEntry, false) in
  let filterstring :=
    if String.eqb (FilterType filterEntry) "label" then
      let filterstring := filterstring +:+ "labels." +:+ Field filterEntry in
      if negb isExistsOperator then
        filterstring +:+ operator +:+ Match filterEntry +:+ delim
      else filterstring
    else filterstring in
  (filterstring, ",").

(** [filterStringBuilder]: the filter expression passed to
    [client.Containers]; nothing is logged at warning level. *)
Definition filterStringBuilder (filter : list GenericFilter) : string * list log.entry :=
  (fst (fold_left filterStringBuilder_step filter ("", "")), []).

End containerd_filters.

(** ** The [strconv] package *)

Module strconv.

Definition digit (c : ascii) : option Z :=
  let n := Z.of_nat (nat_of_ascii c) in
  if ((48 <=? n) && (n <=? 57))%Z then Some (n - 48)%Z else None.

Inductive numerr : Type := Syntax | Range.

Definition maxUint64 : Z := 2 ^ 64 - 1.

(** The digit loop of [ParseUint(s, 10, 64)]. *)
Fixpoint ParseUint_loop (s : string) (n : Z) : numerr + Z :=
  match s with
  | EmptyString => inr n
  | String c rest =>
      match digit c with
      | None => inl Syntax
      | Some d =>
          if (n >=? maxUint64 / 10 + 1)%Z then inl Range
          else
            let n1 := (n * 10 + d)%Z in
            if (n1 >? maxUint64)%Z then inl Range
            else ParseUint_loop rest n1
      end
  end.

(** [strconv.Atoi] where [int] has 64 bits. *)
Definition Atoi (s : string) : outcome Z :=
  let '(neg, body) :=
    match s with
    | String "-" rest => (true, rest)
    | String "+" rest => (false, rest)
    | _ => (false, s)
    end in
  match body with
  | EmptyString => Fail (ErrSyntax "Atoi" s)
  | _ =>
      match ParseUint_loop body 0 with
      | inl Syntax => Fail (ErrSyntax "Atoi" s)
      | inl Range => Fail (ErrRange "Atoi" s)
      | inr un =>
          if (negb neg && (un >=? 2 ^ 63))%Z then Fail (ErrRange "Atoi" s)
          else if (neg && (un >? 2 ^ 63))%Z then Fail (ErrRange "Atoi" s)
          else Ret (if neg then - un else un)%Z
      end
  end.

End strconv.

(** ** The containerd driver: management addresses kept in labels *)

Module containerd_labels.

(** [labels[k]] on a Go map: the zero value when the key is absent. *)
Definition at_key (labels : gmap string string) (k : string) : string :=
  default "" (labels !! k).

(** [extractIPInfoFromLabels] *)
Definition extractIPInfoFromLabels (labels : gmap string string) : outcome GenericMgmtIPs :=
  let isSet := false in
  '(isSet, ipv4mask) ←
    match labels !! "clab.ipv4.netmask" with
    | Some val => n ← strconv.Atoi val; Ret (true, n)
    | None => Ret (isSet, 0%Z)
    end;
  '(isSet, ipv6mask) ←
    match labels !! "clab.ipv6.netmask" with
    | Some val => n ← strconv.Atoi val; Ret (true, n)
    | None => Ret (isSet, 0%Z)
    end;
  Ret (mkMgmtIPs isSet (at_key labels "clab.ipv4.addr") ipv4mask ""
                 (at_key labels "clab.ipv6.addr") ipv6mask "").

End containerd_labels.

(** ** The management network *)

Module mgmt.

(** [ContainerdRuntime], without its client handle. *)
Record ContainerdRuntime : Type := mkContainerdRuntime {
  timeout : Z;
  Mgmt : MgmtNet;
  debug : bool;
  gracefulShutdown : bool
}.

(** [SetMgmtNet] of the containerd driver.  The descriptor is passed by
    value: the caller's copy is not touched. *)
Definition SetMgmtNet (c : ContainerdRuntime) (n : MgmtNet) : ContainerdRuntime :=
  let n :=
    if String.eqb (Bridge n) "" then
      let netname := "clab" in
      let netname := if String.eqb (Network n) "" then Network n else netname in
      MgmtNet_setBridge n ("br-" +:+ netname)
    else n in
  mkContainerdRuntime (timeout c) n (debug c) (gracefulShutdown c).

(** The first statement of [netOpts] of the podman driver: the bridge
    name is the network name when none was given. *)
Definition netOpts_bridge (m : MgmtNet) : MgmtNet :=
  if String.eqb (Bridge m) "" && negb (String.eqb (Network m) "") then
    MgmtNet_setBridge m (Network m)
  else m.

End mgmt.

(** ** Calls that change a state

    A driver method runs against a state (an engine, a node
    configuration, the log) and either returns, returns an error or
    panics; the state it leaves behind is kept in all three cases. *)

Definition ST (S A : Type) : Type := S -> S * outcome A.

#[export] Instance ST_ret {S} : MRet (ST S) := fun A a w => (w, Ret a).
#[export] Instance ST_bind {S} : MBind (ST S) := fun A B k m w =>
  match m w with
  | (w', Ret a) => k a w'
  | (w', Fail e) => (w', Fail e)
  | (w', Panicked p) => (w', Panicked p)
  end.

(** [v, err := m] followed by a test of [err]: the error is a value. *)
Definition attempt {S A} (m : ST S A) : ST S (error + A) := fun w =>
  match m w with
  | (w', Ret a) => (w', Ret (inr a))
  | (w', Fail e) => (w', Ret (inl e))
  | (w', Panicked p) => (w', Panicked p)
  end.

(** ** The containerd driver: engine, images and tasks *)

Module containerd.

(** [containerd.ProcessStatus] *)
Inductive ProcessStatus : Type :=
| Running | Created | Stopped | Paused | Pausing | Unknown.

(** The requests the driver sends to the engine, and the wait for the
    exit notification. *)
Inductive Call : Type :=
| ListImages
| Pull (ref : string)
| LoadContainer (name : string)
| ContainerTask (name : string)
| TaskStatus (name : string)
| TaskWait (name : string)
| TaskResume (name : string)
| TaskKill (name : string)
| ExitWait (name : string)
| TaskDelete (name : string).

#[export] Instance Call_eq_dec : EqDecision Call.
Proof. solve_decision. Defined.

(** The engine as the driver sees it, in the [clab] namespace: the
    image store, the container records, the task of each container
    that has one, the requests received so far (oldest first) and the
    warnings the driver has logged. *)
Record World : Type := mkWorld {
  images : list string;
  containers : gset string;
  tasks : gmap string ProcessStatus;
  calls : list Call;
  logged : list log.entry
}.

Definition record_call (c : Call) (w : World) : World :=
  mkWorld (images w) (containers w) (tasks w) (calls w ++ [c]) (logged w).
Definition set_images (l : list string) (w : World) : World :=
  mkWorld l (containers w) (tasks w) (calls w) (logged w).
Definition set_tasks (t : gmap string ProcessStatus) (w : World) : World :=
  mkWorld (images w) (containers w) t (calls w) (logged w).
Definition Warnf (fmt : string) (a : list log.arg) : ST World unit := fun w =>
  (mkWorld (images w) (containers w) (tasks w) (calls w)
           (logged w ++ [log.Warnf fmt a]), Ret tt).

Definition notFound : error := Engine "not found".

Section Driver.

(** Any request may fail for reasons of the engine's own (transport,
    deadline, cancellation): [fault k c] is the error, if any, with
    which request [c] fails when it is the [k]-th request received. *)
Variable fault : nat -> Call -> option error.

(** [utils.GetCanonicalImageName] *)
Variable GetCanonicalImageName : string -> string.

(** A request: it is recorded, fails if the engine makes it fail,
    and otherwise has its effect. *)
Definition request {A} (c : Call) (effect : ST World A) : ST World A := fun w =>
  match fault (length (calls w)) c with
  | Some e => (record_call c w, Fail e)
  | None => effect (record_call c w)
  end.

(** *** The client, as far as the driver relies on it *)

Definition client_ListImages : ST World (list string) :=
  request ListImages (fun w => (w, Ret (images w))).

(** A pull that succeeds leaves the image in the store. *)
Definition client_Pull (ref : string) : ST World unit :=
  request (Pull ref) (fun w => (set_images (images w ++ [ref]) w, Ret tt)).

Definition client_LoadContainer (name : string) : ST World string :=
  request (LoadContainer name) (fun w =>
    if decide (name ∈ containers w) then (w, Ret name) else (w, Fail notFound)).

Definition cont_Task (cont : string) : ST World string :=
  request (ContainerTask cont) (fun w =>
    match tasks w !! cont with
    | Some _ => (w, Ret cont)
    | None => (w, Fail notFound)
    end).

Definition task_Status (task : string) : ST World ProcessStatus :=
  request (TaskStatus task) (fun w =>
    match tasks w !! task with
    | Some st => (w, Ret st)
    | None => (w, Fail notFound)
    end).

(** [task.Wait]: registers for the exit notification. *)
Definition task_Wait (task : string) : ST World unit :=
  request (TaskWait task) (fun w =>
    match tasks w !! task with
    | Some _ => (w, Ret tt)
    | None => (w, Fail notFound)
    end).

Definition task_Resume (task : string) : ST World unit :=
  request (TaskResume task) (fun w =>
    match tasks w !! task with
    | Some _ => (set_tasks (<[task := Running]> (tasks w)) w, Ret tt)
    | None => (w, Fail notFound)
    end).

(** [task.Kill(ctx, syscall.SIGKILL)] *)
Definition task_Kill (task : string) : ST World unit :=
  request (TaskKill task) (fun w =>
    match tasks w !! task with
    | Some _ => (set_tasks (<[task := Stopped]> (tasks w)) w, Ret tt)
    | None => (w, Fail notFound)
    end).

(** [task.Delete]: a delete that succeeds removes the task record. *)
Definition task_Delete (task : string) : ST World unit :=
  request (TaskDelete task) (fun w =>
    match tasks w !! task with
    | Some _ => (set_tasks (delete task (tasks w)) w, Ret tt)
    | None => (w, Fail notFound)
    end).

(** *** The driver *)

(** [waitContainerStop]: whichever comes first of the caller's
    cancellation and the exit notification; the error is
    [ctx.Err()] or the error of the exit status. *)
Definition waitContainerStop (id : string) : ST World unit :=
  request (ExitWait id) (fun w => (w, Ret tt)).

(** [PullImageIfRequired] *)
Definition PullImageIfRequired (imagename : string) : ST World unit :=
  let canonicalimage := GetCanonicalImageName imagename in
  images ← client_ListImages;
  if (0 <? length images)%nat then mret tt
  else
    client_Pull canonicalimage;;
    mret tt.

(** [getContainerTask] *)
Definition getContainerTask (containername : string) : ST World string :=
  cont ← client_LoadContainer containername;
  task ← cont_Task cont;
  mret task.

(** [StopContainer] *)
Definition StopContainer (containername : string) : ST World unit :=
  r ← attempt (getContainerTask containername);
  match r with
  | inl _ => mret tt
  | inr ctask =>
      taskstatus ← task_Status ctask;
      let paused := false in
      let needsStop := true in
      let '(paused, needsStop) :=
        match taskstatus with
        | Created | Stopped => (paused, false)
        | Paused | Pausing => (true, needsStop)
        | _ => (paused, needsStop)
        end in
      (if needsStop : bool then
         task_Wait ctask;;
         paused ←
           (if paused : bool then
              r ← attempt (task_Resume ctask);
              match r with
              | inl err =>
                  Warnf "Cannot unpause container %s: %s"
                        [log.Str containername; log.Err err];;
                  mret paused
              | inr _ => mret false
              end
            else mret paused);
         task_Kill ctask;;
         waitContainerStop containername
       else mret tt);;
      task_Delete ctask;;
      mret tt
  end.

End Driver.

(** The requests received between two states of the engine. *)
Definition trace (w w' : World) : list Call := drop (length (calls w)) (calls w').

(** An engine on which no request fails of its own. *)
Definition no_fault : nat -> Call -> option error := fun _ _ => None.

End containerd.

(** ** The podman driver: the container specification *)

Module podman.

(** [specgen.Namespace] *)
Record Namespace : Type := mkNamespace { NSMode : string; Value : string }.

Definition Namespace_zero : Namespace := mkNamespace "" "".

(** [specs.LinuxMemory], [specs.LinuxCPU] and [specs.LinuxResources],
    with the fields the driver sets; a nil pointer is [None]. *)
Record LinuxMemory : Type := mkLinuxMemory { Limit : option Z }.
Record LinuxCPU : Type := mkLinuxCPU {
  Quota : option Z;
  Period : option Z;
  Cpus : string
}.
Record LinuxResources : Type := mkLinuxResources {
  Memory_ : option LinuxMemory;
  CPU_ : option LinuxCPU
}.

(** [int64(u)] for [u] of type [uint64]. *)
Definition int64_of_uint64 (u : Z) : Z :=
  if (u <? 2 ^ 63)%Z then u else (u - 2 ^ 64)%Z.

(** [types.MgmtNet] is all of the runtime that the specification reads. *)
Record PodmanRuntime : Type := mkPodmanRuntime { mgmt : MgmtNet }.

Section Spec.

(** Values of the libraries the driver hands on as they are. *)
Context {IP HardwareAddr PortMappings Exposed PortBindings PortSet float64 : Type}.

(** The libraries and the two converters of the driver that are
    called on the way: [shlex.Split], [humanize.ParseBytes] (a
    value and an error), [net.ParseMAC] (the address, nil on error,
    and an error), [net.ParseIP] (nil when the text is no address),
    [strings.SplitN] for a separator of any length, the test
    [cfg.CPU != 0] and [int64(cfg.CPU * 100000)] on [float64],
    [convertPortMap] and [convertExpose]. *)
Variable shlex_Split : string -> outcome (list string).
Variable humanize_ParseBytes : string -> Z * option error.
Variable net_ParseMAC : string -> HardwareAddr * option error.
Variable net_ParseIP : string -> option IP.
Variable strings_SplitN : string -> string -> Z -> list string.
Variable float64_nonzero : float64 -> bool.
Variable cpu_quota : float64 -> Z.
Variable convertPortMap : PortBindings -> outcome PortMappings.
Variable convertExpose : PortSet -> outcome Exposed.
Variable PortMappings_nil : PortMappings.
Variable Exposed_nil : Exposed.

(** [types.NodeConfig], with the fields the specification is built
    from.  [Labels] is a map shared with the caller: [None] is the
    nil map. *)
Record NodeConfig : Type := mkNodeConfig {
  ShortName : string;
  LongName : string;
  Image : string;
  Cmd : string;
  Entrypoint : string;
  Env : gmap string string;
  Labels : option (gmap string string);
  Sysctls : gmap string string;
  Binds : list string;
  User : string;
  Memory : string;
  CPU : float64;
  CPUSet : string;
  NetworkMode : string;
  MacAddress : string;
  MgmtIPv4Address : string;
  MgmtIPv6Address : string;
  ExtraHosts : list string;
  PortBindings_ : PortBindings;
  PortSet_ : PortSet
}.

Definition NodeConfig_setLabels (cfg : NodeConfig) (l : option (gmap string string)) :=
  mkNodeConfig (ShortName cfg) (LongName cfg) (Image cfg) (Cmd cfg) (Entrypoint cfg)
    (Env cfg) l (Sysctls cfg) (Binds cfg) (User cfg) (Memory cfg) (CPU cfg)
    (CPUSet cfg) (NetworkMode cfg) (MacAddress cfg) (MgmtIPv4Address cfg)
    (MgmtIPv6Address cfg) (ExtraHosts cfg) (PortBindings_ cfg) (PortSet_ cfg).

Definition NodeConfig_setBinds (cfg : NodeConfig) (b : list string) :=
  mkNodeConfig (ShortName cfg) (LongName cfg) (Image cfg) (Cmd cfg) (Entrypoint cfg)
    (Env cfg) (Labels cfg) (Sysctls cfg) b (User cfg) (Memory cfg) (CPU cfg)
    (CPUSet cfg) (NetworkMode cfg) (MacAddress cfg) (MgmtIPv4Address cfg)
    (MgmtIPv6Address cfg) (ExtraHosts cfg) (PortBindings_ cfg) (PortSet_ cfg).

(** [netTypes.PerNetworkOptions] *)
Record PerNetworkOptions : Type := mkPerNetworkOptions {
  StaticIPs : list IP;
  Aliases : list string;
  StaticMAC : HardwareAddr;
  InterfaceName : string
}.

(** The parts of [specgen.SpecGenerator], with the fields the driver
    sets; the health check part is left at its zero value and has no
    field here. *)
Record ContainerBasicConfig : Type := mkBasic {
  Name : string;
  Entrypoint_ : list string;
  Command : list string;
  EnvHost : bool;
  HTTPProxy : bool;
  Env_ : gmap string string;
  Terminal : bool;
  Stdin : bool;
  Labels_ : option (gmap string string);
  Hostname : string;
  Sysctl : gmap string string;
  Remove : bool
}.
Record ContainerStorageConfig : Type := mkStorage {
  Image_ : string;
  Mounts : list Mount
}.
Record ContainerSecurityConfig : Type := mkSecurity {
  Privileged : bool;
  User_ : string
}.
Record ContainerCgroupConfig : Type := mkCgroup { CgroupNS : Namespace }.
Record ContainerResourceConfig : Type := mkResource {
  ResourceLimits : option LinuxResources
}.
Record ContainerNetworkConfig : Type := mkNetwork {
  NetNS : Namespace;
  PortMappings_ : PortMappings;
  PublishExposedPorts : bool;
  Expose : Exposed;
  Networks : gmap string PerNetworkOptions;
  UseImageHosts : bool;
  HostAdd : list string
}.
Record SpecGenerator : Type := mkSpecGenerator {
  Basic : ContainerBasicConfig;
  Storage : ContainerStorageConfig;
  Security : ContainerSecurityConfig;
  Cgroup : ContainerCgroupConfig;
  Network_ : ContainerNetworkConfig;
  Resource : ContainerResourceConfig
}.

Definition ContainerNetworkConfig_zero : ContainerNetworkConfig :=
  mkNetwork Namespace_zero PortMappings_nil false Exposed_nil ∅ false [].

(** The state of a call of [createContainerSpec]: the node
    configuration, whose label map the call writes to, and the
    lines logged. *)
Definition state : Type := (NodeConfig * list log.entry)%type.

Definition get_cfg : ST state NodeConfig := fun s => (s, Ret (fst s)).
Definition logf (e : log.entry) : ST state unit := fun s =>
  ((fst s, (snd s ++ [e])%list), Ret tt).
Definition lift {A} (o : outcome A) : ST state A := fun s => (s, o).

(** [labels[k] = v] through the map shared with [cfg.Labels]: a
    write to the nil map panics. *)
Definition set_label (k v : string) : ST state unit := fun s =>
  match Labels (fst s) with
  | None => (s, Panicked NilMapWrite)
  | Some m => ((NodeConfig_setLabels (fst s) (Some (<[k := v]> m)), snd s), Ret tt)
  end.

(** The [switch netMode[0]] of [createContainerSpec]. *)
Definition networkSpec (r : PodmanRuntime) (cfg : NodeConfig)
  : outcome ContainerNetworkConfig :=
  let netMode := strings.SplitN (NetworkMode cfg) ":" 2 in
  mode ← Go.index netMode 0;
  if String.eqb mode "container" then
    if negb (length netMode =? 2)%nat then
      Fail (Errorf
        "container network mode was specified for container %q, but no container name was found: %q"
        (ShortName cfg :: netMode))
    else
      ref ← Go.index netMode 1;
      if String.eqb ref "" then
        Fail (Errorf
          "container network mode was specified for container %q, but no container name was found: %q"
          (ShortName cfg :: netMode))
      else
        prefix ← Go.index (strings_SplitN (LongName cfg) (ShortName cfg) 2) 0;
        Ret (mkNetwork (mkNamespace "container" (prefix +:+ ref))
                       PortMappings_nil false Exposed_nil ∅ false [])
  else if String.eqb mode "host" then
    Ret (mkNetwork (mkNamespace "host" "") PortMappings_nil false Exposed_nil ∅
                   false (ExtraHosts cfg))
  else if String.eqb mode "bridge" || String.eqb mode "" then
    let netName := Network (mgmt r) in
    let '(mac, err) := net_ParseMAC (MacAddress cfg) in
    match err with
    | Some e =>
        if negb (String.eqb (MacAddress cfg) "") then Fail e
        else Ret tt
    | None => Ret tt
    end;;
    let hwAddr := mac in
    let staticIPs := [] in
    let staticIPs := match net_ParseIP (MgmtIPv4Address cfg) with
                     | Some mgmtv4Addr => (staticIPs ++ [mgmtv4Addr])%list
                     | None => staticIPs
                     end in
    let staticIPs := match net_ParseIP (MgmtIPv6Address cfg) with
                     | Some mgmtv6Addr => (staticIPs ++ [mgmtv6Addr])%list
                     | None => staticIPs
                     end in
    let nets := {[ netName := mkPerNetworkOptions staticIPs [] hwAddr "" ]} in
    portmap ← convertPortMap (PortBindings_ cfg);
    expose ← convertExpose (PortSet_ cfg);
    Ret (mkNetwork (mkNamespace "bridge" "") portmap false expose nets
                   false (ExtraHosts cfg))
  else
    Fail (Errorf "network Mode %q is not currently supported with Podman" netMode).

(** [createContainerSpec] *)
Definition createContainerSpec (r : PodmanRuntime) : ST state SpecGenerator :=
  cfg ← get_cfg;
  cmd ← lift (shlex_Split (Cmd cfg));
  entrypoint ← lift (shlex_Split (Entrypoint cfg));
  set_label "clab-net-mgmt" (Network (mgmt r));;
  cfg ← get_cfg;
  let specBasicConfig :=
    mkBasic (LongName cfg) entrypoint cmd false false (Env cfg) false false
            (Labels cfg) (ShortName cfg) (Sysctls cfg) false in
  mounts ←
    match podman_mounts.convertMounts (Binds cfg) with
    | Ret mounts => mret mounts
    | Fail err =>
        logf (log.Errorf "Cannot convert mounts %v: %v"
                         [log.Strs (Binds cfg); log.Err err]);;
        mret []
    | Panicked p => lift (Panicked p)
    end;
  let specStorageConfig := mkStorage (Image cfg) mounts in
  let specSecurityConfig := mkSecurity true (User cfg) in
  let specCgroupConfig := mkCgroup Namespace_zero in
  lMem ←
    (if negb (String.eqb (Memory cfg) "") then
       let '(mem, err) := humanize_ParseBytes (Memory cfg) in
       let mem64 := int64_of_uint64 mem in
       match err with
       | Some _ =>
           logf (log.Warnf "Unable to parse memory limit %q for node %q"
                           [log.Str (Memory cfg); log.Str (LongName cfg)])
       | None => mret tt
       end;;
       mret (mkLinuxMemory (Some mem64))
     else mret (mkLinuxMemory None));
  let lCPU :=
    if float64_nonzero (CPU cfg)
    then mkLinuxCPU (Some (cpu_quota (CPU cfg))) (Some 100000%Z) ""
    else mkLinuxCPU None None "" in
  let lCPU :=
    if negb (String.eqb (CPUSet cfg) "")
    then mkLinuxCPU (Quota lCPU) (Period lCPU) (CPUSet cfg)
    else lCPU in
  let resLimits := mkLinuxResources (Some lMem) (Some lCPU) in
  let specResConfig := mkResource (Some resLimits) in
  specNetConfig ← lift (networkSpec r cfg);
  mret (mkSpecGenerator specBasicConfig specStorageConfig specSecurityConfig
                        specCgroupConfig specNetConfig specResConfig).

End Spec.

(** The line logged when the binds cannot be converted. *)
Definition mounts_error_line (binds : list string) (bad : string) : log.entry :=
  log.Errorf "Cannot convert mounts %v: %v"
             [log.Strs binds; log.Err (Wrapf errInvalidBind bad)].

End podman.

(** ** A node of the podman driver with a bind that has no separator *)

Module podman_example.
Import podman.

(** The libraries, on the inputs that occur below: [shlex.Split] of
    the empty command line is no word and no error. *)
Definition shlex_Split (s : string) : outcome (list string) :=
  if String.eqb s "" then Ret [] else Fail (Engine "shlex: command line left out").
Definition humanize_ParseBytes (s : string) : Z * option error :=
  (0%Z, Some (Engine "humanize: size left out")).
Definition net_ParseMAC (s : string) : string * option error :=
  ("", Some (Engine "net: address left out")).
Definition net_ParseIP (s : string) : option string := None.
Definition strings_SplitN (s sep : string) (n : Z) : list string := [s].
Definition float64_nonzero (f : Z) : bool := negb (f =? 0)%Z.
Definition cpu_quota (f : Z) : Z := (f * 100000)%Z.
Definition convertPortMap (b : unit) : outcome unit := Ret tt.
Definition convertExpose (b : unit) : outcome unit := Ret tt.

Definition createContainerSpec :=
  podman.createContainerSpec shlex_Split humanize_ParseBytes net_ParseMAC net_ParseIP
    strings_SplitN float64_nonzero cpu_quota convertPortMap convertExpose tt tt.

Definition runtime : PodmanRuntime :=
  mkPodmanRuntime (mkMgmtNet "clab" "br-clab" "172.20.20.0/24" "" "" "" "1500").

(** A node in host network mode whose only bind has no [:]. *)
Definition node : NodeConfig :=
  mkNodeConfig "n1" "clab-lab-n1" "alpine:3" "" "" ∅ (Some ∅) ∅ ["nocolon"] ""
               "" 0%Z "" "host" "" "" "" [] tt tt.

End podman_example.

(** ** An engine with one image, and label maps *)

Module containerd_example.
Import containerd.

(** An image store that holds alpine and nothing else. *)
Definition store : World :=
  mkWorld ["docker.io/library/alpine:latest"] ∅ ∅ [] [].

Definition busybox : string := "docker.io/library/busybox:latest".

(** The labels of the round trip, and the address label alone. *)
Definition labels_v4 : gmap string string :=
  <["clab.ipv4.addr" := "10.0.0.2"]> (<["clab.ipv4.netmask" := "24"]> ∅).
Definition labels_addr_only : gmap string string :=
  <["clab.ipv4.addr" := "10.0.0.2"]> ∅.

(** A driver that has recorded nothing yet, and a network without a
    bridge name. *)
Definition runtime : mgmt.ContainerdRuntime :=
  mgmt.mkContainerdRuntime 0 (mkMgmtNet "" "" "" "" "" "" "") false false.
Definition mynet : MgmtNet :=
  mkMgmtNet "mynet" "" "172.20.20.0/24" "" "2001:172:20:20::/64" "" "1500".

End containerd_example.

(** ** Reading a sequence of requests *)

Module requests.
Import containerd.

Definition is_kill (c : Call) : bool :=
  match c with TaskKill _ => true | _ => false end.

(** Registering for the exit notification, or waiting for it. *)
Definition is_wait (c : Call) : bool :=
  match c with TaskWait _ | ExitWait _ => true | _ => false end.

Definition is_delete_of (name : string) (c : Call) : bool :=
  match c with TaskDelete n => String.eqb n name | _ => false end.

(** No kill is sent to [name] in [tr] unless a resume was sent to it
    earlier in [tr], or [resumed] holds at the start. *)
Fixpoint kill_follows_resume (name : string) (resumed : bool) (tr : list Call) : bool :=
  match tr with
  | [] => true
  | TaskKill n :: rest =>
      (negb (String.eqb n name) || resumed) && kill_follows_resume name resumed rest
  | TaskResume n :: rest =>
      kill_follows_resume name (resumed || String.eqb n name) rest
  | _ :: rest => kill_follows_resume name resumed rest
  end.

(** An engine with the container [n1], whose task is in state [st]. *)
Definition engine (st : ProcessStatus) : World :=
  mkWorld [] {["n1"]} {["n1" := st]} [] [].

(** An engine with the container [n1], which has no task. *)
Definition engine_no_task : World := mkWorld [] {["n1"]} ∅ [] [].

(** The requests [l], received one after the other with [k] the number
    of the first, do not fail for reasons of the engine's own. *)
Fixpoint unfailed_from (fault : nat -> Call -> option error) (k : nat) (l : list Call) : bool :=
  match l with
  | [] => true
  | c :: rest =>
      match fault k c with
      | None => unfailed_from fault (S k) rest
      | Some _ => false
      end
  end.

(** The same for the requests that the engine in state [w] receives next. *)
Definition unfailed (fault : nat -> Call -> option error) (w : World) (l : list Call) : bool :=
  unfailed_from fault (length (calls w)) l.

(** The lookup of the container fails on the way to the engine; every
    other request succeeds. *)
Definition load_fails (k : nat) (c : Call) : option error :=
  match c with
  | LoadContainer _ => Some (Engine "connection closed")
  | _ => None
  end.

End requests.

(** ** Reading the filter translations *)

Module filter_terms.

(** The filters on which [buildFilterString] of the podman driver warns
    and goes on: the type is not [name] and the operator is neither [=]
    nor [exists]. *)
Definition podman_skipped (gF : GenericFilter) : bool :=
  negb (String.eqb (FilterType gF) "name")
  && negb (String.eqb (Operator gF) "=" || String.eqb (Operator gF) "exists").

(** The string that [buildFilterString] appends for a filter it does
    not skip. *)
Definition podman_term (gF : GenericFilter) : string :=
  let filterValue := if String.eqb (Operator gF) "exists" then "" else Match gF in
  if String.eqb (FilterType gF) "name" then filterValue
  else Field gF +:+ "=" +:+ filterValue.

Definition podman_warning (gF : GenericFilter) : log.entry :=
  log.Warnf "received a filter with unsupported match type: %+v" [log.Filter gF].

(** The strings for the filters of type [t], in the order of the filters. *)
Definition podman_terms (t : string) (gFilters : list GenericFilter) : list string :=
  map podman_term
      (List.filter (fun gF => negb (podman_skipped gF) && String.eqb (FilterType gF) t)
                   gFilters).

(** The text that [filterStringBuilder] of the containerd driver
    appends for a filter, before any delimiter: nothing unless the type
    is [label]. *)
Definition containerd_term (f : GenericFilter) : string :=
  if String.eqb (FilterType f) "label" then
    "labels." +:+ Field f +:+
      (if String.eqb (Operator f) "exists" then ""
       else (if String.eqb (Operator f) "=" then "==" else Operator f) +:+ Match f)
  else "".

(** The name filter with which the node kind for external containers
    lists its container. *)
Definition name_filter : GenericFilter := mkFilter "name" "" "" "^n1$".

(** A filter that tests the presence of the label [containerlab]. *)
Definition exists_filter : GenericFilter := mkFilter "label" "containerlab" "exists" "lab1".

(** Filters on the kind and on the name of a node. *)
Definition kind_filter : GenericFilter := mkFilter "label" "clab-node-kind" "=" "linux".
Definition node_filter : GenericFilter := mkFilter "label" "clab-node-name" "=" "n1".

End filter_terms.

(** ** Bind strings written back *)

Module mount_text.

(** [strings.Join(elems, sep)] for a one-byte separator. *)
Fixpoint Join (elems : list string) (sep : ascii) : string :=
  match elems with
  | [] => ""
  | [x] => x
  | x :: rest => x +:+ String sep (Join rest sep)
  end.

(** The bind string of an entry: source, destination and, when there
    are options, the options joined by commas. *)
Definition bind_of (m : Mount) : string :=
  Source m +:+ String ":" (Destination m +:+
    match Options m with
    | [] => ""
    | o => String ":" (Join o ",")
    end).

(** What one round of the bind loop of the containerd driver stores. *)
Definition containerd_entry (mount : string) : outcome Mount :=
  let s := strings.Split mount ":" in
  src ← Go.index s 0;
  dst ← Go.index s 1;
  let m := mkMount dst "" src ["rbind"; "rprivate"] in
  if (String.length mount =? 3)%nat then
    opts ← Go.index s 2;
    Ret (Mount_setOptions m (Options m ++ strings.Split opts ",")%list)
  else Ret m.

Fixpoint containerd_entries (binds : list string) : outcome (list Mount) :=
  match binds with
  | [] => Ret []
  | mount :: rest => m ← containerd_entry mount; ms ← containerd_entries rest; Ret (m :: ms)
  end.

End mount_text.

(** ** The requests of one stop *)

Module stop_sequence.
Import containerd.

(** The requests [StopContainer] sends for a container whose task is in
    state [st], when none of them fails. *)
Definition requests_for (name : string) (st : ProcessStatus) : list Call :=
  [LoadContainer name; ContainerTask name; TaskStatus name]
  ++ match st with
     | Created | Stopped => []
     | Paused | Pausing =>
         [TaskWait name; TaskResume name; TaskKill name; ExitWait name]
     | _ => [TaskWait name; TaskKill name; ExitWait name]
     end
  ++ [TaskDelete name].

(** An engine with two containers; the task of [n1] is paused, the
    task of [n2] runs. *)
Definition two_tasks : World :=
  mkWorld ["docker.io/library/alpine:latest"] {["n1"; "n2"]}
          {["n1" := Paused; "n2" := Running]} [] [].

(** The kill fails, every other request succeeds. *)
Definition kill_fails (k : nat) (c : Call) : option error :=
  match c with
  | TaskKill _ => Some (Engine "cannot kill")
  | _ => None
  end.

(** An engine without images. *)
Definition no_images : World := mkWorld [] ∅ ∅ [] [].

End stop_sequence.

(** ** The containerd driver: sysctls of the OCI specification *)

Module sysctls.

Section Spec.

(** The parts of [specs.Linux] and of [specs.Spec] that [WithSysctls]
    does not look at. *)
Context {LinuxRest SpecRest : Type}.
Variable LinuxRest_zero : LinuxRest.

(** [specs.Linux]: [Sysctl] is a map, [None] when nil. *)
Record Linux : Type := mkLinux {
  Sysctl : option (gmap string string);
  linux_rest : LinuxRest
}.

(** [specs.Spec]: [Linux] is a pointer, [None] when nil. *)
Record Spec : Type := mkSpec {
  Linux_ : option Linux;
  spec_rest : SpecRest
}.

(** The function returned by [WithSysctls(sysctls)], applied to the
    specification [s]: the specification it leaves, and the error it
    returns.  [for k, v := range sysctls] visits every key once. *)
Definition WithSysctls (sysctls : gmap string string) (s : Spec) : Spec * outcome unit :=
  let s := match Linux_ s with
           | None => mkSpec (Some (mkLinux None LinuxRest_zero)) (spec_rest s)
           | Some _ => s
           end in
  match Linux_ s with
  | None => (s, Panicked NilMapWrite)
  | Some linux =>
      let linux := match Sysctl linux with
                   | None => mkLinux (Some ∅) (linux_rest linux)
                   | Some _ => linux
                   end in
      match Sysctl linux with
      | None => (s, Panicked NilMapWrite)
      | Some m =>
          let m := map_fold (fun k v (acc : gmap string string) => <[k := v]> acc)
                            m sysctls in
          (mkSpec (Some (mkLinux (Some m) (linux_rest linux))) (spec_rest s), Ret tt)
      end
  end.

(** The sysctl [k] of a specification, if it is set. *)
Definition sysctl_of (s : Spec) (k : string) : option string :=
  match Linux_ s with
  | Some linux => match Sysctl linux with Some m => m !! k | None => None end
  | None => None
  end.

End Spec.

End sysctls.

(** ** The podman driver: the management network definition *)

Module podman_net.

Section NetOpts.

(** Parsed networks and addresses, and their parsers
    [netTypes.ParseCIDR] and [net.ParseIP] (nil when the text is no
    address). *)
Context {IPNet IP : Type}.
Variable ParseCIDR : string -> outcome IPNet.
Variable ParseIP : string -> option IP.

(** [netTypes.Subnet]: a subnet that has not been parsed into is
    [None], and so is a gateway that has not been set. *)
Record Subnet : Type := mkSubnet {
  Subnet_ : option IPNet;
  Gateway : option IP
}.

(** [netTypes.Network], with the fields [netOpts] fills in. *)
Record Network_ : Type := mkNetwork {
  DNSEnabled : bool;
  Driver : string;
  Internal : bool;
  Labels : gmap string string;
  Subnets : list Subnet;
  IPv6Enabled : bool;
  Options : gmap string string;
  Name : string;
  IPAMOptions : gmap string string;
  NetworkInterface : string
}.

(** The gateway taken from the descriptor: none when the text is empty
    or is the address [unset] that stands for none. *)
Definition gateway (text unset : string) : option IP :=
  if negb (String.eqb text "") && negb (String.eqb text unset)
  then ParseIP text else None.

(** [netOpts]: the management network the runtime holds afterwards
    (its bridge name may have been filled in), and the network
    definition or the error. *)
Definition netOpts (r : podman.PodmanRuntime) : podman.PodmanRuntime * outcome Network_ :=
  let m := mgmt.netOpts_bridge (podman.mgmt r) in
  let r := podman.mkPodmanRuntime m in
  let name := Network m in
  let intName := Bridge m in
  let subnets : list Subnet := [] in
  (r,
   subnets ←
     (if negb (String.eqb (IPv4Subnet m) "") then
        net ← ParseCIDR (IPv4Subnet m);
        let gw := gateway (IPv4Gw_ m) "0.0.0.0" in
        Ret (subnets ++ [mkSubnet (Some net) gw])%list
      else Ret subnets);
   '(subnets, ipv6) ←
     (if negb (String.eqb (IPv6Subnet m) "") then
        net ← ParseCIDR (IPv6Subnet m);
        let gw := gateway (IPv6Gw_ m) "::" in
        Ret ((subnets ++ [mkSubnet (Some net) gw])%list, true)
      else Ret (subnets, false));
   let options : gmap string string :=
     if negb (String.eqb (MTU m) "") then <["mtu" := MTU m]> ∅ else ∅ in
   Ret (mkNetwork false "bridge" false {["containerlab" := ""]} subnets ipv6
                  options name ∅ intName)).

End NetOpts.

(** A parser of networks for the examples: it accepts the text with a
    [/] in it and keeps it as it is. *)
Definition ParseCIDR_slash (s : string) : outcome string :=
  if strings.ContainsByte s "/" then Ret s
  else Fail (Engine "invalid CIDR address").

Definition ParseIP_any (s : string) : option string := Some s.

(** A runtime whose management network has both subnets, an IPv4
    gateway that stands for none, and no bridge name. *)
Definition dual_stack : podman.PodmanRuntime :=
  podman.mkPodmanRuntime
    (mkMgmtNet "clab" "" "172.20.20.0/24" "0.0.0.0" "2001:172:20:20::/64" "" "1500").

End podman_net.

(** ** More nodes of the podman driver *)

Module podman_nodes.
Import podman.

(** The line logged when the memory limit cannot be parsed. *)
Definition memory_warning_line (memory longName : string) : log.entry :=
  log.Warnf "Unable to parse memory limit %q for node %q"
            [log.Str memory; log.Str longName].

(** The error for a network mode the driver does not know. *)
Definition unsupported_mode (netMode : list string) : error :=
  Errorf "network Mode %q is not currently supported with Podman" netMode.

(** The lines a call of [createContainerSpec] logs: one for binds that
    cannot be converted, then one for a memory limit that
    [humanize.ParseBytes] cannot parse. *)
Definition lines_logged {PortBindings PortSet float64 : Type}
           (humanize_ParseBytes : string -> Z * option error)
           (cfg : @NodeConfig PortBindings PortSet float64) : list log.entry :=
  (match podman_mounts.first_malformed (Binds cfg) with
   | Some bad => [mounts_error_line (Binds cfg) bad]
   | None => []
   end
   ++ if negb (String.eqb (Memory cfg) "")
      then match snd (humanize_ParseBytes (Memory cfg)) with
           | Some _ => [memory_warning_line (Memory cfg) (LongName cfg)]
           | None => []
           end
      else [])%list.

(** A node without networking. *)
Definition node_none : NodeConfig :=
  mkNodeConfig "n1" "clab-lab-n1" "alpine:3" "" "" ∅ (Some ∅) ∅ [] ""
               "" 0%Z "" "none" "" "" "" [] tt tt.

(** A node whose label map is nil. *)
Definition node_nil_labels : NodeConfig :=
  mkNodeConfig "n1" "clab-lab-n1" "alpine:3" "" "" ∅ None ∅ [] ""
               "" 0%Z "" "host" "" "" "" [] tt tt.

(** A node on the management bridge, with a label, a memory limit that
    the parser of the example refuses, and a CPU set. *)
Definition node_bridge : NodeConfig :=
  mkNodeConfig "n1" "clab-lab-n1" "alpine:3" "" "" ∅ (Some {["containerlab" := "lab"]}) ∅
               ["/a:/b"] "" "lots" 0%Z "0-1" "bridge" "" "" "" ["h:1.2.3.4"] tt tt.

End podman_nodes.

(** ** Formatting integers *)

Module strconv_fmt.

(** The character of a decimal digit. *)
Definition digit_char (d : Z) : ascii := ascii_of_nat (48 + Z.to_nat d).

(** The decimal digits of [n], at most [fuel] of them, in front of [acc]. *)
Fixpoint utoa (fuel : nat) (n : Z) (acc : string) : string :=
  match fuel with
  | O => acc
  | S fuel' =>
      let acc' := String (digit_char (n mod 10)) acc in
      if (n / 10 =? 0)%Z then acc' else utoa fuel' (n / 10) acc'
  end.

(** [strconv.Itoa] where [int] has 64 bits. *)
Definition Itoa (i : Z) : string :=
  if (i <? 0)%Z then String "-" (utoa 20 (- i) "") else utoa 20 i "".

(** The values of [int]. *)
Definition int_range (z : Z) : Prop := (- 2 ^ 63 <= z < 2 ^ 63)%Z.

End strconv_fmt.

(** ** The containerd driver: management addresses written to labels *)

Module containerd_addresses.

(** One address of the result of the network attachment: its version,
    the text of [ip.Address.IP.String()] and the first result of
    [ip.Address.Mask.Size()]. *)
Record IPConfig : Type := mkIPConfig {
  Version : string;
  Address : string;
  Ones : Z
}.

(** One round of the loop over [result.IPs] of [CreateContainer], on
    [ipv4], [ipv4nm], [ipv6] and [ipv6nm]. *)
Definition address_step (acc : string * Z * string * Z) (ip : IPConfig)
  : string * Z * string * Z :=
  let '(ipv4, ipv4nm, ipv6, ipv6nm) := acc in
  if String.eqb (Version ip) "4" then (Address ip, Ones ip, ipv6, ipv6nm)
  else if String.eqb (Version ip) "6" then (ipv4, ipv4nm, Address ip, Ones ip)
  else (ipv4, ipv4nm, ipv6, ipv6nm).

(** [ipv4], [ipv4nm], [ipv6] and [ipv6nm] after the loop. *)
Definition addresses (ips : list IPConfig) : string * Z * string * Z :=
  fold_left address_step ips ("", 0%Z, "", 0%Z).

(** [additionalLabels] of [CreateContainer]. *)
Definition additionalLabels (ips : list IPConfig) : gmap string string :=
  let '(ipv4, ipv4nm, ipv6, ipv6nm) := addresses ips in
  <["clab.ipv4.addr" := ipv4]>
    (<["clab.ipv4.netmask" := strconv_fmt.Itoa ipv4nm]>
       (<["clab.ipv6.addr" := ipv6]>
          (<["clab.ipv6.netmask" := strconv_fmt.Itoa ipv6nm]> ∅))).

(** [container.SetLabels] of the engine: the labels given are set, the
    other labels of the container are kept. *)
Definition SetLabels (existing additional : gmap string string) : gmap string string :=
  additional ∪ existing.

(** An attachment with one IPv4 address and one IPv6 address. *)
Definition dual : list IPConfig :=
  [mkIPConfig "4" "172.20.20.2" 24; mkIPConfig "6" "2001:172:20:20::2" 64].

End containerd_addresses.

(** ** The containerd driver: the query and the namespace path *)

Module containerd_query.

Definition is_label (f : GenericFilter) : bool := String.eqb (FilterType f) "label".

(** The text [filterStringBuilder] builds from the filters [fs] when
    the delimiter is [delim] at the first of them: the text of each
    filter; after the text of a filter of type [label] whose operator
    is not [exists] comes the delimiter, which is a comma from the
    second filter on. *)
Fixpoint query_from (delim : string) (fs : list GenericFilter) : string :=
  match fs with
  | [] => ""
  | f :: rest =>
      filter_terms.containerd_term f
      +:+ (if is_label f && negb (String.eqb (Operator f) "exists") then delim else "")
      +:+ query_from "," rest
  end.

Section NSPath.

Variable fault : nat -> containerd.Call -> option error.

(** [task.Pid()] of the task of a container. *)
Variable Pid : string -> Z.

(** [GetNSPath] *)
Definition GetNSPath (containername : string) : ST containerd.World string :=
  task ← containerd.getContainerTask fault containername;
  mret ("/proc/" +:+ strconv_fmt.Itoa (Pid task) +:+ "/ns/net").

End NSPath.

End containerd_query.

(** ** Calls that end the program *)

Module run.

(** What ends a call other than a return: a panic of the kinds above, a
    method call or field access through a nil pointer, a slice
    expression out of range, or [log.Fatalf], which exits the process
    with status 1. *)
Inductive stop : Type :=
| Panic (p : Go.panic)
| NilDereference
| SliceBounds (high len : nat)
| Exit (code : Z).

Inductive result (A : Type) : Type :=
| Value (a : A)
| Error (e : error)
| Stopped (s : stop).
Arguments Value {A} a.
Arguments Error {A} e.
Arguments Stopped {A} s.

#[export] Instance result_ret : MRet result := fun A a => Value a.
#[export] Instance result_bind : MBind result := fun A B k m =>
  match m with
  | Value a => k a
  | Error e => Error e
  | Stopped s => Stopped s
  end.

Definition of_outcome {A} (o : outcome A) : result A :=
  match o with
  | Ret a => Value a
  | Fail e => Error e
  | Panicked p => Stopped (Panic p)
  end.

End run.

(** ** Listing containers *)

Module listing.

(** [types.GenericContainer] *)
Record GenericContainer : Type := mkGenericContainer {
  Names : list string;
  ID : string;
  ShortID : string;
  Image : string;
  State : string;
  Status : string;
  Labels : gmap string string;
  Pid : Z;
  NetworkSettings : GenericMgmtIPs
}.

Definition GenericMgmtIPs_zero : GenericMgmtIPs := mkMgmtIPs false "" 0 "" "" 0 "".

(** The zero value of [types.GenericContainer]. *)
Definition GenericContainer_zero : GenericContainer :=
  mkGenericContainer [] "" "" "" "" "" ∅ 0 GenericMgmtIPs_zero.

End listing.

Module containerd_list.
Import run listing.

(** [string(status)] for a [containerd.ProcessStatus]. *)
Definition ProcessStatus_string (s : containerd.ProcessStatus) : string :=
  match s with
  | containerd.Running => "running"
  | containerd.Created => "created"
  | containerd.Stopped => "stopped"
  | containerd.Paused => "paused"
  | containerd.Pausing => "pausing"
  | containerd.Unknown => "unknown"
  end.

(** [isSeparator] of the [strings] package, on a byte of ASCII text. *)
Definition isSeparator (c : ascii) : bool :=
  let n := nat_of_ascii c in
  negb (((48 <=? n) && (n <=? 57)) || ((97 <=? n) && (n <=? 122))
        || ((65 <=? n) && (n <=? 90)) || (n =? 95))%nat.

(** [unicode.ToTitle] on a byte of ASCII text. *)
Definition ToTitle (c : ascii) : ascii :=
  let n := nat_of_ascii c in
  if ((97 <=? n) && (n <=? 122))%nat then ascii_of_nat (n - 32) else c.

Fixpoint Title_from (prev : ascii) (s : string) : string :=
  match s with
  | EmptyString => EmptyString
  | String c rest =>
      String (if isSeparator prev then ToTitle c else c) (Title_from c rest)
  end.

(** [strings.Title] on ASCII text. *)
Definition Title (s : string) : string := Title_from " " s.

Section List.

(** Points in time, and [timeSinceInHuman]. *)
Context {Time : Type}.
Variable timeSinceInHuman : Time -> string.

(** [containerd.Status]: the status with the exit status and time. *)
Record TaskStatus : Type := mkTaskStatus {
  Status_ : containerd.ProcessStatus;
  ExitStatus : Z;
  ExitTime : Time
}.

(** A task as the listing sees it: what [task.Status] and [task.Pid]
    return. *)
Record Task : Type := mkTask {
  task_Status : error + TaskStatus;
  task_Pid : Z
}.

(** What [container.Task] returns: a task, an error for which
    [errdefs.IsNotFound] holds, or another error, with a nil task. *)
Inductive TaskLookup : Type :=
| TaskFound (t : Task)
| TaskNotFound (e : error)
| TaskError (e : error).

(** A container as the listing sees it: its id, what [container.Info]
    returns (the image and the labels) and what [container.Task]
    returns. *)
Record Container : Type := mkContainer {
  container_ID : string;
  container_Info : error + (string * gmap string string);
  container_Task : TaskLookup
}.

(** One round of the loop of [produceGenericContainerList]: the
    container appended to the result. *)
Definition generic (i : Container) : result GenericContainer :=
  info ← match container_Info i with
         | inl err => Error err
         | inr info => Value info
         end;
  let names := [container_ID i] in
  let id := container_ID i in
  let image := fst info in
  let labels := snd info in
  networkSettings ← of_outcome (containerd_labels.extractIPInfoFromLabels labels);
  '(taskfound, task) ←
    match container_Task i with
    | TaskFound t => Value (true, Some t)
    | TaskNotFound _ => Value (false, None)
    | TaskError _ => Value (true, None)
    end;
  if taskfound : bool then
    task ← match task with
           | Some t => Value t
           | None => Stopped NilDereference
           end;
    status ← match task_Status task with
             | inl _ => Stopped (Exit 1)
             | inr status => Value status
             end;
    let state := ProcessStatus_string (Status_ status) in
    let text :=
      match Status_ status with
      | containerd.Stopped =>
          "Exited (" +:+ strconv_fmt.Itoa (ExitStatus status) +:+ ") "
          +:+ timeSinceInHuman (ExitTime status)
      | containerd.Running => "Up"
      | s => Title (ProcessStatus_string s)
      end in
    Value (mkGenericContainer names id "" image state text labels (task_Pid task)
                              networkSettings)
  else
    Value (mkGenericContainer names id "" image
                              (Title (ProcessStatus_string containerd.Unknown))
                              "Unknown" labels (-1) networkSettings).

(** The containers appended for a whole list, up to the first that
    ends the call. *)
Fixpoint generics (input : list Container) : run.result (list GenericContainer) :=
  match input with
  | [] => Value []
  | i :: rest => ctr ← generic i; ctrs ← generics rest; Value (ctr :: ctrs)
  end.

(** The loop of [produceGenericContainerList] over the containers that
    are left, with the result so far. *)
Fixpoint produceGenericContainerList_loop (input : list Container)
         (result : list GenericContainer) : run.result (list GenericContainer) :=
  match input with
  | [] => Value result
  | i :: rest =>
      ctr ← generic i;
      produceGenericContainerList_loop rest (result ++ [ctr])
  end.

(** [produceGenericContainerList] of the containerd driver *)
Definition produceGenericContainerList (input : list Container)
  : run.result (list GenericContainer) :=
  produceGenericContainerList_loop input [].

End List.

(** A container without a task, a running one and one that exited. *)
Definition three : list (@Container Z) :=
  [mkContainer "n1" (inr ("alpine:3", ∅)) (TaskNotFound (Engine "not found"));
   mkContainer "n2" (inr ("alpine:3", ∅))
     (TaskFound (mkTask (inr (mkTaskStatus containerd.Running 0 0%Z)) 4242));
   mkContainer "n3" (inr ("alpine:3", ∅))
     (TaskFound (mkTask (inr (mkTaskStatus containerd.Stopped 137 60%Z)) 0))].

(** A container whose record cannot be read. *)
Definition unreadable : list (@Container Z) :=
  [mkContainer "n1" (inr ("alpine:3", ∅)) (TaskNotFound (Engine "not found"));
   mkContainer "n2" (inl (Engine "unavailable")) (TaskNotFound (Engine "not found"))].

End containerd_list.

Module podman_list.
Import run listing.

(** [define.InspectAdditionalNetwork], with the fields that are read. *)
Record InspectNetwork : Type := mkInspectNetwork {
  IPAddress : string;
  IPPrefixLen : Z;
  Gateway : string;
  GlobalIPv6Address : string;
  GlobalIPv6PrefixLen : Z
}.

(** [define.InspectContainerData]: [Config] and [NetworkSettings] are
    pointers, [None] when nil; of [Config] only the labels are read, of
    [NetworkSettings] only the networks, a map to pointers. *)
Record InspectContainerData : Type := mkInspect {
  Config : option (gmap string string);
  NetworkSettings_ : option (gmap string (option InspectNetwork))
}.

(** [entities.ListContainer], with the fields that are copied. *)
Record ListContainer : Type := mkListContainer {
  lc_Names : list string;
  lc_ID : string;
  lc_Image : string;
  lc_State : string;
  lc_Status : string;
  lc_Labels : gmap string string;
  lc_Pid : Z
}.

(** [s[:n]]: the first [n] bytes, or a panic when [s] is shorter. *)
Fixpoint take_bytes (n : nat) (s : string) : option string :=
  match n, s with
  | O, _ => Some EmptyString
  | S n', String c rest => String c <$> take_bytes n' rest
  | S _, EmptyString => None
  end.

Definition slice_to (s : string) (n : nat) : result string :=
  match take_bytes n s with
  | Some p => Value p
  | None => Stopped (SliceBounds n (String.length s))
  end.

Section List.

(** [containers.Inspect]: a pointer, which may be nil, and an error. *)
Variable Inspect : string -> option InspectContainerData * option error.

(** [extractMgmtIP] *)
Definition extractMgmtIP (cID : string) : result GenericMgmtIPs :=
  let toReturn := GenericMgmtIPs_zero in
  let '(inspectRes, err) := Inspect cID in
  inspectRes ← match inspectRes with Some d => Value d | None => Stopped NilDereference end;
  labels ← match Config inspectRes with Some l => Value l | None => Stopped NilDereference end;
  match labels !! "clab-net-mgmt" with
  | None => Value toReturn
  | Some netName =>
      if String.eqb netName "" then Value toReturn
      else
        networks ← match NetworkSettings_ inspectRes with
                   | Some n => Value n
                   | None => Stopped NilDereference
                   end;
        match networks !! netName with
        | None | Some None => Value toReturn
        | Some (Some mgmtData) =>
            Value (mkMgmtIPs false (IPAddress mgmtData) (IPPrefixLen mgmtData)
                             (Gateway mgmtData) (GlobalIPv6Address mgmtData)
                             (GlobalIPv6PrefixLen mgmtData) "")
        end
  end.

(** One round of the loop of [produceGenericContainerList]. *)
Definition generic (v : ListContainer) : result GenericContainer :=
  netSettings ← extractMgmtIP (lc_ID v);
  shortID ← slice_to (lc_ID v) 12;
  Value (mkGenericContainer (lc_Names v) (lc_ID v) shortID (lc_Image v) (lc_State v)
                            (lc_Status v) (lc_Labels v) (lc_Pid v) netSettings).

Fixpoint generics (cList : list ListContainer) : result (list GenericContainer) :=
  match cList with
  | [] => Value []
  | v :: rest => g ← generic v; gs ← generics rest; Value (g :: gs)
  end.

(** The loop of [produceGenericContainerList] from index [i] on, over
    the slice [genericList] allocated before it. *)
Fixpoint produceGenericContainerList_loop (i : nat) (cList : list ListContainer)
         (genericList : list GenericContainer) : result (list GenericContainer) :=
  match cList with
  | [] => Value genericList
  | v :: rest =>
      g ← generic v;
      produceGenericContainerList_loop (S i) rest (<[i := g]> genericList)
  end.

(** [produceGenericContainerList] of the podman driver *)
Definition produceGenericContainerList (cList : list ListContainer)
  : result (list GenericContainer) :=
  produceGenericContainerList_loop 0 cList
    (replicate (length cList) GenericContainer_zero).

End List.

(** An engine that knows one container, on the network [clab], and
    answers with a nil pointer and an error for any other. *)
Definition inspect_one (cID : string) : option InspectContainerData * option error :=
  if String.eqb cID "0123456789abcdef"
  then (Some (mkInspect (Some {["clab-net-mgmt" := "clab"]})
                        (Some {["clab" := Some (mkInspectNetwork "172.20.20.2" 24
                                                  "172.20.20.1" "" 0)]})),
        None)
  else (None, Some (Engine "no such container")).

Definition listed_one : ListContainer :=
  mkListContainer ["clab-lab-n1"] "0123456789abcdef" "alpine:3" "running" "Up 2 minutes"
                  {["clab-net-mgmt" := "clab"]} 4242.

End podman_list.

(** * Properties *)

(** ** Splitting *)

Section Splitting.

Import strings.

Lemma Cut_None s sep : ContainsByte s sep = false -> Cut s sep = None.
Proof.
  induction s as [|c s IH]; simpl; [done|].
  intros [Hc Hs]%orb_false_iff. rewrite Hc. by rewrite IH.
Qed.

Lemma Cut_Some s sep : ContainsByte s sep = true -> is_Some (Cut s sep).
Proof.
  induction s as [|c s IH]; simpl; [done|].
  destruct (Ascii.eqb c sep); simpl; [eauto|].
  intros [[a b] ->]%IH. eauto.
Qed.

Lemma Cut_app a b sep :
  ContainsByte a sep = false -> Cut (a +:+ String sep b) sep = Some (a, b).
Proof.
  induction a as [|c a IH]; simpl.
  - by rewrite Ascii.eqb_refl.
  - intros [Hc Ha]%orb_false_iff. rewrite Hc. by rewrite IH.
Qed.

Lemma genSplit_None k s sep : ContainsByte s sep = false -> genSplit k s sep = [s].
Proof. intros H. destruct k; simpl; [done|]. by rewrite Cut_None. Qed.

Lemma SplitN3 s sep : SplitN s sep 3 = genSplit 2 s sep.
Proof. reflexivity. Qed.

(** A string without the separator is one piece. *)
Lemma SplitN3_one s sep : ContainsByte s sep = false -> SplitN s sep 3 = [s].
Proof. intros H. rewrite SplitN3. by apply genSplit_None. Qed.

(** [src:dst] is two pieces. *)
Lemma SplitN3_two src dst sep :
  ContainsByte src sep = false -> ContainsByte dst sep = false ->
  SplitN (src +:+ String sep dst) sep 3 = [src; dst].
Proof.
  intros Hs Hd. rewrite SplitN3. simpl. rewrite Cut_app by done.
  by rewrite Cut_None.
Qed.

(** [src:dst:rest] is three pieces, whatever [rest] is. *)
Lemma SplitN3_three src dst rest sep :
  ContainsByte src sep = false -> ContainsByte dst sep = false ->
  SplitN (src +:+ String sep (dst +:+ String sep rest)) sep 3 = [src; dst; rest].
Proof.
  intros Hs Hd. rewrite SplitN3. simpl. by rewrite !Cut_app.
Qed.

(** With the separator in it, a string has at least two pieces. *)
Lemma SplitN3_more s sep :
  ContainsByte s sep = true ->
  exists a b l, SplitN s sep 3 = a :: b :: l /\ (length l <= 1)%nat.
Proof.
  intros [[a r] Hc]%Cut_Some. rewrite SplitN3. simpl. rewrite Hc.
  destruct (Cut r sep) as [[b t]|]; eexists _, _, _; split; done || (simpl; lia).
Qed.

End Splitting.

(** ** Bind mounts of the podman driver *)

Module podman_mounts_facts.
Import podman_mounts.

Lemma index_insert_eq {A} (l : list A) i x :
  (i < length l)%nat -> Go.index (<[i := x]> l) i = Ret x.
Proof. intros H. unfold Go.index. by rewrite list_lookup_insert_eq. Qed.

Lemma convertMounts_loop_entries mounts : forall i mntSpec,
  (i + length mounts <= length mntSpec)%nat ->
  convertMounts_loop i mounts mntSpec =
    ms ← entries mounts;
    Ret (take i mntSpec ++ ms ++ drop (i + length mounts) mntSpec)%list.
Proof.
  induction mounts as [|mnt rest IH]; intros i mntSpec Hlen; simpl in *.
  - rewrite Nat.add_0_r. by rewrite take_drop.
  - unfold entry.
    destruct (length (strings.SplitN mnt ":" 3) =? 1)%nat; [done|].
    destruct (Go.index (strings.SplitN mnt ":" 3) 1) as [dst| |]; simpl; [|done..].
    destruct (Go.index (strings.SplitN mnt ":" 3) 0) as [src| |]; simpl; [|done..].
    assert (forall m (l : list Mount), (S i + length rest <= length l)%nat ->
              take (S i) (<[i := m]> l) = (take i l ++ [m])%list) as Htake.
    { intros m l Hl. rewrite (take_S_r _ _ m).
      - by rewrite take_insert_ge by lia.
      - apply list_lookup_insert_eq. lia. }
    destruct (length (strings.SplitN mnt ":" 3) =? 3)%nat.
    + destruct (Go.index (strings.SplitN mnt ":" 3) 2) as [opts| |]; simpl; [|done..].
      rewrite index_insert_eq by lia. simpl.
      rewrite list_insert_insert_eq.
      rewrite IH by (rewrite length_insert; lia).
      destruct (entries rest) as [ms| |]; simpl; [|done..].
      rewrite Htake by lia. rewrite drop_insert_lt by lia.
      rewrite <- (assoc_L app). simpl.
      by replace (S (i + length rest)) with (i + S (length rest))%nat by lia.
    + simpl. rewrite IH by (rewrite length_insert; lia).
      destruct (entries rest) as [ms| |]; simpl; [|done..].
      rewrite Htake by lia. rewrite drop_insert_lt by lia.
      rewrite <- (assoc_L app). simpl.
      by replace (S (i + length rest)) with (i + S (length rest))%nat by lia.
Qed.

(** [convertMounts] gives one entry for each bind, in order, or the
    error of the first bind that has none. *)
Lemma convertMounts_entries mounts : convertMounts mounts = entries mounts.
Proof.
  unfold convertMounts. destruct mounts as [|mnt rest]; [done|].
  change (length (mnt :: rest) =? 0)%nat with false. cbv iota.
  rewrite convertMounts_loop_entries by (rewrite length_replicate; simpl; lia).
  destruct (entries (mnt :: rest)) as [ms| |]; simpl; [|done..].
  rewrite drop_ge by (rewrite length_replicate; lia).
  by rewrite app_nil_r.
Qed.

Lemma entry_two src dst :
  strings.ContainsByte src ":" = false -> strings.ContainsByte dst ":" = false ->
  entry (src +:+ String ":" dst) = Ret (mkMount dst "bind" src []).
Proof. intros Hs Hd. unfold entry. by rewrite SplitN3_two. Qed.

Lemma entry_three src dst opts :
  strings.ContainsByte src ":" = false -> strings.ContainsByte dst ":" = false ->
  entry (src +:+ String ":" (dst +:+ String ":" opts))
  = Ret (mkMount dst "bind" src (strings.Split opts ",")).
Proof. intros Hs Hd. unfold entry. by rewrite SplitN3_three. Qed.

Lemma entry_malformed mnt :
  strings.ContainsByte mnt ":" = false -> entry mnt = Fail (Wrapf errInvalidBind mnt).
Proof. intros H. unfold entry. by rewrite SplitN3_one. Qed.

Lemma entry_wellformed mnt :
  strings.ContainsByte mnt ":" = true -> exists m, entry mnt = Ret m.
Proof.
  intros (a & b & l & Hsp & Hl)%SplitN3_more. unfold entry. rewrite Hsp.
  destruct l as [|c [|]]; simpl in *; eauto; lia.
Qed.

Lemma convertMounts_malformed mounts mnt :
  first_malformed mounts = Some mnt ->
  convertMounts mounts = Fail (Wrapf errInvalidBind mnt).
Proof.
  rewrite convertMounts_entries. unfold first_malformed.
  induction mounts as [|m rest IH]; simpl; [done|].
  destruct (strings.ContainsByte m ":") eqn:Hm; simpl.
  - intros H. destruct (entry_wellformed m Hm) as [x ->]. simpl.
    by rewrite IH.
  - intros [= <-]. by rewrite entry_malformed.
Qed.

Lemma first_malformed_Some mounts mnt :
  mnt ∈ mounts -> strings.ContainsByte mnt ":" = false ->
  exists bad, first_malformed mounts = Some bad
              /\ bad ∈ mounts /\ strings.ContainsByte bad ":" = false.
Proof.
  intros Hin Hbad. unfold first_malformed.
  destruct (List.find _ mounts) as [bad|] eqn:Hf.
  - apply List.find_some in Hf as [Hin' Hb]. exists bad. split; [done|].
    split; [by apply list_elem_of_In|]. by apply negb_true_iff.
  - apply list_elem_of_In in Hin. eapply List.find_none in Hf; [|done].
    simpl in Hf. by rewrite Hbad in Hf.
Qed.

(** When every bind has a [:], each gets its entry. *)
Lemma convertMounts_wellformed mounts :
  Forall (fun mnt => strings.ContainsByte mnt ":" = true) mounts ->
  exists ms, convertMounts mounts = Ret ms /\ Forall2 (fun mnt m => entry mnt = Ret m) mounts ms.
Proof.
  rewrite convertMounts_entries.
  induction 1 as [|mnt rest Hm _ (ms & Hms & IH)]; simpl; [by eexists|].
  destruct (entry_wellformed mnt Hm) as [m Hentry]. rewrite Hentry, Hms. simpl.
  eexists. split; [done|]. by constructor.
Qed.

End podman_mounts_facts.

(** The same, in the words of the two forms of a bind. *)
Lemma podman_convertMounts_src_dst src dst :
  strings.ContainsByte src ":" = false -> strings.ContainsByte dst ":" = false ->
  podman_mounts.convertMounts [src +:+ String ":" dst]
  = Ret [mkMount dst "bind" src []].
Proof.
  intros Hs Hd. rewrite podman_mounts_facts.convertMounts_entries. simpl.
  by rewrite podman_mounts_facts.entry_two.
Qed.

Lemma podman_convertMounts_src_dst_opts src dst opts :
  strings.ContainsByte src ":" = false -> strings.ContainsByte dst ":" = false ->
  podman_mounts.convertMounts [src +:+ String ":" (dst +:+ String ":" opts)]
  = Ret [mkMount dst "bind" src (strings.Split opts ",")].
Proof.
  intros Hs Hd. rewrite podman_mounts_facts.convertMounts_entries. simpl.
  by rewrite podman_mounts_facts.entry_three.
Qed.

Lemma podman_convertMounts_no_colon mnt :
  strings.ContainsByte mnt ":" = false ->
  podman_mounts.convertMounts [mnt] = Fail (Wrapf errInvalidBind mnt)
  /\ Is_errInvalidBind (Wrapf errInvalidBind mnt) = true.
Proof.
  intros H. split; [|done]. apply podman_mounts_facts.convertMounts_malformed.
  unfold podman_mounts.first_malformed. simpl. by rewrite H.
Qed.

(** ** Bind mounts of the containerd driver *)

(** C1, on the containerd driver.  The mount translator is to give, for
    [src:dst:opt1,opt2], one entry with the options of the third
    segment, and for a bind without [:] the invalid-bind error.  The
    loop of [CreateContainer] tests the length of the bind string where
    the number of its segments is meant: the options of ["/src:/dst:ro"]
    are dropped, the three-byte bind ["a:b"] panics on its missing third
    segment, and a bind without [:] panics on its missing second
    segment.  [convertMounts] of the podman driver does what is asked
    on the same binds. *)
Theorem C1_containerd_mounts_diverge :
  containerd_mounts.CreateContainer_mounts ["/src:/dst:ro"]
    = Ret [mkMount "/dst" "" "/src" ["rbind"; "rprivate"]]
  /\ containerd_mounts.CreateContainer_mounts ["a:b"]
    = Panicked (IndexOutOfRange 2 2)
  /\ containerd_mounts.CreateContainer_mounts ["nocolon"]
    = Panicked (IndexOutOfRange 1 1)
  /\ podman_mounts.convertMounts ["/src:/dst:ro"]
    = Ret [mkMount "/dst" "bind" "/src" ["ro"]]
  /\ podman_mounts.convertMounts ["a:b"]
    = Ret [mkMount "b" "bind" "a" []]
  /\ podman_mounts.convertMounts ["nocolon"]
    = Fail (Wrapf errInvalidBind "nocolon").
Proof. repeat split; reflexivity. Qed.

(** ** The container specification of the podman driver *)

Section SpecFacts.
Import podman.

Context {IP HardwareAddr PortMappings Exposed PortBindings PortSet float64 : Type}.
Variable shlex_Split : string -> outcome (list string).
Variable humanize_ParseBytes : string -> Z * option error.
Variable net_ParseMAC : string -> HardwareAddr * option error.
Variable net_ParseIP : string -> option IP.
Variable strings_SplitN : string -> string -> Z -> list string.
Variable float64_nonzero : float64 -> bool.
Variable cpu_quota : float64 -> Z.
Variable convertPortMap : PortBindings -> outcome PortMappings.
Variable convertExpose : PortSet -> outcome Exposed.
Variable PortMappings_nil : PortMappings.
Variable Exposed_nil : Exposed.

#[local] Abbreviation create :=
  (createContainerSpec shlex_Split humanize_ParseBytes net_ParseMAC net_ParseIP
     strings_SplitN float64_nonzero cpu_quota convertPortMap convertExpose
     PortMappings_nil Exposed_nil).

(** The network part of the specification does not read the binds. *)
Lemma networkSpec_setBinds r (cfg : @NodeConfig PortBindings PortSet float64) b l :
  networkSpec net_ParseMAC net_ParseIP strings_SplitN convertPortMap convertExpose
              PortMappings_nil Exposed_nil r
              (NodeConfig_setLabels (NodeConfig_setBinds cfg b) l)
  = networkSpec net_ParseMAC net_ParseIP strings_SplitN convertPortMap convertExpose
                PortMappings_nil Exposed_nil r (NodeConfig_setLabels cfg l).
Proof. reflexivity. Qed.

(** A bind that cannot be converted is logged and costs the node all
    of its mounts, nothing else: the call returns what it returns for
    the node without binds. *)
Lemma createContainerSpec_malformed r
      (cfg : @NodeConfig PortBindings PortSet float64) logs bad :
  podman_mounts.first_malformed (Binds cfg) = Some bad ->
  snd (create r (cfg, logs)) = snd (create r (NodeConfig_setBinds cfg [], logs))
  /\ forall sg, snd (create r (cfg, logs)) = Ret sg ->
       Mounts (Storage sg) = []
       /\ podman.mounts_error_line (Binds cfg) bad ∈ snd (fst (create r (cfg, logs))).
Proof.
  intros Hbad%podman_mounts_facts.convertMounts_malformed.
  unfold createContainerSpec, get_cfg, lift, set_label, logf.
  unfold mbind, mret, ST_bind, ST_ret. simpl.
  destruct (shlex_Split (Cmd cfg)) as [cmd| |]; simpl; [|by split..].
  destruct (shlex_Split (Entrypoint cfg)) as [ep| |]; simpl; [|by split..].
  destruct (Labels cfg) as [labels|]; simpl; [|by split].
  rewrite Hbad. simpl.
  rewrite networkSpec_setBinds.
  destruct (String.eqb (Memory cfg) ""); simpl.
  - destruct (networkSpec _ _ _ _ _ _ _ r _) as [net| |]; simpl; [|by split..].
    split; [done|]. intros sg [= <-]. simpl. split; [done|].
    unfold podman.mounts_error_line. set_solver.
  - destruct (humanize_ParseBytes (Memory cfg)) as [mem [err|]]; simpl.
    + destruct (networkSpec _ _ _ _ _ _ _ r _) as [net| |]; simpl; [|by split..].
      split; [done|]. intros sg [= <-]. simpl. split; [done|].
      unfold podman.mounts_error_line. set_solver.
    + destruct (networkSpec _ _ _ _ _ _ _ r _) as [net| |]; simpl; [|by split..].
      split; [done|]. intros sg [= <-]. simpl. split; [done|].
      unfold podman.mounts_error_line. set_solver.
Qed.

End SpecFacts.

(** C5, as the claim has it, fails on the podman driver: for the node
    of [podman_example], whose only bind has no [:], the specification
    is built without error and without mounts, and the error is logged. *)
Lemma C5_counterexample :
  exists sg,
    snd (podman_example.createContainerSpec podman_example.runtime (podman_example.node, []))
      = Ret sg
    /\ podman.Mounts (podman.Storage sg) = []
    /\ snd (fst (podman_example.createContainerSpec podman_example.runtime
                   (podman_example.node, [])))
       = [podman.mounts_error_line ["nocolon"] "nocolon"].
Proof. eexists. repeat split; reflexivity. Qed.

(** C5, amended.  For every node whose binds contain one without a [:],
    [createContainerSpec] of the podman driver does not fail on that
    account: it returns what it returns for the same node without
    binds, and when that is a specification, the specification has no
    mounts and an error line with the binds and the invalid-bind error
    of the first such bind has been logged. *)
Theorem C5_createContainerSpec_drops_mounts
  {IP HardwareAddr PortMappings Exposed PortBindings PortSet float64 : Type}
  (shlex_Split : string -> outcome (list string))
  (humanize_ParseBytes : string -> Z * option error)
  (net_ParseMAC : string -> HardwareAddr * option error)
  (net_ParseIP : string -> option IP)
  (strings_SplitN : string -> string -> Z -> list string)
  (float64_nonzero : float64 -> bool)
  (cpu_quota : float64 -> Z)
  (convertPortMap : PortBindings -> outcome PortMappings)
  (convertExpose : PortSet -> outcome Exposed)
  (PortMappings_nil : PortMappings) (Exposed_nil : Exposed)
  (r : podman.PodmanRuntime)
  (cfg : @podman.NodeConfig PortBindings PortSet float64)
  (logs : list log.entry) (mnt : string) :
  let create := podman.createContainerSpec shlex_Split humanize_ParseBytes net_ParseMAC
                  net_ParseIP strings_SplitN float64_nonzero cpu_quota convertPortMap
                  convertExpose PortMappings_nil Exposed_nil r in
  mnt ∈ podman.Binds cfg ->
  strings.ContainsByte mnt ":" = false ->
  exists bad,
    bad ∈ podman.Binds cfg /\ strings.ContainsByte bad ":" = false
    /\ snd (create (cfg, logs)) = snd (create (podman.NodeConfig_setBinds cfg [], logs))
    /\ forall sg, snd (create (cfg, logs)) = Ret sg ->
         podman.Mounts (podman.Storage sg) = []
         /\ podman.mounts_error_line (podman.Binds cfg) bad ∈ snd (fst (create (cfg, logs))).
Proof.
  intros create Hin Hmnt.
  destruct (podman_mounts_facts.first_malformed_Some _ _ Hin Hmnt) as (bad & Hf & Hb & Hc).
  exists bad. split; [done|]. split; [done|].
  by apply createContainerSpec_malformed.
Qed.

Lemma C5_createContainerSpec_drops_mounts_witness :
  "nocolon" ∈ podman.Binds podman_example.node
  /\ strings.ContainsByte "nocolon" ":" = false
  /\ exists bad,
       bad ∈ podman.Binds podman_example.node /\ strings.ContainsByte bad ":" = false
       /\ snd (podman_example.createContainerSpec podman_example.runtime
                 (podman_example.node, []))
          = snd (podman_example.createContainerSpec podman_example.runtime
                   (podman.NodeConfig_setBinds podman_example.node [], []))
       /\ forall sg,
            snd (podman_example.createContainerSpec podman_example.runtime
                   (podman_example.node, [])) = Ret sg ->
            podman.Mounts (podman.Storage sg) = []
            /\ podman.mounts_error_line (podman.Binds podman_example.node) bad
               ∈ snd (fst (podman_example.createContainerSpec podman_example.runtime
                             (podman_example.node, []))).
Proof.
  assert ("nocolon" ∈ podman.Binds podman_example.node) as Hin by (simpl; set_solver).
  split; [exact Hin|]. split; [reflexivity|].
  exact (C5_createContainerSpec_drops_mounts
           podman_example.shlex_Split podman_example.humanize_ParseBytes
           podman_example.net_ParseMAC podman_example.net_ParseIP
           podman_example.strings_SplitN podman_example.float64_nonzero
           podman_example.cpu_quota podman_example.convertPortMap
           podman_example.convertExpose tt tt podman_example.runtime
           podman_example.node [] "nocolon" Hin eq_refl).
Defined.

(** ** Pulling images *)

Section PullFacts.
Import containerd.
Variable fault : nat -> Call -> option error.
Variable GetCanonicalImageName : string -> string.

(** Whatever the store holds, if it holds anything the pull is skipped. *)
Lemma PullImageIfRequired_store_nonempty imagename w :
  images w <> [] ->
  fault (length (calls w)) ListImages = None ->
  PullImageIfRequired fault GetCanonicalImageName imagename w
  = (record_call ListImages w, Ret tt).
Proof.
  intros Hne Hf. unfold PullImageIfRequired, client_ListImages, request.
  unfold mbind, ST_bind. rewrite Hf. simpl.
  destruct (images w); [done|]. reflexivity.
Qed.

(** On an empty store the canonical reference is pulled. *)
Lemma PullImageIfRequired_store_empty imagename w :
  images w = [] ->
  fault (length (calls w)) ListImages = None ->
  fault (S (length (calls w))) (Pull (GetCanonicalImageName imagename)) = None ->
  exists w',
    PullImageIfRequired fault GetCanonicalImageName imagename w = (w', Ret tt)
    /\ trace w w' = [ListImages; Pull (GetCanonicalImageName imagename)]
    /\ images w' = [GetCanonicalImageName imagename].
Proof.
  intros He Hf Hp. unfold PullImageIfRequired, client_ListImages, client_Pull, request.
  unfold mbind, ST_bind. rewrite Hf. simpl. rewrite He. simpl.
  rewrite length_app, Nat.add_1_r, Hp. simpl.
  eexists. split; [done|]. unfold trace. simpl. rewrite He.
  split; [|done]. rewrite <- (assoc_L app). by rewrite drop_app_length.
Qed.

End PullFacts.

Section PullTwice.
Import containerd.

(** Two calls in a row on an engine that does not fail pull at most once. *)
Lemma PullImageIfRequired_twice canon imagename w :
  let w1 := fst (containerd.PullImageIfRequired containerd.no_fault canon imagename w) in
  let w2 := fst (containerd.PullImageIfRequired containerd.no_fault canon imagename w1) in
  (length (filter (fun c => c = containerd.Pull (canon imagename)) (containerd.trace w w2)) <= 1)%nat.
Proof.
  intros w1 w2. subst w1 w2.
  unfold containerd.PullImageIfRequired, containerd.client_ListImages,
    containerd.client_Pull, containerd.request, containerd.no_fault, containerd.trace.
  unfold mbind, ST_bind. simpl.
  destruct (containerd.images w) as [|i l] eqn:Hi; simpl.
  - rewrite Hi. simpl. rewrite <- !(assoc_L app). rewrite drop_app_length. simpl.
    rewrite !filter_cons. repeat case_decide; simplify_eq; simpl; lia.
  - rewrite Hi. simpl. rewrite <- !(assoc_L app). rewrite drop_app_length. simpl.
    lia.
Qed.

End PullTwice.

(** C2, on the containerd driver.  The image is to be looked up by its
    canonical reference and pulled when it is absent.
    [PullImageIfRequired] lists all images and skips the pull when the
    list is not empty: with alpine alone in the store, a request for any
    image, busybox for one, returns without error after the listing and
    sends no pull. *)
Theorem C2_PullImageIfRequired_skips_absent_image :
  forall (GetCanonicalImageName : string -> string) (imagename : string),
    containerd.PullImageIfRequired containerd.no_fault GetCanonicalImageName imagename
                                   containerd_example.store
    = (containerd.record_call containerd.ListImages containerd_example.store, Ret tt)
    /\ (containerd_example.busybox ∉ containerd.images containerd_example.store)
    /\ containerd.trace containerd_example.store
         (fst (containerd.PullImageIfRequired containerd.no_fault (fun s => s)
                 containerd_example.busybox containerd_example.store))
       = [containerd.ListImages].
Proof.
  intros canon img. split; [reflexivity|]. split; [|reflexivity].
  unfold containerd_example.busybox. simpl.
  rewrite list_elem_of_singleton. discriminate.
Qed.

(** ** The management network *)

Lemma SetMgmtNet_bridge_given c n :
  Bridge n <> "" -> mgmt.Mgmt (mgmt.SetMgmtNet c n) = n.
Proof.
  intros H. unfold mgmt.SetMgmtNet. simpl.
  destruct (String.eqb_spec (Bridge n) ""); done.
Qed.

Lemma SetMgmtNet_bridge_derived c n :
  Bridge n = "" ->
  Bridge (mgmt.Mgmt (mgmt.SetMgmtNet c n))
  = if String.eqb (Network n) "" then "br-" else "br-clab".
Proof.
  intros H. unfold mgmt.SetMgmtNet. simpl. rewrite H. simpl.
  destruct (String.eqb_spec (Network n) "") as [->|]; done.
Qed.

(** Recording the same descriptor again changes nothing. *)
Lemma SetMgmtNet_idempotent c n :
  mgmt.SetMgmtNet (mgmt.SetMgmtNet c n) n = mgmt.SetMgmtNet c n.
Proof. reflexivity. Qed.

(** The podman driver derives the bridge name without a prefix. *)
Lemma netOpts_bridge_derived m :
  Bridge m = "" -> Bridge (mgmt.netOpts_bridge m) = Network m.
Proof.
  intros H. unfold mgmt.netOpts_bridge. rewrite H. simpl.
  destruct (String.eqb_spec (Network m) "") as [->|]; done.
Qed.

(** C3, on the containerd driver.  Without a bridge name the bridge is
    to be ["br-"] followed by the name of the network.  [SetMgmtNet]
    takes the name of the network only when it is empty, and ["clab"]
    otherwise: for the network ["mynet"] it records the bridge
    ["br-clab"], not ["br-mynet"]. *)
Theorem C3_SetMgmtNet_bridge_of_named_network :
  Bridge (mgmt.Mgmt (mgmt.SetMgmtNet containerd_example.runtime containerd_example.mynet))
  = "br-clab"
  /\ "br-clab" <> "br-" +:+ Network containerd_example.mynet
  /\ Network (mgmt.Mgmt (mgmt.SetMgmtNet containerd_example.runtime containerd_example.mynet))
     = "mynet".
Proof. repeat split; done. Qed.

(** ** Management addresses kept in labels *)

Section LabelFacts.
Import containerd_labels.

(** What a successful extraction returns: the flag tells whether a
    netmask label is there, the prefix lengths are those of the netmask
    labels, and the addresses are those of the address labels. *)
Lemma extractIPInfoFromLabels_Ret (labels : gmap string string) r :
  extractIPInfoFromLabels labels = Ret r ->
  Set_ r = bool_decide (is_Some (labels !! "clab.ipv4.netmask")
                        \/ is_Some (labels !! "clab.ipv6.netmask"))
  /\ IPv4addr r = at_key labels "clab.ipv4.addr"
  /\ IPv6addr r = at_key labels "clab.ipv6.addr"
  /\ (labels !! "clab.ipv4.netmask" = None -> IPv4pLen r = 0%Z)
  /\ (labels !! "clab.ipv6.netmask" = None -> IPv6pLen r = 0%Z)
  /\ IPv4Gw r = "" /\ IPv6Gw r = "".
Proof.
  unfold extractIPInfoFromLabels. unfold mbind, mret, outcome_bind, outcome_ret.
  destruct (labels !! "clab.ipv4.netmask") as [v4|] eqn:H4;
    destruct (labels !! "clab.ipv6.netmask") as [v6|] eqn:H6; simpl.
  - destruct (strconv.Atoi v4); simpl; [|done..].
    destruct (strconv.Atoi v6); simpl; [|done..].
    intros [= <-]. simpl. by repeat split.
  - destruct (strconv.Atoi v4); simpl; [|done..].
    intros [= <-]. simpl. by repeat split.
  - destruct (strconv.Atoi v6); simpl; [|done..].
    intros [= <-]. simpl. by repeat split.
  - intros [= <-]. simpl. by repeat split.
Qed.

End LabelFacts.

(** C4, as the claim has it, fails: from the address label alone the
    result has [Set] false and the address ["10.0.0.2"]. *)
Lemma C4_counterexample :
  exists r,
    containerd_labels.extractIPInfoFromLabels containerd_example.labels_addr_only = Ret r
    /\ Set_ r = false /\ IPv4addr r = "10.0.0.2" /\ IPv4addr r <> "".
Proof. eexists. repeat split; try reflexivity. simpl. discriminate. Qed.

(** C4, amended.  For every label map in which an address label comes
    only with the netmask label of its family, a result with [Set]
    false has empty address fields and zero prefix lengths; and the map
    with the address ["10.0.0.2"] and the netmask ["24"] gives [Set]
    true, that address and the prefix length 24. *)
Theorem C4_extractIPInfoFromLabels_unset_is_empty :
  (forall (labels : gmap string string) r,
     (is_Some (labels !! "clab.ipv4.addr") -> is_Some (labels !! "clab.ipv4.netmask")) ->
     (is_Some (labels !! "clab.ipv6.addr") -> is_Some (labels !! "clab.ipv6.netmask")) ->
     containerd_labels.extractIPInfoFromLabels labels = Ret r ->
     Set_ r = false ->
     IPv4addr r = "" /\ IPv6addr r = "" /\ IPv4Gw r = "" /\ IPv6Gw r = ""
     /\ IPv4pLen r = 0%Z /\ IPv6pLen r = 0%Z)
  /\ exists r,
       containerd_labels.extractIPInfoFromLabels containerd_example.labels_v4 = Ret r
       /\ Set_ r = true /\ IPv4addr r = "10.0.0.2" /\ IPv4pLen r = 24%Z.
Proof.
  split.
  - intros labels r H4 H6 Hr Hset.
    apply extractIPInfoFromLabels_Ret in Hr as (HS & Ha4 & Ha6 & Hp4 & Hp6 & Hg4 & Hg6).
    rewrite Hset in HS. symmetry in HS. apply bool_decide_eq_false in HS.
    assert (labels !! "clab.ipv4.netmask" = None) as N4.
    { apply eq_None_not_Some. intros ?. apply HS. by left. }
    assert (labels !! "clab.ipv6.netmask" = None) as N6.
    { apply eq_None_not_Some. intros ?. apply HS. by right. }
    assert (labels !! "clab.ipv4.addr" = None) as A4.
    { apply eq_None_not_Some. intros X%H4. rewrite N4 in X. by destruct X. }
    assert (labels !! "clab.ipv6.addr" = None) as A6.
    { apply eq_None_not_Some. intros X%H6. rewrite N6 in X. by destruct X. }
    unfold containerd_labels.at_key in *. rewrite A4 in Ha4. rewrite A6 in Ha6.
    repeat split; auto.
  - eexists. repeat split; reflexivity.
Qed.

Lemma C4_extractIPInfoFromLabels_unset_is_empty_witness :
  let labels : gmap string string := {[ "containerlab" := "lab1" ]} in
  let r := mkMgmtIPs false "" 0 "" "" 0 "" in
  containerd_labels.extractIPInfoFromLabels labels = Ret r
  /\ Set_ r = false
  /\ (IPv4addr r = "" /\ IPv6addr r = "" /\ IPv4Gw r = "" /\ IPv6Gw r = ""
      /\ IPv4pLen r = 0%Z /\ IPv6pLen r = 0%Z).
Proof.
  intros labels r.
  assert (containerd_labels.extractIPInfoFromLabels labels = Ret r) as Hr by reflexivity.
  split; [exact Hr|]. split; [reflexivity|].
  refine (proj1 C4_extractIPInfoFromLabels_unset_is_empty labels r _ _ Hr eq_refl).
  - intros [x Hx]. vm_compute in Hx. discriminate.
  - intros [x Hx]. vm_compute in Hx. discriminate.
Defined.

(** ** Stopping a container *)

Section StopFacts.
Import containerd requests.

Lemma kill_follows_resume_sound name tr : forall resumed,
  kill_follows_resume name resumed tr = true ->
  forall pre post, tr = (pre ++ TaskKill name :: post)%list ->
    resumed = true \/ TaskResume name ∈ pre.
Proof.
  induction tr as [|c tr IH]; intros resumed Hk pre post Heq.
  - by destruct pre.
  - destruct pre as [|c' pre]; simplify_eq/=.
    + rewrite String.eqb_refl in Hk. simpl in Hk.
      apply andb_true_iff in Hk as [-> _]. by left.
    + destruct c'; simpl in Hk;
        try (destruct (IH _ Hk _ _ eq_refl) as [->|?]; [by left|right; set_solver]).
      * destruct (IH _ Hk _ _ eq_refl) as [[->| ->%String.eqb_eq]%orb_true_iff|?];
          [by left|right; set_solver|right; set_solver].
      * apply andb_true_iff in Hk as [_ Hk].
        destruct (IH _ Hk _ _ eq_refl) as [->|?]; [by left|right; set_solver].
Qed.

Lemma trace_app w l i c s t :
  trace w (mkWorld i c s (calls w ++ l) t) = l.
Proof. unfold trace. simpl. by rewrite drop_app_length. Qed.

Lemma trace_refl w : trace w w = [].
Proof. unfold trace. by rewrite drop_all. Qed.

Variable fault : nat -> Call -> option error.

Ltac run_stop :=
  unfold StopContainer, getContainerTask, attempt, waitContainerStop, Warnf,
    client_LoadContainer, cont_Task, task_Status, task_Wait, task_Resume,
    task_Kill, task_Delete, request, record_call, set_tasks;
  unfold mbind, mret, ST_bind, ST_ret; simpl.

Ltac stop_cases :=
  repeat (case_match; simpl in *; simplify_eq; simpl in * ).

Ltac read_trace :=
  rewrite <- ?(assoc_L app); rewrite ?trace_app; simpl.

Ltac count_requests :=
  repeat match goal with
  | H : context [length (_ ++ _)%list] |- _ => rewrite length_app in H; simpl in H
  | H : context [(_ + 1)%nat] |- _ => rewrite Nat.add_1_r in H
  end.

(** A paused task: when the container is there and the lookup, the
    status and the registration for the exit do not fail, the resume is
    sent and then the kill, whether the resume fails or not. *)
Lemma StopContainer_paused_sends name w st w' r :
  tasks w !! name = Some st ->
  st = Paused \/ st = Pausing ->
  name ∈ containers w ->
  unfailed fault w [LoadContainer name; ContainerTask name; TaskStatus name;
                    TaskWait name] = true ->
  StopContainer fault name w = (w', r) ->
  exists rest,
    trace w w' = ([LoadContainer name; ContainerTask name; TaskStatus name;
                   TaskWait name; TaskResume name; TaskKill name] ++ rest)%list.
Proof.
  intros Ht Hst Hin. unfold unfailed. simpl. run_stop.
  destruct Hst as [-> | ->].
  all: stop_cases; try done; count_requests; try congruence.
  all: intros _ [= <- <-]; read_trace; eauto.
Qed.

(** A task that was created or has stopped: when the container is there
    and the lookup and the status do not fail, the delete is the only
    other request. *)
Lemma StopContainer_idle_sends name w st w' r :
  tasks w !! name = Some st ->
  st = Created \/ st = Stopped ->
  name ∈ containers w ->
  unfailed fault w [LoadContainer name; ContainerTask name; TaskStatus name] = true ->
  StopContainer fault name w = (w', r) ->
  trace w w' = [LoadContainer name; ContainerTask name; TaskStatus name; TaskDelete name].
Proof.
  intros Ht Hst Hin. unfold unfailed. simpl. run_stop.
  destruct Hst as [-> | ->].
  all: stop_cases; try done; count_requests; try congruence.
  all: intros _ [= <- <-]; read_trace; eauto.
Qed.

(** When the lookup of the task fails, for whatever reason, the call
    returns without error, deletes nothing and leaves the tasks as they
    are. *)
Lemma StopContainer_not_found name w w' r :
  snd (getContainerTask fault name w) <> Ret name ->
  StopContainer fault name w = (w', r) ->
  r = Ret tt /\ tasks w' = tasks w
  /\ Forall (fun c => is_delete_of name c = false) (trace w w').
Proof.
  run_stop. stop_cases; intros Hfound Hs; simplify_eq; try done.
  all: read_trace; by repeat constructor.
Qed.

(** A paused task is sent no kill before a resume, whatever fails. *)
Lemma StopContainer_paused name w st w' r :
  tasks w !! name = Some st ->
  st = Paused \/ st = Pausing ->
  StopContainer fault name w = (w', r) ->
  kill_follows_resume name false (trace w w') = true.
Proof.
  intros Ht Hst. run_stop. destruct Hst as [-> | ->].
  all: stop_cases; intros [= <- <-]; read_trace; by rewrite ?String.eqb_refl.
Qed.

(** A task that was created or has stopped is neither killed nor waited for. *)
Lemma StopContainer_idle name w st w' r :
  tasks w !! name = Some st ->
  st = Created \/ st = Stopped ->
  StopContainer fault name w = (w', r) ->
  Forall (fun c => is_kill c = false /\ is_wait c = false) (trace w w').
Proof.
  intros Ht Hst. run_stop. destruct Hst as [-> | ->].
  all: stop_cases; intros [= <- <-]; read_trace; by repeat constructor.
Qed.

(** Without a task the call succeeds, sends no kill and leaves the
    tasks as they are. *)
Lemma StopContainer_no_task name w :
  tasks w !! name = None ->
  snd (StopContainer fault name w) = Ret tt
  /\ tasks (fst (StopContainer fault name w)) = tasks w
  /\ Forall (fun c => is_kill c = false) (trace w (fst (StopContainer fault name w))).
Proof.
  intros Ht. run_stop.
  stop_cases; read_trace; by repeat constructor.
Qed.

(** When the task is found and the call succeeds, the task record has
    been deleted by the last request of the call. *)
Lemma StopContainer_success name w w' :
  snd (getContainerTask fault name w) = Ret name ->
  StopContainer fault name w = (w', Ret tt) ->
  tasks w' !! name = None /\ last (trace w w') = Some (TaskDelete name).
Proof.
  run_stop. stop_cases; intros Hfound Hs; simplify_eq.
  all: read_trace; split; [apply lookup_delete_eq|done].
Qed.

(** C6.  When the task is in state Paused or Pausing, every kill that
    is sent comes after a resume sent in the same call, whatever fails;
    and when the state is observed (the container is there, the lookup
    and the status do not fail) and the registration for the exit does
    not fail, the resume is sent and then the kill, whether the resume
    fails or not.  When the task is in state Created or Stopped, no
    kill is sent, no exit notification is registered for and none is
    waited for, whatever fails; and when the state is observed, the
    requests of the call are the lookup, the status and the delete. *)
Theorem C6_StopContainer_resume_before_kill name w st w' r :
  tasks w !! name = Some st ->
  StopContainer fault name w = (w', r) ->
  (st = Paused \/ st = Pausing ->
   (forall pre post, trace w w' = (pre ++ TaskKill name :: post)%list ->
      TaskResume name ∈ pre)
   /\ (name ∈ containers w ->
       unfailed fault w [LoadContainer name; ContainerTask name; TaskStatus name;
                         TaskWait name] = true ->
       exists rest,
         trace w w' = ([LoadContainer name; ContainerTask name; TaskStatus name;
                        TaskWait name; TaskResume name; TaskKill name] ++ rest)%list))
  /\ (st = Created \/ st = Stopped ->
      Forall (fun c => is_kill c = false /\ is_wait c = false) (trace w w')
      /\ (name ∈ containers w ->
          unfailed fault w [LoadContainer name; ContainerTask name; TaskStatus name] = true ->
          trace w w' = [LoadContainer name; ContainerTask name; TaskStatus name;
                        TaskDelete name])).
Proof.
  intros Ht Hs. split; intros Hst; split.
  - intros pre post Htr.
    pose proof (StopContainer_paused name w st w' r Ht Hst Hs) as Hk.
    by destruct (kill_follows_resume_sound _ _ _ Hk _ _ Htr).
  - intros Hin Hok. by eapply StopContainer_paused_sends.
  - by eapply StopContainer_idle.
  - intros Hin Hok. by eapply StopContainer_idle_sends.
Qed.

(** C7.  For a container without a task, [StopContainer] returns
    without error; called twice in a row it does so both times, sends
    no kill in either call and leaves the tasks as they were. *)
Theorem C7_StopContainer_without_task_twice name w :
  tasks w !! name = None ->
  let w1 := fst (StopContainer fault name w) in
  let w2 := fst (StopContainer fault name w1) in
  snd (StopContainer fault name w) = Ret tt
  /\ snd (StopContainer fault name w1) = Ret tt
  /\ Forall (fun c => is_kill c = false) (trace w w1)
  /\ Forall (fun c => is_kill c = false) (trace w1 w2)
  /\ tasks w2 = tasks w.
Proof.
  intros Ht w1 w2.
  destruct (StopContainer_no_task name w Ht) as (Hr1 & Ht1 & Hk1).
  assert (tasks w1 !! name = None) as Ht' by (subst w1; by rewrite Ht1).
  destruct (StopContainer_no_task name w1 Ht') as (Hr2 & Ht2 & Hk2).
  repeat split; try done. subst w2. by rewrite Ht2.
Qed.

(** C10, amended.  For a container that has a task, when
    [StopContainer] returns without error: if the lookup of the task
    returned it, the last request of the call deleted the task record
    and the container has no task afterwards, also in the states
    Created and Stopped, in which no kill is sent; if the lookup
    failed, for whatever reason, no delete was sent and the tasks are
    as they were. *)
Theorem C10_StopContainer_success_deletes_task name w st w' :
  tasks w !! name = Some st ->
  StopContainer fault name w = (w', Ret tt) ->
  (snd (getContainerTask fault name w) = Ret name ->
   tasks w' !! name = None
   /\ last (trace w w') = Some (TaskDelete name)
   /\ (st = Created \/ st = Stopped ->
       Forall (fun c => is_kill c = false) (trace w w')))
  /\ (snd (getContainerTask fault name w) <> Ret name ->
      tasks w' !! name = Some st
      /\ Forall (fun c => is_delete_of name c = false) (trace w w')).
Proof.
  intros Ht Hs. split; intros Hfound.
  - destruct (StopContainer_success name w w' Hfound Hs) as [Hnone Hlast].
    split; [done|]. split; [done|]. intros Hst.
    eapply Forall_impl; [by eapply StopContainer_idle|]. by intros c [? _].
  - destruct (StopContainer_not_found name w w' (Ret tt) Hfound Hs) as (_ & Heq & Hdel).
    split; [by rewrite Heq|done].
Qed.

End StopFacts.

(** On an engine that does not fail, a paused task is resumed, killed,
    waited for and deleted, in this order. *)
Lemma StopContainer_paused_run :
  let w := requests.engine containerd.Paused in
  let res := containerd.StopContainer containerd.no_fault "n1" w in
  snd res = Ret tt
  /\ containerd.trace w (fst res)
     = [containerd.LoadContainer "n1"; containerd.ContainerTask "n1";
        containerd.TaskStatus "n1"; containerd.TaskWait "n1";
        containerd.TaskResume "n1"; containerd.TaskKill "n1";
        containerd.ExitWait "n1"; containerd.TaskDelete "n1"]
  /\ containerd.tasks (fst res) !! "n1" = None
  /\ containerd.logged (fst res) = [].
Proof. repeat split; vm_compute; reflexivity. Qed.

(** When the resume fails, a warning is logged and the kill is sent all
    the same. *)
Lemma StopContainer_resume_fails_run :
  let w := requests.engine containerd.Paused in
  let fault := fun (k : nat) (c : containerd.Call) =>
                 match c with
                 | containerd.TaskResume _ => Some (Engine "cannot resume")
                 | _ => None
                 end in
  let res := containerd.StopContainer fault "n1" w in
  snd res = Ret tt
  /\ containerd.trace w (fst res)
     = [containerd.LoadContainer "n1"; containerd.ContainerTask "n1";
        containerd.TaskStatus "n1"; containerd.TaskWait "n1";
        containerd.TaskResume "n1"; containerd.TaskKill "n1";
        containerd.ExitWait "n1"; containerd.TaskDelete "n1"]
  /\ containerd.logged (fst res)
     = [log.Warnf "Cannot unpause container %s: %s"
                  [log.Str "n1"; log.Err (Engine "cannot resume")]].
Proof. repeat split; vm_compute; reflexivity. Qed.

(** A task that was only created is deleted at once. *)
Lemma StopContainer_created_run :
  let w := requests.engine containerd.Created in
  let res := containerd.StopContainer containerd.no_fault "n1" w in
  snd res = Ret tt
  /\ containerd.trace w (fst res)
     = [containerd.LoadContainer "n1"; containerd.ContainerTask "n1";
        containerd.TaskStatus "n1"; containerd.TaskDelete "n1"]
  /\ containerd.tasks (fst res) !! "n1" = None.
Proof. repeat split; vm_compute; reflexivity. Qed.

(** A task that has stopped: the first call deletes its record without
    a kill, the second finds no task; both return without error. *)
Lemma StopContainer_stopped_twice_run :
  let w := requests.engine containerd.Stopped in
  let res1 := containerd.StopContainer containerd.no_fault "n1" w in
  let res2 := containerd.StopContainer containerd.no_fault "n1" (fst res1) in
  snd res1 = Ret tt /\ snd res2 = Ret tt
  /\ containerd.trace w (fst res2)
     = [containerd.LoadContainer "n1"; containerd.ContainerTask "n1";
        containerd.TaskStatus "n1"; containerd.TaskDelete "n1";
        containerd.LoadContainer "n1"; containerd.ContainerTask "n1"].
Proof. repeat split; vm_compute; reflexivity. Qed.

Lemma C6_StopContainer_resume_before_kill_witness :
  let w := requests.engine containerd.Paused in
  let res := containerd.StopContainer containerd.no_fault "n1" w in
  let sent := [containerd.LoadContainer "n1"; containerd.ContainerTask "n1";
               containerd.TaskStatus "n1"; containerd.TaskWait "n1";
               containerd.TaskResume "n1"] in
  containerd.tasks w !! "n1" = Some containerd.Paused
  /\ res = (fst res, snd res)
  /\ "n1" ∈ containerd.containers w
  /\ requests.unfailed containerd.no_fault w
       [containerd.LoadContainer "n1"; containerd.ContainerTask "n1";
        containerd.TaskStatus "n1"; containerd.TaskWait "n1"] = true
  /\ containerd.trace w (fst res)
     = (sent ++ containerd.TaskKill "n1"
             :: [containerd.ExitWait "n1"; containerd.TaskDelete "n1"])%list
  /\ containerd.TaskResume "n1" ∈ sent
  /\ exists rest,
       containerd.trace w (fst res)
       = ([containerd.LoadContainer "n1"; containerd.ContainerTask "n1";
           containerd.TaskStatus "n1"; containerd.TaskWait "n1";
           containerd.TaskResume "n1"; containerd.TaskKill "n1"] ++ rest)%list.
Proof.
  intros w res sent.
  assert (containerd.tasks w !! "n1" = Some containerd.Paused) as Ht
    by (vm_compute; reflexivity).
  assert (res = (fst res, snd res)) as Hs by (vm_compute; reflexivity).
  assert ("n1" ∈ containerd.containers w) as Hin
    by (refine (bool_decide_unpack _ _); vm_compute; exact I).
  assert (requests.unfailed containerd.no_fault w
            [containerd.LoadContainer "n1"; containerd.ContainerTask "n1";
             containerd.TaskStatus "n1"; containerd.TaskWait "n1"] = true) as Hok
    by reflexivity.
  assert (containerd.trace w (fst res)
          = (sent ++ containerd.TaskKill "n1"
                  :: [containerd.ExitWait "n1"; containerd.TaskDelete "n1"])%list) as Htr
    by (vm_compute; reflexivity).
  destruct (C6_StopContainer_resume_before_kill containerd.no_fault "n1" w
              containerd.Paused (fst res) (snd res) Ht Hs) as [Hpaused _].
  destruct (Hpaused (or_introl eq_refl)) as [Hbefore Hsent].
  repeat (split; [assumption|]).
  split; [exact (Hbefore sent _ Htr)|exact (Hsent Hin Hok)].
Defined.

Lemma C7_StopContainer_without_task_twice_witness :
  let w := requests.engine_no_task in
  let w1 := fst (containerd.StopContainer containerd.no_fault "n1" w) in
  let w2 := fst (containerd.StopContainer containerd.no_fault "n1" w1) in
  containerd.tasks w !! "n1" = None
  /\ snd (containerd.StopContainer containerd.no_fault "n1" w) = Ret tt
  /\ snd (containerd.StopContainer containerd.no_fault "n1" w1) = Ret tt
  /\ Forall (fun c => requests.is_kill c = false) (containerd.trace w w1)
  /\ Forall (fun c => requests.is_kill c = false) (containerd.trace w1 w2)
  /\ containerd.tasks w2 = containerd.tasks w.
Proof.
  intros w w1 w2. split; [vm_compute; reflexivity|].
  apply (C7_StopContainer_without_task_twice containerd.no_fault "n1" w).
  vm_compute; reflexivity.
Defined.

Lemma C10_StopContainer_success_deletes_task_witness :
  let w := requests.engine containerd.Created in
  let res := containerd.StopContainer containerd.no_fault "n1" w in
  containerd.tasks w !! "n1" = Some containerd.Created
  /\ res = (fst res, Ret tt)
  /\ snd (containerd.getContainerTask containerd.no_fault "n1" w) = Ret "n1"
  /\ containerd.tasks (fst res) !! "n1" = None
  /\ last (containerd.trace w (fst res)) = Some (containerd.TaskDelete "n1")
  /\ Forall (fun c => requests.is_kill c = false) (containerd.trace w (fst res)).
Proof.
  intros w res.
  assert (containerd.tasks w !! "n1" = Some containerd.Created) as Ht
    by (vm_compute; reflexivity).
  assert (res = (fst res, Ret tt)) as Hs by (vm_compute; reflexivity).
  assert (snd (containerd.getContainerTask containerd.no_fault "n1" w) = Ret "n1") as Hfound
    by (vm_compute; reflexivity).
  destruct (C10_StopContainer_success_deletes_task containerd.no_fault "n1" w
              containerd.Created (fst res) Ht Hs) as [Hdeleted _].
  destruct (Hdeleted Hfound) as (Hnone & Hlast & Hkill).
  repeat (split; [assumption|]). apply Hkill. by left.
Defined.

(** C10, as the claim has it, fails when the task exists and the lookup
    of the container fails on the way to the engine: the call returns
    without error after this one request, and the task is still there. *)
Lemma C10_counterexample :
  let w := requests.engine containerd.Running in
  let res := containerd.StopContainer requests.load_fails "n1" w in
  containerd.tasks w !! "n1" = Some containerd.Running
  /\ snd res = Ret tt
  /\ containerd.trace w (fst res) = [containerd.LoadContainer "n1"]
  /\ containerd.tasks (fst res) !! "n1" = Some containerd.Running.
Proof. repeat split; vm_compute; reflexivity. Qed.

(** ** Filters *)

Lemma append_assoc (a b c : string) : (a +:+ b) +:+ c = a +:+ b +:+ c.
Proof.
  induction a as [|x a IH]; [done|].
  change (String x ((a +:+ b) +:+ c) = String x (a +:+ b +:+ c)). by f_equal.
Qed.

Lemma append_nil_r (a : string) : a +:+ "" = a.
Proof.
  induction a as [|x a IH]; [done|].
  change (String x (a +:+ "") = String x a). by f_equal.
Qed.

Section PodmanFilterFacts.
Import podman_filters filter_terms.

(** Making sure that the key is there before appending to its list
    changes nothing. *)
Lemma append_at_key (filters : gmap string (list string)) t (x : list string) :
  <[t := (default [] (match filters !! t with
                      | Some _ => filters
                      | None => <[t := []]> filters
                      end !! t) ++ x)%list]>
    (match filters !! t with
     | Some _ => filters
     | None => <[t := []]> filters
     end)
  = <[t := (default [] (filters !! t) ++ x)%list]> filters.
Proof.
  destruct (filters !! t) eqn:Hl; [by rewrite Hl|].
  by rewrite lookup_insert_eq, insert_insert_eq.
Qed.

(** One round: a warning for a filter that is skipped, one more string
    under the type of the filter otherwise. *)
Lemma buildFilterString_step_spec (filters : gmap string (list string)) logged gF :
  buildFilterString_step (filters, logged) gF
  = if podman_skipped gF then (filters, (logged ++ [podman_warning gF])%list)
    else (<[FilterType gF := (default [] (filters !! FilterType gF) ++ [podman_term gF])%list]>
            filters, logged).
Proof.
  unfold buildFilterString_step, podman_skipped, podman_term.
  destruct (String.eqb_spec (Operator gF) "exists") as [He|He];
    destruct (String.eqb_spec (FilterType gF) "name") as [Hn|Hn]; simpl.
  - by rewrite append_at_key.
  - rewrite orb_true_r. simpl. by rewrite append_at_key.
  - by rewrite append_at_key.
  - rewrite orb_false_r.
    destruct (String.eqb_spec (Operator gF) "=") as [Hq|Hq]; simpl; [|done].
    rewrite Hq. by rewrite append_at_key.
Qed.

Lemma buildFilterString_fold gFilters : forall (filters : gmap string (list string)) logged,
  snd (fold_left buildFilterString_step gFilters (filters, logged))
  = (logged ++ map podman_warning (List.filter podman_skipped gFilters))%list
  /\ forall t,
       fst (fold_left buildFilterString_step gFilters (filters, logged)) !! t
       = match podman_terms t gFilters with
         | [] => filters !! t
         | l => Some (default [] (filters !! t) ++ l)%list
         end.
Proof.
  induction gFilters as [|gF rest IH]; intros filters logged.
  - simpl. by rewrite app_nil_r.
  - cbn [fold_left]. rewrite buildFilterString_step_spec.
    unfold podman_terms. simpl List.filter.
    destruct (podman_skipped gF) eqn:Hs; simpl negb; simpl andb; cbv iota.
    + destruct (IH filters (logged ++ [podman_warning gF])%list) as [Hl Hm].
      split; [|done]. rewrite Hl. simpl. by rewrite <- (assoc_L app).
    + destruct (IH (<[FilterType gF := (default [] (filters !! FilterType gF)
                                        ++ [podman_term gF])%list]> filters) logged)
        as [Hl Hm].
      split; [done|]. intros t. rewrite Hm. unfold podman_terms.
      destruct (String.eqb_spec (FilterType gF) t) as [<-|Hne].
      * rewrite lookup_insert_eq. simpl.
        destruct (map podman_term _); simpl; [done|].
        by rewrite <- (assoc_L app).
      * by rewrite lookup_insert_ne.
Qed.

(** The whole translation: the warnings are those for the skipped
    filters; under each type are the strings of the other filters of
    that type. *)
Lemma buildFilterString_spec gFilters :
  snd (buildFilterString gFilters)
  = map podman_warning (List.filter podman_skipped gFilters)
  /\ forall t,
       fst (buildFilterString gFilters) !! t
       = match podman_terms t gFilters with [] => None | l => Some l end.
Proof.
  unfold buildFilterString.
  destruct (buildFilterString_fold gFilters ∅ []) as [Hl Hm].
  split; [done|]. intros t. rewrite Hm, lookup_empty. by destruct (podman_terms t gFilters).
Qed.

End PodmanFilterFacts.

Section ContainerdFilterFacts.
Import containerd_filters filter_terms.

(** One round: the text of the filter, followed by the delimiter or by
    nothing. *)
Lemma filterStringBuilder_step_spec s d f :
  exists sep, (sep = "" \/ sep = d)
    /\ filterStringBuilder_step (s, d) f = (s +:+ containerd_term f +:+ sep, ",").
Proof.
  unfold filterStringBuilder_step, containerd_term.
  destruct (String.eqb_spec (FilterType f) "label") as [Hl|Hl].
  - destruct (String.eqb_spec (Operator f) "=") as [Hq|Hq].
    + rewrite Hq. simpl. exists d. split; [by right|].
      by rewrite !append_assoc.
    + destruct (String.eqb_spec (Operator f) "exists") as [He|He]; simpl.
      * exists "". split; [by left|]. by rewrite !append_assoc, !append_nil_r.
      * exists d. split; [by right|]. by rewrite !append_assoc.
  - exists "". split; [by left|].
    destruct (String.eqb (Operator f) "="), (String.eqb (Operator f) "exists");
      simpl; by rewrite append_nil_r.
Qed.

Lemma filterStringBuilder_fold filter : forall s d,
  d = "" \/ d = "," ->
  exists seps,
    length seps = length filter
    /\ Forall (fun sep => sep = "" \/ sep = ",") seps
    /\ fst (fold_left filterStringBuilder_step filter (s, d))
       = s +:+ String.concat "" (zip_with (fun f sep => containerd_term f +:+ sep) filter seps).
Proof.
  induction filter as [|f rest IH]; intros s d Hd.
  - exists []. simpl. by rewrite append_nil_r.
  - cbn [fold_left].
    destruct (filterStringBuilder_step_spec s d f) as (sep & Hsep & ->).
    destruct (IH (s +:+ containerd_term f +:+ sep) "," (or_intror eq_refl))
      as (seps & Hlen & Hall & ->).
    exists (sep :: seps). split; [simpl; by rewrite Hlen|].
    split; [constructor; [destruct Hsep as [->| ->]; tauto|done]|].
    simpl zip_with.
    destruct (zip_with _ rest seps) as [|x l] eqn:Hz.
    + simpl. by rewrite !append_nil_r.
    + change (String.concat "" ((containerd_term f +:+ sep) :: x :: l))
        with ((containerd_term f +:+ sep) +:+ "" +:+ String.concat "" (x :: l)).
      simpl ("" +:+ _). by rewrite !append_assoc.
Qed.

Lemma filterStringBuilder_step_delim a f : snd (filterStringBuilder_step a f) = ",".
Proof.
  destruct a as [s d].
  by destruct (filterStringBuilder_step_spec s d f) as (sep & _ & ->).
Qed.

Lemma filterStringBuilder_fold_delim filter : forall a,
  snd a = "" \/ snd a = "," ->
  snd (fold_left filterStringBuilder_step filter a) = ""
  \/ snd (fold_left filterStringBuilder_step filter a) = ",".
Proof.
  induction filter as [|f rest IH]; intros a Ha; [done|].
  cbn [fold_left]. apply IH. right. apply filterStringBuilder_step_delim.
Qed.

(** A filter with the operator [exists], after any filters and before
    any others: its text in the query is [labels.] and the field when
    the type is [label], and nothing otherwise. *)
Lemma filterStringBuilder_exists before after f :
  Operator f = "exists" ->
  exists seps_b sep seps_a,
    length seps_b = length before /\ length seps_a = length after
    /\ Forall (fun s => s = "" \/ s = ",") (seps_b ++ sep :: seps_a)%list
    /\ fst (filterStringBuilder (before ++ f :: after))
       = String.concat "" (zip_with (fun f sep => containerd_term f +:+ sep) before seps_b)
         +:+ (if String.eqb (FilterType f) "label" then "labels." +:+ Field f else "")
         +:+ sep
         +:+ String.concat "" (zip_with (fun f sep => containerd_term f +:+ sep) after seps_a).
Proof.
  intros He. unfold filterStringBuilder. cbn [fst]. rewrite fold_left_app. cbn [fold_left].
  destruct (filterStringBuilder_fold before "" "" (or_introl eq_refl))
    as (seps_b & Hlb & Hab & Hb).
  pose proof (filterStringBuilder_fold_delim before ("", "") (or_introl eq_refl)) as Hd.
  destruct (fold_left filterStringBuilder_step before ("", "")) as [sb db].
  cbn [fst snd] in Hb, Hd. subst sb.
  change ("" +:+ ?x) with x.
  set (qb := String.concat "" _).
  assert (filterStringBuilder_step (qb, db) f
          = (qb +:+ (if String.eqb (FilterType f) "label" then "labels." +:+ Field f else ""),
             ",")) as ->.
  { unfold filterStringBuilder_step. rewrite He. simpl.
    destruct (String.eqb (FilterType f) "label"); simpl;
      [done|by rewrite ?append_nil_r]. }
  destruct (filterStringBuilder_fold after
              (qb +:+ (if String.eqb (FilterType f) "label" then "labels." +:+ Field f else ""))
              "," (or_intror eq_refl)) as (seps_a & Hla & Haa & ->).
  exists seps_b, "", seps_a. split; [done|]. split; [done|].
  split; [apply Forall_app; split; [done|constructor; [by left|done]]|].
  rewrite append_assoc. by change ("" +:+ ?x) with x.
Qed.

End ContainerdFilterFacts.

(** C8, as the claim has it, fails on the containerd driver: the name
    filter is left out of the query and no warning is logged. *)
Lemma C8_counterexample :
  containerd_filters.filterStringBuilder [filter_terms.name_filter] = ("", [])
  /\ filter_terms.containerd_term filter_terms.name_filter = "".
Proof. split; reflexivity. Qed.

(** C8, amended.  Neither translation fails.  The podman driver skips
    the filters whose type is not [name] and whose operator is neither
    [=] nor [exists], with one warning for each, and puts the string of
    every other filter under its type, in order.  The containerd driver
    logs no warning: the filters whose type is not [label] add nothing
    to its query, every filter of type [label] adds its text. *)
Theorem C8_filter_translations_skip_and_go_on :
  forall gFilters : list GenericFilter,
    (snd (podman_filters.buildFilterString gFilters)
     = map filter_terms.podman_warning (List.filter filter_terms.podman_skipped gFilters)
     /\ forall t,
          fst (podman_filters.buildFilterString gFilters) !! t
          = match filter_terms.podman_terms t gFilters with [] => None | l => Some l end)
    /\ (snd (containerd_filters.filterStringBuilder gFilters) = []
        /\ exists seps,
             length seps = length gFilters
             /\ Forall (fun sep => sep = "" \/ sep = ",") seps
             /\ fst (containerd_filters.filterStringBuilder gFilters)
                = String.concat ""
                    (zip_with (fun f sep => filter_terms.containerd_term f +:+ sep)
                              gFilters seps)).
Proof.
  intros gFilters. split; [apply buildFilterString_spec|]. split; [done|].
  destruct (filterStringBuilder_fold gFilters "" "" (or_introl eq_refl))
    as (seps & Hlen & Hall & Heq).
  exists seps. split; [done|]. split; [done|]. exact Heq.
Qed.

(** C9, as the claim has it, fails on the podman driver: the string for
    a filter with the operator [exists] is the field followed by [=]
    and the empty value. *)
Lemma C9_counterexample :
  fst (podman_filters.buildFilterString [filter_terms.exists_filter]) !! "label"
  = Some ["containerlab="]
  /\ "containerlab=" = Field filter_terms.exists_filter +:+ "=" +:+ ""
  /\ "containerlab=" <> Field filter_terms.exists_filter.
Proof. split; [vm_compute; reflexivity|]. split; [reflexivity|discriminate]. Qed.

(** C9, amended.  For a filter with the operator [exists], after any
    filters and before any others, the match value of the filter is in
    neither query.  In the query of the containerd driver the text of
    the filter is [labels.] and the field, without operator or value,
    when the type is [label], and nothing otherwise; the texts of the
    filters before and after it are around it, each followed by a comma
    or by nothing.  The podman driver adds, under the type of the
    filter, the empty string when the type is [name] and the field
    followed by [=] otherwise, and logs nothing. *)
Theorem C9_exists_filter_carries_no_match (before after : list GenericFilter)
        (f : GenericFilter) :
  Operator f = "exists" ->
  (exists seps_b sep seps_a,
     length seps_b = length before /\ length seps_a = length after
     /\ Forall (fun s => s = "" \/ s = ",") (seps_b ++ sep :: seps_a)%list
     /\ fst (containerd_filters.filterStringBuilder (before ++ f :: after))
        = String.concat ""
            (zip_with (fun f sep => filter_terms.containerd_term f +:+ sep) before seps_b)
          +:+ (if String.eqb (FilterType f) "label" then "labels." +:+ Field f else "")
          +:+ sep
          +:+ String.concat ""
                (zip_with (fun f sep => filter_terms.containerd_term f +:+ sep) after seps_a))
  /\ podman_filters.buildFilterString (before ++ f :: after)
     = fold_left podman_filters.buildFilterString_step after
         (let '(filters, logged) := podman_filters.buildFilterString before in
          (<[FilterType f :=
               (default [] (filters !! FilterType f)
                ++ [if String.eqb (FilterType f) "name" then "" else Field f +:+ "="])%list]>
             filters, logged)).
Proof.
  intros He. split.
  - by apply filterStringBuilder_exists.
  - unfold podman_filters.buildFilterString. rewrite fold_left_app. simpl.
    destruct (fold_left podman_filters.buildFilterString_step before (∅, []))
      as [filters logged].
    rewrite buildFilterString_step_spec.
    unfold filter_terms.podman_skipped, filter_terms.podman_term. rewrite He. simpl.
    rewrite andb_false_r.
    by destruct (String.eqb (FilterType f) "name").
Qed.

Lemma C9_exists_filter_carries_no_match_witness :
  let f := filter_terms.exists_filter in
  let before := [filter_terms.kind_filter] in
  let after := [filter_terms.node_filter] in
  Operator f = "exists"
  /\ (exists seps_b sep seps_a,
        length seps_b = length before /\ length seps_a = length after
        /\ Forall (fun s => s = "" \/ s = ",") (seps_b ++ sep :: seps_a)%list
        /\ fst (containerd_filters.filterStringBuilder (before ++ f :: after))
           = String.concat ""
               (zip_with (fun f sep => filter_terms.containerd_term f +:+ sep) before seps_b)
             +:+ "labels.containerlab"
             +:+ sep
             +:+ String.concat ""
                   (zip_with (fun f sep => filter_terms.containerd_term f +:+ sep)
                             after seps_a))
  /\ podman_filters.buildFilterString (before ++ f :: after)
     = fold_left podman_filters.buildFilterString_step after
         (let '(filters, logged) := podman_filters.buildFilterString before in
          (<[ "label" :=
               (default [] (filters !! "label") ++ ["containerlab="])%list]>
             filters, logged)).
Proof.
  intros f before after. split; [reflexivity|].
  exact (C9_exists_filter_carries_no_match before after f eq_refl).
Defined.

(** ** More on bind mounts *)

Section MountText.
Import strings mount_text.

Lemma Cut_inv s sep a b :
  Cut s sep = Some (a, b) -> s = a +:+ String sep b /\ ContainsByte a sep = false.
Proof.
  revert a. induction s as [|c s IH]; intros a; simpl; [done|].
  destruct (Ascii.eqb_spec c sep) as [->|Hne].
  - by intros [= <- <-].
  - destruct (Cut s sep) as [[a' b']|]; [|done]. intros [= <- <-].
    destruct (IH a' eq_refl) as [-> Ha]. split; [done|]. simpl.
    rewrite Ha. by destruct (Ascii.eqb_spec c sep).
Qed.

Lemma genSplit_nonempty k s sep : genSplit k s sep <> [].
Proof. destruct k; simpl; [done|]. by destruct (Cut s sep) as [[? ?]|]. Qed.

Lemma Join_cons x l sep : l <> [] -> Join (x :: l) sep = x +:+ String sep (Join l sep).
Proof. by destruct l. Qed.

(** Joining the pieces of a string gives the string back. *)
Lemma Join_genSplit k : forall s sep, Join (genSplit k s sep) sep = s.
Proof.
  induction k as [|k IH]; intros s sep; simpl; [done|].
  destruct (Cut s sep) as [[a b]|] eqn:Hc; [|done].
  rewrite Join_cons by apply genSplit_nonempty.
  rewrite IH. by apply Cut_inv in Hc as [-> _].
Qed.

Lemma Join_Split s sep : Join (Split s sep) sep = s.
Proof. apply Join_genSplit. Qed.

Lemma Split_nonempty s sep : Split s sep <> [].
Proof. apply genSplit_nonempty. Qed.

End MountText.

Section PodmanMountsMore.
Import podman_mounts podman_mounts_facts mount_text.

Lemma entry_bind_of mnt m : entry mnt = Ret m -> bind_of m = mnt /\ Type_ m = "bind".
Proof.
  unfold entry. rewrite SplitN3. simpl.
  destruct (strings.Cut mnt ":") as [[a r]|] eqn:Hc; simpl; [|done].
  apply Cut_inv in Hc as [-> _].
  destruct (strings.Cut r ":") as [[b t]|] eqn:Hr; simpl.
  - apply Cut_inv in Hr as [-> _]. intros [= <-]. split; [|done].
    unfold bind_of. simpl.
    pose proof (Split_nonempty t ",") as Hne. pose proof (Join_Split t ",") as Hj.
    destruct (strings.Split t ",") as [|x l]; [done|]. by rewrite <- Hj.
  - intros [= <-]. split; [|done]. unfold bind_of. simpl.
    f_equal. f_equal. by rewrite append_nil_r.
Qed.

Lemma entries_bind_of mounts : forall ms,
  entries mounts = Ret ms ->
  map bind_of ms = mounts /\ Forall (fun m => Type_ m = "bind") ms.
Proof.
  induction mounts as [|mnt rest IH]; intros ms; simpl.
  - by intros [= <-].
  - destruct (entry mnt) as [m| |] eqn:Hm; simpl; [|done..].
    destruct (entries rest) as [ms'| |]; simpl; [|done..].
    intros [= <-]. destruct (IH ms' eq_refl) as [Hmap Hall].
    apply entry_bind_of in Hm as [Hb Ht]. simpl. rewrite Hb, Hmap.
    split; [done|]. by constructor.
Qed.

(** X1.  [convertMounts] never panics.  It fails exactly when some
    bind has no [:], with the invalid-bind error of the first such
    bind; otherwise it returns one entry of type [bind] for each bind. *)
Theorem convertMounts_classified (mounts : list string) :
  match first_malformed mounts with
  | Some bad =>
      bad ∈ mounts /\ strings.ContainsByte bad ":" = false
      /\ convertMounts mounts = Fail (Wrapf errInvalidBind bad)
  | None =>
      Forall (fun mnt => strings.ContainsByte mnt ":" = true) mounts
      /\ exists ms, convertMounts mounts = Ret ms
                    /\ length ms = length mounts
                    /\ Forall (fun m => Type_ m = "bind") ms
  end.
Proof.
  destruct (first_malformed mounts) as [bad|] eqn:Hf.
  - pose proof (convertMounts_malformed _ _ Hf) as Hc.
    unfold first_malformed in Hf. apply List.find_some in Hf as [Hin Hb].
    split; [by apply list_elem_of_In|]. split; [by apply negb_true_iff|done].
  - assert (Forall (fun mnt => strings.ContainsByte mnt ":" = true) mounts) as Hall.
    { apply Forall_forall. intros mnt Hin%list_elem_of_In.
      unfold first_malformed in Hf. eapply List.find_none in Hf; [|done].
      simpl in Hf. by apply negb_false_iff in Hf. }
    split; [done|].
    destruct (convertMounts_wellformed _ Hall) as (ms & Hms & H2).
    exists ms. split; [done|]. split; [symmetry; by eapply Forall2_length|].
    rewrite convertMounts_entries in Hms. by apply entries_bind_of in Hms as [_ ?].
Qed.

(** X2.  The binds can be read back from the entries of
    [convertMounts]: source, [:], destination and, when an entry has
    options, [:] and the options joined by commas. *)
Theorem convertMounts_round_trip (mounts : list string) (ms : list Mount) :
  convertMounts mounts = Ret ms -> map bind_of ms = mounts.
Proof.
  rewrite convertMounts_entries. intros H. by apply entries_bind_of in H as [? _].
Qed.

Lemma convertMounts_round_trip_witness :
  let mounts := ["/a:/b"; "/c:/d:ro,z"; "/e:/f:x:y"; "/g:/h:"] in
  let ms := [mkMount "/b" "bind" "/a" []; mkMount "/d" "bind" "/c" ["ro"; "z"];
             mkMount "/f" "bind" "/e" ["x:y"]; mkMount "/h" "bind" "/g" [""]] in
  convertMounts mounts = Ret ms /\ map bind_of ms = mounts.
Proof.
  intros mounts ms.
  assert (convertMounts mounts = Ret ms) as H by reflexivity.
  split; [exact H|]. exact (convertMounts_round_trip mounts ms H).
Defined.

End PodmanMountsMore.

Section ContainerdMountsMore.
Import containerd_mounts mount_text.

Lemma CreateContainer_mounts_loop_entries binds : forall idx mounts,
  (idx + length binds <= length mounts)%nat ->
  CreateContainer_mounts_loop idx binds mounts =
    ms ← containerd_entries binds;
    Ret (take idx mounts ++ ms ++ drop (idx + length binds) mounts)%list.
Proof.
  induction binds as [|mount rest IH]; intros idx mounts Hlen; simpl in *.
  - rewrite Nat.add_0_r. by rewrite take_drop.
  - unfold containerd_entry.
    destruct (Go.index (strings.Split mount ":") 0) as [src| |]; simpl; [|done..].
    destruct (Go.index (strings.Split mount ":") 1) as [dst| |]; simpl; [|done..].
    assert (forall m, CreateContainer_mounts_loop (S idx) rest (<[idx := m]> mounts)
              = ms ← containerd_entries rest;
                Ret (take idx mounts ++ (m :: ms) ++ drop (idx + S (length rest)) mounts)%list)
      as Hstep.
    { intros m. rewrite IH by (rewrite length_insert; lia).
      destruct (containerd_entries rest) as [ms| |]; simpl; [|done..].
      rewrite (take_S_r _ _ m) by (apply list_lookup_insert_eq; lia).
      rewrite take_insert_ge by lia. rewrite drop_insert_lt by lia.
      rewrite <- (assoc_L app). simpl.
      by replace (S (idx + length rest)) with (idx + S (length rest))%nat by lia. }
    destruct (String.length mount =? 3)%nat.
    + destruct (Go.index (strings.Split mount ":") 2) as [opts| |]; simpl; [|done..].
      rewrite Hstep. by destruct (containerd_entries rest).
    + simpl. rewrite Hstep. by destruct (containerd_entries rest).
Qed.

Lemma CreateContainer_mounts_entries binds :
  CreateContainer_mounts binds = containerd_entries binds.
Proof.
  unfold CreateContainer_mounts.
  rewrite CreateContainer_mounts_loop_entries by (rewrite length_replicate; simpl; lia).
  destruct (containerd_entries binds) as [ms| |]; simpl; [|done..].
  rewrite drop_ge by (rewrite length_replicate; lia). by rewrite app_nil_r.
Qed.

Lemma containerd_entry_Ret mount m :
  containerd_entry mount = Ret m ->
  exists src dst rest,
    strings.Split mount ":" = src :: dst :: rest
    /\ Source m = src /\ Destination m = dst /\ Type_ m = ""
    /\ take 2 (Options m) = ["rbind"; "rprivate"]
    /\ (String.length mount <> 3%nat -> Options m = ["rbind"; "rprivate"]).
Proof.
  unfold containerd_entry.
  destruct (strings.Split mount ":") as [|src [|dst rest]] eqn:Hs; simpl; [done..|].
  destruct (Nat.eqb_spec (String.length mount) 3) as [H3|H3].
  - destruct rest as [|opts rest]; simpl; [done|]. intros [= <-]. simpl.
    exists src, dst, (opts :: rest). by repeat split.
  - intros [= <-]. simpl. exists src, dst, rest. by repeat split.
Qed.

Lemma containerd_entry_no_error mount e : containerd_entry mount <> Fail e.
Proof.
  unfold containerd_entry.
  destruct (strings.Split mount ":") as [|src [|dst rest]]; simpl; [done..|].
  destruct (String.length mount =? 3)%nat; [|done].
  by destruct rest.
Qed.

(** X3.  The bind loop of [CreateContainer] of the containerd driver
    never returns an error.  When it returns, there is one entry for
    each bind, whose source and destination are the first two pieces of
    the bind between [:], whose type is empty and whose options begin
    with [rbind] and [rprivate]; for a bind that is not three bytes
    long these are all its options. *)
Theorem CreateContainer_mounts_result (binds : list string) :
  (forall e, CreateContainer_mounts binds <> Fail e)
  /\ forall ms, CreateContainer_mounts binds = Ret ms ->
       Forall2 (fun mount m =>
                  exists src dst rest,
                    strings.Split mount ":" = src :: dst :: rest
                    /\ Source m = src /\ Destination m = dst /\ Type_ m = ""
                    /\ take 2 (Options m) = ["rbind"; "rprivate"]
                    /\ (String.length mount <> 3%nat ->
                        Options m = ["rbind"; "rprivate"]))
               binds ms.
Proof.
  rewrite CreateContainer_mounts_entries. split.
  - induction binds as [|mount rest IH]; intros e; simpl; [done|].
    destruct (containerd_entry mount) as [m| |] eqn:Hm; simpl; [| |done].
    + destruct (containerd_entries rest) as [ms| |] eqn:Hr; simpl; [done| |done].
      intros [= ->]. by eapply IH.
    + intros [= ->]. by eapply containerd_entry_no_error.
  - induction binds as [|mount rest IH]; intros ms; simpl.
    + intros [= <-]. constructor.
    + destruct (containerd_entry mount) as [m| |] eqn:Hm; simpl; [|done..].
      destruct (containerd_entries rest) as [ms'| |]; simpl; [|done..].
      intros [= <-]. constructor; [by apply containerd_entry_Ret|by apply IH].
Qed.

End ContainerdMountsMore.

(** ** More on stopping a container *)

Section StopMore.
Import containerd stop_sequence.

Variable fault : nat -> Call -> option error.

Ltac run_stop :=
  unfold StopContainer, getContainerTask, attempt, waitContainerStop, Warnf,
    client_LoadContainer, cont_Task, task_Status, task_Wait, task_Resume,
    task_Kill, task_Delete, request, record_call, set_tasks;
  unfold mbind, mret, ST_bind, ST_ret; simpl.

Ltac stop_cases :=
  repeat (case_match; simpl in *; simplify_eq; simpl in * ).

Ltac read_trace :=
  rewrite <- ?(assoc_L app); rewrite ?trace_app, ?trace_refl; simpl.

(** X4.  Whatever fails, the requests of one call of [StopContainer]
    are an initial part of the sequence for the state of the task:
    lookup of container and task, status, then (unless the task is
    Created or Stopped) registration for the exit, a resume if it is
    Paused or Pausing, the kill and the wait for the exit, then the
    delete.  Without a task they are an initial part of the lookup. *)
Theorem StopContainer_requests_in_order name w :
  containerd.trace w (fst (StopContainer fault name w))
  `prefix_of` match tasks w !! name with
              | Some st => requests_for name st
              | None => [LoadContainer name; ContainerTask name]
              end.
Proof.
  run_stop. destruct (tasks w !! name) as [st|] eqn:Ht.
  - destruct st; stop_cases; read_trace; by eexists.
  - stop_cases; read_trace; by eexists.
Qed.

(** X5.  [StopContainer] touches nothing but the task of the container
    it is called for: the images, the container records and the tasks
    of all other containers are as before, whatever fails. *)
Theorem StopContainer_frame name w :
  let w' := fst (StopContainer fault name w) in
  images w' = images w /\ containers w' = containers w
  /\ forall other, other <> name -> tasks w' !! other = tasks w !! other.
Proof.
  run_stop. stop_cases; repeat split; try done;
    intros other Hne; by rewrite ?lookup_delete_ne, ?lookup_insert_ne by done.
Qed.

(** X6.  An error returned by [StopContainer] is the error with which
    the engine failed the last request of the call; that request is the
    status, the registration, the kill, the wait or the delete, never
    the lookup or the resume, and the task record is still there. *)
Theorem StopContainer_error name w w' e :
  StopContainer fault name w = (w', Fail e) ->
  exists pre c,
    containerd.trace w w' = (pre ++ [c])%list
    /\ fault (length (calls w) + length pre) c = Some e
    /\ c ∈ [TaskStatus name; TaskWait name; TaskKill name; ExitWait name; TaskDelete name]
    /\ is_Some (tasks w' !! name).
Proof.
  run_stop. stop_cases; intros Hs; simplify_eq; read_trace.
  all: try (exfalso; by simplify_map_eq).
  all: repeat match goal with
       | H : fault (length _) _ = _ |- _ =>
           rewrite ?length_app in H; simpl in H; rewrite <- ?Nat.add_assoc in H; simpl in H
       end.
  all: match goal with
       | H : fault _ ?c = Some ?e |- exists pre c', ?l = _ /\ _ =>
           exists (removelast l), c
       end; simpl.
  all: split; [done|]. 
  all: split; [done|].
  all: split; [set_solver|].
  all: by simplify_map_eq.
Qed.

End StopMore.

Lemma StopContainer_frame_witness :
  let w := stop_sequence.two_tasks in
  let w' := fst (containerd.StopContainer containerd.no_fault "n1" w) in
  "n2" <> "n1"
  /\ containerd.tasks w' !! "n1" = None
  /\ containerd.tasks w' !! "n2" = containerd.tasks w !! "n2".
Proof.
  intros w w'. split; [discriminate|]. split; [vm_compute; reflexivity|].
  apply (StopContainer_frame containerd.no_fault "n1" w). discriminate.
Defined.

Lemma StopContainer_error_witness :
  let w := requests.engine containerd.Running in
  let res := containerd.StopContainer stop_sequence.kill_fails "n1" w in
  res = (fst res, Fail (Engine "cannot kill"))
  /\ exists pre c,
       containerd.trace w (fst res) = (pre ++ [c])%list
       /\ stop_sequence.kill_fails (length (containerd.calls w) + length pre) c
          = Some (Engine "cannot kill")
       /\ c ∈ [containerd.TaskStatus "n1"; containerd.TaskWait "n1";
               containerd.TaskKill "n1"; containerd.ExitWait "n1";
               containerd.TaskDelete "n1"]
       /\ is_Some (containerd.tasks (fst res) !! "n1").
Proof.
  intros w res.
  assert (res = (fst res, Fail (Engine "cannot kill"))) as H by (vm_compute; reflexivity).
  split; [exact H|].
  exact (StopContainer_error stop_sequence.kill_fails "n1" w (fst res)
           (Engine "cannot kill") H).
Defined.

(** ** More on pulling images *)

Section PullMore.
Import containerd.

Variable fault : nat -> Call -> option error.
Variable GetCanonicalImageName : string -> string.

(** X7.  [PullImageIfRequired] lists the images and then sends at most
    one pull, for the canonical name of the image.  When it returns an
    error the image store is as before; when it returns without error
    the store is as before if it held an image, and holds the canonical
    name otherwise.  Containers and tasks are never touched. *)
Theorem PullImageIfRequired_effect imagename w :
  let res := PullImageIfRequired fault GetCanonicalImageName imagename w in
  containerd.trace w (fst res)
    `prefix_of` [ListImages; Pull (GetCanonicalImageName imagename)]
  /\ (forall e, snd res = Fail e -> images (fst res) = images w)
  /\ (snd res = Ret tt ->
      images (fst res)
      = match images w with
        | [] => [GetCanonicalImageName imagename]
        | _ => images w
        end)
  /\ (forall p, snd res <> Panicked p)
  /\ containers (fst res) = containers w /\ tasks (fst res) = tasks w.
Proof.
  unfold PullImageIfRequired, client_ListImages, client_Pull, request, record_call,
    set_images.
  unfold mbind, mret, ST_bind, ST_ret. simpl.
  destruct (fault (length (calls w)) ListImages); simpl.
  { rewrite trace_app. repeat split; try done. by eexists. }
  destruct (images w) as [|i l] eqn:Hi; simpl.
  - destruct (fault _ (Pull _)); simpl;
      rewrite <- ?(assoc_L app), trace_app; repeat split; try done; by eexists.
  - rewrite trace_app. repeat split; try done. by eexists.
Qed.

End PullMore.

Lemma PullImageIfRequired_effect_witness :
  let w := stop_sequence.no_images in
  let res := containerd.PullImageIfRequired containerd.no_fault (fun s => s)
               containerd_example.busybox w in
  snd res = Ret tt /\ containerd.images (fst res) = [containerd_example.busybox].
Proof.
  intros w res.
  assert (snd res = Ret tt) as H by reflexivity.
  split; [exact H|].
  exact (proj1 (proj2 (proj2 (PullImageIfRequired_effect containerd.no_fault (fun s => s)
                                containerd_example.busybox w))) H).
Defined.

(** ** More on the management network *)

(** X8.  After [SetMgmtNet] the recorded bridge name is never empty;
    every other field of the descriptor is recorded as given, and the
    rest of the driver is as before. *)
Theorem SetMgmtNet_records (c : mgmt.ContainerdRuntime) (n : MgmtNet) :
  let c' := mgmt.SetMgmtNet c n in
  Bridge (mgmt.Mgmt c') <> ""
  /\ Network (mgmt.Mgmt c') = Network n
  /\ IPv4Subnet (mgmt.Mgmt c') = IPv4Subnet n /\ IPv4Gw_ (mgmt.Mgmt c') = IPv4Gw_ n
  /\ IPv6Subnet (mgmt.Mgmt c') = IPv6Subnet n /\ IPv6Gw_ (mgmt.Mgmt c') = IPv6Gw_ n
  /\ MTU (mgmt.Mgmt c') = MTU n
  /\ mgmt.timeout c' = mgmt.timeout c /\ mgmt.debug c' = mgmt.debug c
  /\ mgmt.gracefulShutdown c' = mgmt.gracefulShutdown c.
Proof.
  unfold mgmt.SetMgmtNet. simpl.
  destruct (String.eqb_spec (Bridge n) "") as [Hb|Hb]; simpl; by repeat split.
Qed.

Section NetOptsFacts.

Context {IPNet IP : Type}.
Variable ParseCIDR : string -> outcome IPNet.
Variable ParseIP : string -> option IP.

#[local] Abbreviation netOpts := (podman_net.netOpts ParseCIDR ParseIP).

(** The bridge name [netOpts] works with. *)
Lemma netOpts_bridge_name m :
  Bridge (mgmt.netOpts_bridge m) = if String.eqb (Bridge m) "" then Network m else Bridge m.
Proof.
  unfold mgmt.netOpts_bridge.
  destruct (String.eqb_spec (Bridge m) "") as [Hb|Hb]; simpl; [|done].
  destruct (String.eqb_spec (Network m) "") as [Hn|Hn]; simpl; [|done].
  by rewrite Hb, Hn.
Qed.

(** X9.  When [netOpts] returns a network definition, it is a bridge
    network named after the management network, on the interface of
    the bridge name or, without one, of the network name, which the
    runtime holds as its bridge name afterwards; it has the IPv4 subnet
    and then the IPv6 subnet, as far as they are given, each parsed and
    with its gateway, where an empty gateway, ["0.0.0.0"] for IPv4 and
    ["::"] for IPv6 stand for none; IPv6 is enabled exactly when an
    IPv6 subnet is given; and the only option is the MTU, when one is
    given. *)
Theorem netOpts_network (r r' : podman.PodmanRuntime) (n : podman_net.Network_) :
  netOpts r = (r', Ret n) ->
  let m := podman.mgmt r in
  podman_net.Name n = Network m
  /\ podman_net.NetworkInterface n
     = (if String.eqb (Bridge m) "" then Network m else Bridge m)
  /\ Bridge (podman.mgmt r') = podman_net.NetworkInterface n
  /\ podman_net.Driver n = "bridge"
  /\ podman_net.IPv6Enabled n = negb (String.eqb (IPv6Subnet m) "")
  /\ (exists v4 v6,
        podman_net.Subnets n = (v4 ++ v6)%list
        /\ (if String.eqb (IPv4Subnet m) "" then v4 = []
            else exists net, ParseCIDR (IPv4Subnet m) = Ret net
                   /\ v4 = [podman_net.mkSubnet (Some net)
                              (podman_net.gateway ParseIP (IPv4Gw_ m) "0.0.0.0")])
        /\ (if String.eqb (IPv6Subnet m) "" then v6 = []
            else exists net, ParseCIDR (IPv6Subnet m) = Ret net
                   /\ v6 = [podman_net.mkSubnet (Some net)
                              (podman_net.gateway ParseIP (IPv6Gw_ m) "::")]))
  /\ podman_net.Options n
     = (if String.eqb (MTU m) "" then ∅ else {["mtu" := MTU m]}).
Proof.
  unfold podman_net.netOpts. destruct r as [m]. simpl.
  unfold mbind, mret, outcome_bind, outcome_ret.
  intros [= <- H]. revert H. simpl. rewrite netOpts_bridge_name.
  assert (forall x, Network (mgmt.netOpts_bridge x) = Network x
                    /\ IPv4Subnet (mgmt.netOpts_bridge x) = IPv4Subnet x
                    /\ IPv6Subnet (mgmt.netOpts_bridge x) = IPv6Subnet x
                    /\ IPv4Gw_ (mgmt.netOpts_bridge x) = IPv4Gw_ x
                    /\ IPv6Gw_ (mgmt.netOpts_bridge x) = IPv6Gw_ x
                    /\ MTU (mgmt.netOpts_bridge x) = MTU x) as Hsame.
  { intros x. unfold mgmt.netOpts_bridge.
    by destruct (String.eqb (Bridge x) "" && negb (String.eqb (Network x) "")). }
  destruct (Hsame m) as (-> & -> & -> & -> & -> & ->).
  destruct (String.eqb (IPv4Subnet m) ""); simpl;
    [|destruct (ParseCIDR (IPv4Subnet m)) as [net4| |]; simpl; [|done..]].
  all: destruct (String.eqb (IPv6Subnet m) ""); simpl;
    [|destruct (ParseCIDR (IPv6Subnet m)) as [net6| |]; simpl; [|done..]].
  all: intros [= <-]; simpl.
  all: repeat split; try done.
  all: try by destruct (String.eqb (MTU m) "").
  - by exists [], [].
  - eexists [], [_]. repeat split; eauto.
  - eexists [_], []. repeat split; eauto.
  - eexists [_], [_]. repeat split; eauto.
Qed.

(** X10.  [netOpts] fails exactly when the IPv4 subnet is given and
    does not parse, or else the IPv6 subnet is given and does not
    parse, with the error of the parser; the bridge name is filled in
    all the same. *)
Theorem netOpts_failure (r : podman.PodmanRuntime) (e : error) :
  let m := podman.mgmt r in
  (snd (netOpts r) = Fail e <->
     (IPv4Subnet m <> "" /\ ParseCIDR (IPv4Subnet m) = Fail e)
     \/ ((IPv4Subnet m = "" \/ exists net, ParseCIDR (IPv4Subnet m) = Ret net)
         /\ IPv6Subnet m <> "" /\ ParseCIDR (IPv6Subnet m) = Fail e))
  /\ podman.mgmt (fst (netOpts r)) = mgmt.netOpts_bridge m.
Proof.
  unfold podman_net.netOpts. destruct r as [m]. simpl.
  unfold mbind, mret, outcome_bind, outcome_ret. split; [|done].
  assert (IPv4Subnet (mgmt.netOpts_bridge m) = IPv4Subnet m
          /\ IPv6Subnet (mgmt.netOpts_bridge m) = IPv6Subnet m) as [-> ->].
  { unfold mgmt.netOpts_bridge.
    by destruct (String.eqb (Bridge m) "" && negb (String.eqb (Network m) "")). }
  destruct (String.eqb_spec (IPv4Subnet m) "") as [H4|H4]; simpl;
    [|destruct (ParseCIDR (IPv4Subnet m)) as [net4|e4|p4] eqn:P4; simpl].
  all: destruct (String.eqb_spec (IPv6Subnet m) "") as [H6|H6]; simpl;
    [|destruct (ParseCIDR (IPv6Subnet m)) as [net6|e6|p6] eqn:P6; simpl].
  all: split; [intros [= ?]; subst|intros [[? ?]|[[?|[? ?]] [? ?]]]; simplify_eq]; eauto.
  all: try (right; split; [eauto|by split]).
  all: try (left; by split).
Qed.

End NetOptsFacts.

Lemma netOpts_network_witness :
  let res := podman_net.netOpts podman_net.ParseCIDR_slash podman_net.ParseIP_any
               podman_net.dual_stack in
  exists n,
    res = (fst res, Ret n)
    /\ podman_net.NetworkInterface n = "clab"
    /\ Bridge (podman.mgmt (fst res)) = "clab"
    /\ podman_net.IPv6Enabled n = true
    /\ podman_net.Subnets n
       = [podman_net.mkSubnet (Some "172.20.20.0/24") None;
          podman_net.mkSubnet (Some "2001:172:20:20::/64") None].
Proof.
  intros res.
  destruct (snd res) as [n| |] eqn:Hn; try (vm_compute in Hn; discriminate).
  exists n.
  assert (res = (fst res, Ret n)) as H by (rewrite <- Hn; by destruct res).
  pose proof (netOpts_network podman_net.ParseCIDR_slash podman_net.ParseIP_any
                podman_net.dual_stack (fst res) n H) as (_ & HI & HB & _ & H6 & _ & _).
  split; [exact H|]. split; [exact HI|]. split; [by rewrite HB, HI|].
  split; [exact H6|]. vm_compute in Hn. by injection Hn as <-.
Defined.

(** ** Sysctls *)

Section SysctlFacts.
Import sysctls.

Context {LinuxRest SpecRest : Type}.
Variable LinuxRest_zero : LinuxRest.

Lemma fold_insert_lookup (sysctls m : gmap string string) k :
  map_fold (fun k v (acc : gmap string string) => <[k := v]> acc) m sysctls !! k
  = match sysctls !! k with Some v => Some v | None => m !! k end.
Proof.
  apply (map_fold_weak_ind
           (fun (r : gmap string string) (s : gmap string string) =>
              r !! k = match s !! k with Some v => Some v | None => m !! k end)).
  - by rewrite lookup_empty.
  - intros i x s r Hi IH. destruct (decide (i = k)) as [->|Hne].
    + by rewrite !lookup_insert_eq.
    + by rewrite !lookup_insert_ne.
Qed.

(** X11.  [WithSysctls] never fails.  In the specification it leaves,
    every sysctl given has the value given and every other sysctl is as
    before; the Linux part and its sysctl map exist afterwards, and
    nothing else of the specification changes. *)
Theorem WithSysctls_sets (given : gmap string string)
        (s : @Spec LinuxRest SpecRest) :
  let s' := fst (WithSysctls LinuxRest_zero given s) in
  snd (WithSysctls LinuxRest_zero given s) = Ret tt
  /\ (forall k, sysctl_of s' k
                = match given !! k with Some v => Some v | None => sysctl_of s k end)
  /\ (exists linux m, Linux_ s' = Some linux /\ Sysctl linux = Some m
        /\ linux_rest linux = match Linux_ s with
                              | Some l => linux_rest l
                              | None => LinuxRest_zero
                              end)
  /\ spec_rest s' = spec_rest s.
Proof.
  unfold WithSysctls, sysctl_of. destruct s as [[[[m|] lr]|] sr]; simpl.
  all: split; [done|]; split; [|split; [by eexists _, _|done]].
  all: intros k; rewrite fold_insert_lookup; by rewrite ?lookup_empty.
Qed.

End SysctlFacts.

(** ** More on the container specification of the podman driver *)

Section SpecMore.
Import podman podman_nodes.

Context {IP HardwareAddr PortMappings Exposed PortBindings PortSet float64 : Type}.
Variable shlex_Split : string -> outcome (list string).
Variable humanize_ParseBytes : string -> Z * option error.
Variable net_ParseMAC : string -> HardwareAddr * option error.
Variable net_ParseIP : string -> option IP.
Variable strings_SplitN : string -> string -> Z -> list string.
Variable float64_nonzero : float64 -> bool.
Variable cpu_quota : float64 -> Z.
Variable convertPortMap : PortBindings -> outcome PortMappings.
Variable convertExpose : PortSet -> outcome Exposed.
Variable PortMappings_nil : PortMappings.
Variable Exposed_nil : Exposed.

#[local] Abbreviation create :=
  (createContainerSpec shlex_Split humanize_ParseBytes net_ParseMAC net_ParseIP
     strings_SplitN float64_nonzero cpu_quota convertPortMap convertExpose
     PortMappings_nil Exposed_nil).

#[local] Abbreviation netSpec :=
  (networkSpec net_ParseMAC net_ParseIP strings_SplitN convertPortMap convertExpose
     PortMappings_nil Exposed_nil).

#[local] Abbreviation Config := (@NodeConfig PortBindings PortSet float64).

#[local] Abbreviation lines_logged := (podman_nodes.lines_logged humanize_ParseBytes).

Lemma convertMounts_cases (binds : list string) :
  match podman_mounts.first_malformed binds with
  | Some bad => podman_mounts.convertMounts binds = Fail (Wrapf errInvalidBind bad)
  | None => exists ms, podman_mounts.convertMounts binds = Ret ms
  end.
Proof.
  destruct (podman_mounts.first_malformed binds) as [bad|] eqn:Hf.
  - by apply podman_mounts_facts.convertMounts_malformed.
  - destruct (podman_mounts_facts.convertMounts_wellformed binds) as (ms & Hms & _); [|eauto].
    apply Forall_forall. intros mnt Hin%list_elem_of_In.
    unfold podman_mounts.first_malformed in Hf. eapply List.find_none in Hf; [|done].
    simpl in Hf. by apply negb_false_iff in Hf.
Qed.

(** What a call that returns a specification has done. *)
Lemma createContainerSpec_Ret r (cfg : Config) logs st' sg :
  create r (cfg, logs) = (st', Ret sg) ->
  exists cmd entrypoint labels,
    shlex_Split (Cmd cfg) = Ret cmd
    /\ shlex_Split (Entrypoint cfg) = Ret entrypoint
    /\ Labels cfg = Some labels
    /\ let cfg' := NodeConfig_setLabels cfg
                     (Some (<["clab-net-mgmt" := Network (mgmt r)]> labels)) in
       st' = (cfg', (logs ++ lines_logged cfg)%list)
       /\ netSpec r cfg' = Ret (Network_ sg)
       /\ Basic sg = mkBasic (LongName cfg) entrypoint cmd false false (Env cfg) false false
                             (Labels cfg') (ShortName cfg) (Sysctls cfg) false
       /\ Storage sg = mkStorage (Image cfg)
                         (match podman_mounts.convertMounts (Binds cfg) with
                          | Ret ms => ms
                          | _ => []
                          end)
       /\ Security sg = mkSecurity true (User cfg)
       /\ Cgroup sg = mkCgroup Namespace_zero
       /\ Resource sg
          = mkResource (Some (mkLinuxResources
              (Some (mkLinuxMemory
                 (if String.eqb (Memory cfg) "" then None
                  else Some (int64_of_uint64 (fst (humanize_ParseBytes (Memory cfg)))))))
              (Some (mkLinuxCPU
                 (if float64_nonzero (CPU cfg) then Some (cpu_quota (CPU cfg)) else None)
                 (if float64_nonzero (CPU cfg) then Some 100000%Z else None)
                 (CPUSet cfg))))).
Proof.
  unfold createContainerSpec, get_cfg, lift, set_label, logf, podman_nodes.lines_logged.
  unfold mbind, mret, ST_bind, ST_ret. simpl.
  destruct (shlex_Split (Cmd cfg)) as [cmd| |]; simpl; [|done..].
  destruct (shlex_Split (Entrypoint cfg)) as [ep| |]; simpl; [|done..].
  destruct (Labels cfg) as [labels|]; simpl; [|done].
  pose proof (convertMounts_cases (Binds cfg)) as Hm.
  destruct (podman_mounts.first_malformed (Binds cfg)) as [bad|];
    [rewrite Hm|destruct Hm as [ms ->]]; simpl.
  all: destruct (String.eqb_spec (Memory cfg) "") as [HM|HM]; simpl;
    [|destruct (humanize_ParseBytes (Memory cfg)) as [mem [err|]]; simpl].
  all: destruct (networkSpec _ _ _ _ _ _ _ r _) as [net| |] eqn:Hnet; simpl; [|done..].
  all: intros [= <- <-]; exists cmd, ep, labels; simpl.
  all: rewrite ?app_nil_r, <- ?(assoc_L app); simpl.
  all: repeat split; try done.
  all: try (destruct (float64_nonzero (CPU cfg)); simpl;
            destruct (String.eqb_spec (CPUSet cfg) "") as [->|]; by simpl).
Qed.

(** X12.  A specification is returned only when the network mode is
    [container:] followed by a name, or when its first part, up to the
    first [:] if there is one, is [host], [bridge] or empty; what
    follows the [:] after [host], [bridge] or the empty part is not
    looked at.  The network namespace is then that of the container
    named, with the prefix of the node's long name before its short
    name; the host's; or a bridge, with the management network as its
    only network, carrying the static addresses that parse, IPv4
    first. *)
Theorem createContainerSpec_network_mode r (cfg : Config) logs st' sg :
  create r (cfg, logs) = (st', Ret sg) ->
  let net := Network_ sg in
  (exists ref prefix,
     NetworkMode cfg = "container:" +:+ ref /\ ref <> ""
     /\ strings_SplitN (LongName cfg) (ShortName cfg) 2 !! 0%nat = Some prefix
     /\ NetNS net = mkNamespace "container" (prefix +:+ ref)
     /\ Networks net = ∅ /\ HostAdd net = [])
  \/ (strings.SplitN (NetworkMode cfg) ":" 2 !! 0%nat = Some "host"
      /\ NetNS net = mkNamespace "host" "" /\ Networks net = ∅
      /\ HostAdd net = ExtraHosts cfg)
  \/ ((strings.SplitN (NetworkMode cfg) ":" 2 !! 0%nat = Some "bridge"
       \/ strings.SplitN (NetworkMode cfg) ":" 2 !! 0%nat = Some "")
      /\ NetNS net = mkNamespace "bridge" ""
      /\ Networks net
         = {[ Network (mgmt r) :=
                mkPerNetworkOptions
                  (omap net_ParseIP [MgmtIPv4Address cfg; MgmtIPv6Address cfg])
                  [] (fst (net_ParseMAC (MacAddress cfg))) "" ]}
      /\ convertPortMap (PortBindings_ cfg) = Ret (PortMappings_ net)
      /\ convertExpose (PortSet_ cfg) = Ret (Expose net)
      /\ HostAdd net = ExtraHosts cfg).
Proof.
  intros (cmd & ep & labels & _ & _ & _ & _ & Hnet & _)%createContainerSpec_Ret.
  revert Hnet. generalize (Network_ sg). intros net. simpl.
  unfold networkSpec. simpl. unfold strings.SplitN. simpl.
  unfold mbind, mret, outcome_bind, outcome_ret.
  destruct (strings.Cut (NetworkMode cfg) ":") as [[mode ref]|] eqn:Hc; simpl.
  - apply Cut_inv in Hc as [Hmode _].
    destruct (String.eqb_spec mode "container") as [->|Hn1]; simpl.
    { destruct (String.eqb_spec ref "") as [->|Hr]; simpl; [done|].
      unfold Go.index.
      destruct (strings_SplitN (LongName cfg) (ShortName cfg) 2 !! 0%nat) as [prefix|];
        simpl; [|done].
      intros [= <-]. left. exists ref, prefix. by repeat split. }
    destruct (String.eqb_spec mode "host") as [->|Hn2]; simpl.
    { intros [= <-]. right. left. by repeat split. }
    destruct (String.eqb_spec mode "bridge") as [->|Hn3]; simpl;
      [|destruct (String.eqb_spec mode "") as [->|Hn4]; simpl; [|done]].
    all: destruct (net_ParseMAC (MacAddress cfg)) as [mac [e|]]; simpl;
      [destruct (String.eqb (MacAddress cfg) ""); simpl; [|done]|].
    all: destruct (convertPortMap (PortBindings_ cfg)) as [pm| |]; simpl; [|done..].
    all: destruct (convertExpose (PortSet_ cfg)) as [ex| |]; simpl; [|done..].
    all: intros [= <-]; right; right; simpl.
    all: destruct (net_ParseIP (MgmtIPv4Address cfg)), (net_ParseIP (MgmtIPv6Address cfg)).
    all: repeat split; auto.
  - destruct (String.eqb_spec (NetworkMode cfg) "container") as [->|Hn1]; simpl; [done|].
    destruct (String.eqb_spec (NetworkMode cfg) "host") as [->|Hn2]; simpl.
    { intros [= <-]. right. left. by repeat split. }
    destruct (String.eqb_spec (NetworkMode cfg) "bridge") as [->|Hn3]; simpl;
      [|destruct (String.eqb_spec (NetworkMode cfg) "") as [->|Hn4]; simpl; [|done]].
    all: destruct (net_ParseMAC _) as [mac [e|]]; simpl;
      [destruct (String.eqb (MacAddress cfg) ""); simpl; [|done]|].
    all: destruct (convertPortMap (PortBindings_ cfg)) as [pm| |]; simpl; [|done..].
    all: destruct (convertExpose (PortSet_ cfg)) as [ex| |]; simpl; [|done..].
    all: intros [= <-]; right; right; simpl.
    all: destruct (net_ParseIP (MgmtIPv4Address cfg)), (net_ParseIP (MgmtIPv6Address cfg)).
    all: repeat split; auto.
Qed.

(** X13.  A network mode whose first part is none of [container],
    [host], [bridge] and the empty text, [none] for one, is refused:
    once the command lines are split and the label is written, the call
    ends with the error that names the mode. *)
Theorem createContainerSpec_unsupported_mode r (cfg : Config) logs cmd entrypoint labels mode :
  shlex_Split (Cmd cfg) = Ret cmd ->
  shlex_Split (Entrypoint cfg) = Ret entrypoint ->
  Labels cfg = Some labels ->
  strings.SplitN (NetworkMode cfg) ":" 2 !! 0%nat = Some mode ->
  mode <> "container" -> mode <> "host" -> mode <> "bridge" -> mode <> "" ->
  create r (cfg, logs)
  = ((NodeConfig_setLabels cfg (Some (<["clab-net-mgmt" := Network (mgmt r)]> labels)),
      (logs ++ lines_logged cfg)%list),
     Fail (unsupported_mode (strings.SplitN (NetworkMode cfg) ":" 2))).
Proof.
  intros Hcmd Hep Hl Hmode H1 H2 H3 H4.
  unfold createContainerSpec, get_cfg, lift, set_label, logf, podman_nodes.lines_logged.
  unfold mbind, mret, ST_bind, ST_ret. simpl. rewrite Hcmd, Hep. simpl.
  rewrite Hl. simpl.
  assert (forall l, netSpec r (NodeConfig_setLabels cfg l)
                    = Fail (unsupported_mode (strings.SplitN (NetworkMode cfg) ":" 2)))
    as Hnet.
  { intros l. unfold networkSpec. simpl. unfold Go.index. rewrite Hmode. simpl.
    unfold mbind, outcome_bind.
    destruct (String.eqb_spec mode "container"); [done|].
    destruct (String.eqb_spec mode "host"); [done|].
    destruct (String.eqb_spec mode "bridge"); [done|].
    by destruct (String.eqb_spec mode ""). }
  pose proof (convertMounts_cases (Binds cfg)) as Hm.
  destruct (podman_mounts.first_malformed (Binds cfg)) as [bad|];
    [rewrite Hm|destruct Hm as [ms ->]]; simpl.
  all: destruct (String.eqb_spec (Memory cfg) "") as [HM|HM]; simpl;
    [|destruct (humanize_ParseBytes (Memory cfg)) as [mem [err|]]; simpl].
  all: rewrite Hnet; simpl.
  all: by rewrite ?app_nil_r, <- ?(assoc_L app).
Qed.

(** X14.  The label [clab-net-mgmt] with the name of the management
    network is written into the label map of the node itself: after a
    call that returns a specification, the node and the specification
    carry the same labels, those the node had with this one set, and
    nothing else of the node has changed. *)
Theorem createContainerSpec_labels r (cfg : Config) logs st' sg :
  create r (cfg, logs) = (st', Ret sg) ->
  exists labels,
    Labels cfg = Some labels
    /\ Labels_ (Basic sg) = Some (<["clab-net-mgmt" := Network (mgmt r)]> labels)
    /\ Labels (fst st') = Labels_ (Basic sg)
    /\ fst st' = NodeConfig_setLabels cfg (Labels (fst st')).
Proof.
  intros (cmd & ep & labels & _ & _ & Hl & -> & _ & -> & _)%createContainerSpec_Ret.
  exists labels. by repeat split.
Qed.

(** X15.  On a node whose label map is nil the call panics on the
    write of the label, once both command lines are split; nothing has
    been logged by then. *)
Theorem createContainerSpec_nil_labels r (cfg : Config) logs cmd entrypoint :
  shlex_Split (Cmd cfg) = Ret cmd ->
  shlex_Split (Entrypoint cfg) = Ret entrypoint ->
  Labels cfg = None ->
  create r (cfg, logs) = ((cfg, logs), Panicked NilMapWrite).
Proof.
  intros Hcmd Hep Hl.
  unfold createContainerSpec, get_cfg, lift, set_label.
  unfold mbind, mret, ST_bind, ST_ret. simpl. rewrite Hcmd, Hep. simpl.
  by rewrite Hl.
Qed.

(** X16.  Neither binds that cannot be converted nor a memory limit
    that cannot be parsed make the call fail: a call that returns a
    specification has logged one line for the first and one for the
    second, in this order, and nothing else.  The memory limit is the
    value the parser returned, also when it returned an error, and is
    unset only for an empty text; quota and period are set only for a
    CPU share that is not zero, the period to 100000; the CPU set is
    the one given. *)
Theorem createContainerSpec_resources r (cfg : Config) logs st' sg :
  create r (cfg, logs) = (st', Ret sg) ->
  snd st' = (logs ++ lines_logged cfg)%list
  /\ exists mem cpu,
       ResourceLimits (Resource sg) = Some (mkLinuxResources (Some mem) (Some cpu))
       /\ Limit mem = (if String.eqb (Memory cfg) "" then None
                       else Some (int64_of_uint64 (fst (humanize_ParseBytes (Memory cfg)))))
       /\ Quota cpu = (if float64_nonzero (CPU cfg) then Some (cpu_quota (CPU cfg)) else None)
       /\ Period cpu = (if float64_nonzero (CPU cfg) then Some 100000%Z else None)
       /\ Cpus cpu = CPUSet cfg.
Proof.
  intros (cmd & ep & labels & _ & _ & _ & -> & _ & _ & _ & _ & _ & ->)%createContainerSpec_Ret.
  split; [done|]. eexists _, _. by repeat split.
Qed.

End SpecMore.

Lemma createContainerSpec_network_mode_witness :
  let res := podman_example.createContainerSpec podman_example.runtime
               (podman_nodes.node_bridge, []) in
  match snd res with
  | Ret sg =>
      res = (fst res, Ret sg)
      /\ podman.NetNS (podman.Network_ sg) = podman.mkNamespace "bridge" ""
      /\ podman.Networks (podman.Network_ sg)
         = {[ "clab" := podman.mkPerNetworkOptions [] [] "" "" ]}
  | _ => False
  end.
Proof.
  intros res. destruct (snd res) as [sg| |] eqn:Hr; try (vm_compute in Hr; discriminate).
  assert (res = (fst res, Ret sg)) as H by (rewrite <- Hr; by destruct res).
  split; [exact H|].
  destruct (createContainerSpec_network_mode
              podman_example.shlex_Split podman_example.humanize_ParseBytes
              podman_example.net_ParseMAC podman_example.net_ParseIP
              podman_example.strings_SplitN podman_example.float64_nonzero
              podman_example.cpu_quota podman_example.convertPortMap
              podman_example.convertExpose tt tt podman_example.runtime
              podman_nodes.node_bridge [] (fst res) sg H)
    as [(ref & prefix & Hm & _)|[(Hm & _)|(_ & Hns & Hnets & _)]].
  - discriminate Hm.
  - discriminate Hm.
  - split; [exact Hns|exact Hnets].
Defined.

Lemma createContainerSpec_unsupported_mode_witness :
  podman_example.createContainerSpec podman_example.runtime (podman_nodes.node_none, [])
  = ((podman.NodeConfig_setLabels podman_nodes.node_none
        (Some (<["clab-net-mgmt" := "clab"]> ∅)), []),
     Fail (podman_nodes.unsupported_mode ["none"])).
Proof.
  apply (createContainerSpec_unsupported_mode
              podman_example.shlex_Split podman_example.humanize_ParseBytes
              podman_example.net_ParseMAC podman_example.net_ParseIP
              podman_example.strings_SplitN podman_example.float64_nonzero
              podman_example.cpu_quota podman_example.convertPortMap
              podman_example.convertExpose tt tt podman_example.runtime
              podman_nodes.node_none [] [] [] ∅ "none");
    try reflexivity; discriminate.
Defined.

Lemma createContainerSpec_labels_witness :
  let res := podman_example.createContainerSpec podman_example.runtime
               (podman_nodes.node_bridge, []) in
  match snd res with
  | Ret sg =>
      res = (fst res, Ret sg)
      /\ exists labels,
           podman.Labels podman_nodes.node_bridge = Some labels
           /\ podman.Labels_ (podman.Basic sg)
              = Some (<["clab-net-mgmt" := "clab"]> labels)
           /\ podman.Labels (fst (fst res)) = podman.Labels_ (podman.Basic sg)
           /\ fst (fst res) = podman.NodeConfig_setLabels podman_nodes.node_bridge
                                (podman.Labels (fst (fst res)))
  | _ => False
  end.
Proof.
  intros res. destruct (snd res) as [sg| |] eqn:Hr; try (vm_compute in Hr; discriminate).
  assert (res = (fst res, Ret sg)) as H by (rewrite <- Hr; by destruct res).
  split; [exact H|].
  exact (createContainerSpec_labels
              podman_example.shlex_Split podman_example.humanize_ParseBytes
              podman_example.net_ParseMAC podman_example.net_ParseIP
              podman_example.strings_SplitN podman_example.float64_nonzero
              podman_example.cpu_quota podman_example.convertPortMap
              podman_example.convertExpose tt tt podman_example.runtime
              podman_nodes.node_bridge [] (fst res) sg H).
Defined.

Lemma createContainerSpec_nil_labels_witness :
  podman_example.createContainerSpec podman_example.runtime
    (podman_nodes.node_nil_labels, [])
  = ((podman_nodes.node_nil_labels, []), Panicked NilMapWrite).
Proof.
  exact (createContainerSpec_nil_labels
              podman_example.shlex_Split podman_example.humanize_ParseBytes
              podman_example.net_ParseMAC podman_example.net_ParseIP
              podman_example.strings_SplitN podman_example.float64_nonzero
              podman_example.cpu_quota podman_example.convertPortMap
              podman_example.convertExpose tt tt podman_example.runtime
              podman_nodes.node_nil_labels [] [] [] eq_refl eq_refl eq_refl).
Defined.

Lemma createContainerSpec_resources_witness :
  let res := podman_example.createContainerSpec podman_example.runtime
               (podman_nodes.node_bridge, []) in
  match snd res with
  | Ret sg =>
      res = (fst res, Ret sg)
      /\ snd (fst res)
         = ([] ++ podman_nodes.lines_logged podman_example.humanize_ParseBytes
                    podman_nodes.node_bridge)%list
      /\ exists mem cpu,
           podman.ResourceLimits (podman.Resource sg)
           = Some (podman.mkLinuxResources (Some mem) (Some cpu))
           /\ podman.Limit mem = Some 0%Z
           /\ podman.Quota cpu = None /\ podman.Period cpu = None
           /\ podman.Cpus cpu = "0-1"
  | _ => False
  end.
Proof.
  intros res. destruct (snd res) as [sg| |] eqn:Hr; try (vm_compute in Hr; discriminate).
  assert (res = (fst res, Ret sg)) as H by (rewrite <- Hr; by destruct res).
  split; [exact H|].
  exact (createContainerSpec_resources
              podman_example.shlex_Split podman_example.humanize_ParseBytes
              podman_example.net_ParseMAC podman_example.net_ParseIP
              podman_example.strings_SplitN podman_example.float64_nonzero
              podman_example.cpu_quota podman_example.convertPortMap
              podman_example.convertExpose tt tt podman_example.runtime
              podman_nodes.node_bridge [] (fst res) sg H).
Defined.

(** ** Integers written and read *)

Section ItoaFacts.
Import strconv strconv_fmt.

Lemma digit_cases d :
  (0 <= d < 10)%Z ->
  (d = 0 \/ d = 1 \/ d = 2 \/ d = 3 \/ d = 4 \/ d = 5 \/ d = 6 \/ d = 7 \/ d = 8 \/ d = 9)%Z.
Proof. lia. Qed.

Lemma digit_digit_char d : (0 <= d < 10)%Z -> digit (digit_char d) = Some d.
Proof.
  intros Hd%digit_cases.
  repeat destruct Hd as [->|Hd]; try (vm_compute; reflexivity). by subst.
Qed.

Lemma maxUint64_value : maxUint64 = 18446744073709551615%Z.
Proof. vm_compute. reflexivity. Qed.

Lemma ParseUint_loop_digit d rest n :
  (0 <= d < 10)%Z -> (0 <= n)%Z -> (n * 10 + d <= maxUint64)%Z ->
  ParseUint_loop (String (digit_char d) rest) n = ParseUint_loop rest (n * 10 + d)%Z.
Proof.
  intros Hd Hn Hmax. cbn [ParseUint_loop]. rewrite digit_digit_char by done.
  assert (maxUint64 / 10 + 1 = 1844674407370955162)%Z as HC by (vm_compute; reflexivity).
  rewrite HC. rewrite maxUint64_value in *.
  destruct (Z.geb_spec n 1844674407370955162) as [Hge|Hlt]; [lia|].
  destruct (Z.gtb_spec (n * 10 + d) 18446744073709551615) as [Hgt|Hle]; [lia|done].
Qed.

(** Reading the digits of [n] gives [n]. *)
Lemma ParseUint_loop_utoa fuel : forall n acc,
  (0 <= n <= maxUint64)%Z -> (n < 10 ^ Z.of_nat fuel)%Z ->
  ParseUint_loop (utoa fuel n acc) 0 = ParseUint_loop acc n.
Proof.
  rewrite maxUint64_value.
  induction fuel as [|fuel IH]; intros n acc Hn Hf.
  - change (10 ^ Z.of_nat 0)%Z with 1%Z in Hf. assert (n = 0)%Z as -> by lia. reflexivity.
  - cbn [utoa].
    assert (0 <= n mod 10 < 10)%Z as Hd by (apply Z.mod_pos_bound; lia).
    assert (n = n / 10 * 10 + n mod 10)%Z as Hdiv
      by (rewrite Z.mul_comm; apply Z.div_mod; lia).
    destruct (Z.eqb_spec (n / 10) 0) as [H0|H0].
    + rewrite ParseUint_loop_digit by (rewrite ?maxUint64_value; lia).
      f_equal. lia.
    + assert (0 <= n / 10)%Z by (apply Z.div_pos; lia).
      rewrite IH.
      * rewrite ParseUint_loop_digit by (rewrite ?maxUint64_value; lia). f_equal. lia.
      * lia.
      * rewrite Nat2Z.inj_succ, Z.pow_succ_r in Hf by lia.
        apply Z.div_lt_upper_bound; lia.
Qed.

Lemma utoa_head fuel : forall n acc,
  (0 <= n)%Z ->
  (0 < fuel)%nat ->
  exists d rest, (0 <= d < 10)%Z /\ utoa fuel n acc = String (digit_char d) rest.
Proof.
  induction fuel as [|fuel IH]; intros n acc Hn Hf; [lia|].
  cbn [utoa].
  assert (0 <= n mod 10 < 10)%Z as Hd by (apply Z.mod_pos_bound; lia).
  destruct (n / 10 =? 0)%Z; [by eauto|].
  destruct fuel as [|fuel]; [cbn [utoa]; by eauto|].
  apply IH; [apply Z.div_pos; lia|lia].
Qed.

(** [Atoi] on a text that begins with a digit. *)
Lemma Atoi_digits d rest un :
  (0 <= d < 10)%Z ->
  ParseUint_loop (String (digit_char d) rest) 0 = inr un ->
  (un < 2 ^ 63)%Z ->
  Atoi (String (digit_char d) rest) = Ret un.
Proof.
  intros Hd%digit_cases Hp Hun. unfold Atoi.
  assert ((un >=? 2 ^ 63)%Z = false) as Hge
    by (destruct (Z.geb_spec un (2 ^ 63)) as [?|?]; [lia|done]).
  repeat destruct Hd as [->|Hd]; try subst d.
  all: change (digit_char _) with ("0"%char) in * || change (digit_char _) with ("1"%char) in *
       || change (digit_char _) with ("2"%char) in * || change (digit_char _) with ("3"%char) in *
       || change (digit_char _) with ("4"%char) in * || change (digit_char _) with ("5"%char) in *
       || change (digit_char _) with ("6"%char) in * || change (digit_char _) with ("7"%char) in *
       || change (digit_char _) with ("8"%char) in * || change (digit_char _) with ("9"%char) in *.
  all: cbv iota beta; rewrite Hp; cbv iota beta; by rewrite Hge.
Qed.

(** [Atoi] reads back what [Itoa] writes. *)
Lemma Atoi_Itoa (i : Z) :
  (- 2 ^ 63 <= i < 2 ^ 63)%Z -> Atoi (Itoa i) = Ret i.
Proof.
  intros Hi.
  assert (2 ^ 63 = 9223372036854775808)%Z as H63 by (vm_compute; reflexivity).
  assert (10 ^ Z.of_nat 20 = 100000000000000000000)%Z as H20 by (vm_compute; reflexivity).
  unfold Itoa. destruct (Z.ltb_spec i 0) as [Hneg|Hpos].
  - unfold Atoi.
    destruct (utoa_head 20 (- i) "" ltac:(lia) ltac:(lia)) as (d & rest & Hd & Hu).
    assert (ParseUint_loop (utoa 20 (- i) "") 0 = inr (- i)%Z) as Hp.
    { rewrite ParseUint_loop_utoa; [done|rewrite maxUint64_value; lia|lia]. }
    rewrite Hu in *. cbv iota beta. rewrite Hp. cbv iota beta.
    assert ((- i >? 2 ^ 63)%Z = false) as ->
      by (destruct (Z.gtb_spec (- i) (2 ^ 63)) as [?|?]; [lia|done]).
    cbn [negb andb]. f_equal. lia.
  - destruct (utoa_head 20 i "" ltac:(lia) ltac:(lia)) as (d & rest & Hd & Hu).
    assert (ParseUint_loop (utoa 20 i "") 0 = inr i) as Hp.
    { rewrite ParseUint_loop_utoa; [done|rewrite maxUint64_value; lia|lia]. }
    rewrite Hu in *. apply Atoi_digits; [done|done|lia].
Qed.

End ItoaFacts.

(** ** Management addresses written and read *)

Section AddressFacts.
Import containerd_addresses containerd_labels.

Lemma address_fold_range ips : forall v4 a v6 b,
  Forall (fun ip => strconv_fmt.int_range (Ones ip)) ips ->
  strconv_fmt.int_range a -> strconv_fmt.int_range b ->
  let '(_, a', _, b') := fold_left address_step ips (v4, a, v6, b) in
  strconv_fmt.int_range a' /\ strconv_fmt.int_range b'.
Proof.
  induction ips as [|ip ips IH]; intros v4 a v6 b Hall Ha Hb; [done|].
  apply Forall_cons in Hall as [Hip Hall]. cbn [fold_left]. unfold address_step at 2.
  destruct (String.eqb (Version ip) "4"); [by apply IH|].
  destruct (String.eqb (Version ip) "6"); by apply IH.
Qed.

(** X17.  The management addresses that [CreateContainer] writes into
    the labels of a container are read back by
    [extractIPInfoFromLabels] from the labels of that container,
    whatever other labels it has: the flag is set, and the addresses
    and prefix lengths are those of the last IPv4 and the last IPv6
    address of the attachment, empty and zero where there is none. *)
Theorem labels_round_trip (ips : list IPConfig) (existing : gmap string string) :
  Forall (fun ip => strconv_fmt.int_range (Ones ip)) ips ->
  extractIPInfoFromLabels (SetLabels existing (additionalLabels ips))
  = let '(ipv4, ipv4nm, ipv6, ipv6nm) := addresses ips in
    Ret (mkMgmtIPs true ipv4 ipv4nm "" ipv6 ipv6nm "").
Proof.
  intros Hall.
  assert (strconv_fmt.int_range 0) as H0 by (vm_compute; split; [discriminate|done]).
  pose proof (address_fold_range ips "" 0%Z "" 0%Z Hall H0 H0) as Hr.
  unfold additionalLabels, addresses in *.
  destruct (fold_left address_step ips ("", 0%Z, "", 0%Z)) as [[[v4 a] v6] b].
  destruct Hr as [Ha Hb]. unfold SetLabels, extractIPInfoFromLabels, at_key.
  set (written := <["clab.ipv4.addr" := v4]> _).
  assert ((written ∪ existing) !! "clab.ipv4.netmask" = Some (strconv_fmt.Itoa a)) as ->.
  { apply lookup_union_Some_l. subst written.
    rewrite lookup_insert_ne by done. apply lookup_insert_eq. }
  assert ((written ∪ existing) !! "clab.ipv6.netmask" = Some (strconv_fmt.Itoa b)) as ->.
  { apply lookup_union_Some_l. subst written.
    rewrite !lookup_insert_ne by done. apply lookup_insert_eq. }
  assert ((written ∪ existing) !! "clab.ipv4.addr" = Some v4) as ->.
  { apply lookup_union_Some_l. subst written. apply lookup_insert_eq. }
  assert ((written ∪ existing) !! "clab.ipv6.addr" = Some v6) as ->.
  { apply lookup_union_Some_l. subst written.
    rewrite !lookup_insert_ne by done. apply lookup_insert_eq. }
  unfold mbind, mret, outcome_bind, outcome_ret.
  rewrite !Atoi_Itoa by done. reflexivity.
Qed.

Lemma Atoi_no_panic s p : strconv.Atoi s <> Panicked p.
Proof.
  unfold strconv.Atoi.
  destruct (match s with
            | String "-" rest => (true, rest)
            | String "+" rest => (false, rest)
            | _ => (false, s)
            end) as [neg body].
  destruct body; [done|].
  destruct (strconv.ParseUint_loop _ 0) as [[|]|un]; try done.
  by repeat case_match.
Qed.

(** Reading the labels never panics. *)
Lemma extractIPInfoFromLabels_no_panic (labels : gmap string string) p :
  extractIPInfoFromLabels labels <> Panicked p.
Proof.
  unfold extractIPInfoFromLabels. unfold mbind, mret, outcome_bind, outcome_ret.
  destruct (labels !! "clab.ipv4.netmask") as [v4|];
    [destruct (strconv.Atoi v4) as [n4|e4|p4] eqn:H4; simpl|simpl].
  all: destruct (labels !! "clab.ipv6.netmask") as [v6|];
    [destruct (strconv.Atoi v6) as [n6|e6|p6] eqn:H6; simpl|simpl].
  all: try (by apply Atoi_no_panic in H4).
  all: try (by apply Atoi_no_panic in H6).
  all: done.
Qed.

(** X18.  [extractIPInfoFromLabels] never panics.  It fails exactly
    when the IPv4 netmask label is there and is no integer, or else
    the IPv6 netmask label is there and is no integer, with the error
    of [Atoi]; the address labels are never the cause. *)
Theorem extractIPInfoFromLabels_failure (labels : gmap string string) :
  (forall p, extractIPInfoFromLabels labels <> Panicked p)
  /\ forall e,
       extractIPInfoFromLabels labels = Fail e <->
       (exists v, labels !! "clab.ipv4.netmask" = Some v /\ strconv.Atoi v = Fail e)
       \/ ((labels !! "clab.ipv4.netmask" = None
            \/ exists v n, labels !! "clab.ipv4.netmask" = Some v
                           /\ strconv.Atoi v = Ret n)
           /\ exists v, labels !! "clab.ipv6.netmask" = Some v
                        /\ strconv.Atoi v = Fail e).
Proof.
  unfold extractIPInfoFromLabels. unfold mbind, mret, outcome_bind, outcome_ret.
  destruct (labels !! "clab.ipv4.netmask") as [v4|];
    [destruct (strconv.Atoi v4) as [n4|e4|p4] eqn:H4; simpl|simpl].
  all: destruct (labels !! "clab.ipv6.netmask") as [v6|];
    [destruct (strconv.Atoi v6) as [n6|e6|p6] eqn:H6; simpl|simpl].
  all: try (by apply Atoi_no_panic in H4).
  all: try (by apply Atoi_no_panic in H6).
  all: split; [done|]; intros e; split;
    [intros [= ?]; subst
    |intros [(? & ? & ?)|[[?|(? & ? & ? & ?)] (? & ? & ?)]]; simplify_eq];
    eauto 10; congruence.
Qed.

End AddressFacts.

Lemma labels_round_trip_witness :
  Forall (fun ip => strconv_fmt.int_range (containerd_addresses.Ones ip)) containerd_addresses.dual
  /\ containerd_labels.extractIPInfoFromLabels
       (containerd_addresses.SetLabels {["containerlab" := "lab1"]}
          (containerd_addresses.additionalLabels containerd_addresses.dual))
     = Ret (mkMgmtIPs true "172.20.20.2" 24 "" "2001:172:20:20::2" 64 "").
Proof.
  assert (Forall (fun ip => strconv_fmt.int_range (containerd_addresses.Ones ip))
                 containerd_addresses.dual) as H.
  { repeat constructor; vm_compute; discriminate. }
  split; [exact H|].
  exact (labels_round_trip containerd_addresses.dual {["containerlab" := "lab1"]} H).
Defined.

(** ** The query of the containerd driver *)

Section QueryFacts.
Import containerd_filters containerd_query filter_terms.

Lemma filterStringBuilder_step_exact s d f :
  filterStringBuilder_step (s, d) f
  = (s +:+ containerd_term f
       +:+ (if is_label f && negb (String.eqb (Operator f) "exists") then d else ""),
     ",").
Proof.
  unfold filterStringBuilder_step, containerd_term, is_label.
  destruct (String.eqb (FilterType f) "label"); simpl.
  - destruct (String.eqb_spec (Operator f) "=") as [Hq|Hq].
    + rewrite Hq. simpl. by rewrite !append_assoc.
    + destruct (String.eqb (Operator f) "exists"); simpl;
        by rewrite ?append_assoc, ?append_nil_r.
  - destruct (String.eqb (Operator f) "="), (String.eqb (Operator f) "exists");
      simpl; by rewrite ?append_nil_r.
Qed.

Lemma filterStringBuilder_fold_exact fs : forall s d,
  fst (fold_left filterStringBuilder_step fs (s, d)) = s +:+ query_from d fs.
Proof.
  induction fs as [|f rest IH]; intros s d.
  - simpl. by rewrite append_nil_r.
  - cbn [fold_left]. rewrite filterStringBuilder_step_exact, IH.
    cbn [query_from]. by rewrite !append_assoc.
Qed.

(** The query is the texts of the filters in order, where a
    filter whose type is not [label] has no text; the text of a label
    filter whose operator is not [exists] is followed by a comma unless
    the filter is the first of the sequence, and no other delimiter is
    written. *)
Lemma filterStringBuilder_query (filter : list GenericFilter) :
  fst (filterStringBuilder filter) = query_from "" filter.
Proof. unfold filterStringBuilder. simpl. by rewrite filterStringBuilder_fold_exact. Qed.

Lemma append_empty (a b : string) : a +:+ b = "" -> a = "" /\ b = "".
Proof. by destruct a. Qed.

Lemma query_from_empty fs : forall d,
  query_from d fs = "" <-> Forall (fun f => is_label f = false) fs.
Proof.
  induction fs as [|f rest IH]; intros d; [by split; [constructor|]|].
  cbn [query_from]. unfold containerd_term, is_label.
  destruct (String.eqb (FilterType f) "label") eqn:Hl; simpl.
  - split.
    + intros [[H _]%append_empty _]%append_empty. discriminate H.
    + intros [H _]%Forall_cons. congruence.
  - change ("" +:+ "" +:+ query_from "," rest) with (query_from "," rest).
    rewrite IH. split; [by constructor|]. by intros [_ ?]%Forall_cons.
Qed.

(** X19.  The query is empty exactly when no filter of the sequence has
    the type [label]: for a sequence of name filters the engine is
    asked without any filter. *)
Theorem filterStringBuilder_empty (filter : list GenericFilter) :
  fst (filterStringBuilder filter) = ""
  <-> Forall (fun f => FilterType f <> "label") filter.
Proof.
  rewrite filterStringBuilder_query, query_from_empty.
  apply Forall_iff. intros f. unfold is_label.
  by destruct (String.eqb_spec (FilterType f) "label").
Qed.

End QueryFacts.

(** ** The namespace path after a stop *)

Section NSPathFacts.
Import containerd containerd_query.

Lemma GetNSPath_Ret fault Pid name w path :
  snd (GetNSPath fault Pid name w) = Ret path ->
  is_Some (tasks w !! name)
  /\ path = "/proc/" +:+ strconv_fmt.Itoa (Pid name) +:+ "/ns/net".
Proof.
  unfold GetNSPath, getContainerTask, client_LoadContainer, cont_Task, request, record_call.
  unfold mbind, mret, ST_bind, ST_ret. simpl.
  repeat (case_match; simpl in *; simplify_eq; simpl in * ); try done.
  intros [= <-]. eauto.
Qed.

(** X20.  Once [StopContainer] has found the task of a container and
    has returned without error, [GetNSPath] of that container fails,
    whatever the engine does then: a stopped container has no
    namespace path. *)
Theorem GetNSPath_after_stop fault name w w' fault' Pid :
  snd (getContainerTask fault name w) = Ret name ->
  StopContainer fault name w = (w', Ret tt) ->
  exists e, snd (GetNSPath fault' Pid name w') = Fail e.
Proof.
  intros Hfound Hstop.
  destruct (StopContainer_success fault name w w' Hfound Hstop) as [Hnone _].
  destruct (snd (GetNSPath fault' Pid name w')) as [path|e|p] eqn:Hp.
  - apply GetNSPath_Ret in Hp as [[st Hst] _]. congruence.
  - by exists e.
  - exfalso. revert Hp.
    unfold GetNSPath, getContainerTask, client_LoadContainer, cont_Task, request.
    unfold mbind, mret, ST_bind, ST_ret. simpl.
    by repeat (case_match; simpl in *; simplify_eq; simpl in * ).
Qed.

End NSPathFacts.

Lemma GetNSPath_after_stop_witness :
  let w := requests.engine containerd.Running in
  let res := containerd.StopContainer containerd.no_fault "n1" w in
  snd (containerd.getContainerTask containerd.no_fault "n1" w) = Ret "n1"
  /\ res = (fst res, Ret tt)
  /\ exists e, snd (containerd_query.GetNSPath containerd.no_fault (fun _ => 4242%Z)
                     "n1" (fst res)) = Fail e.
Proof.
  intros w res.
  assert (snd (containerd.getContainerTask containerd.no_fault "n1" w) = Ret "n1") as H1
    by (vm_compute; reflexivity).
  assert (res = (fst res, Ret tt)) as H2 by (vm_compute; reflexivity).
  split; [exact H1|]. split; [exact H2|].
  exact (GetNSPath_after_stop containerd.no_fault "n1" w (fst res) containerd.no_fault
           (fun _ => 4242%Z) H1 H2).
Defined.

(** ** Listing containers with the containerd driver *)

Section ContainerdListFacts.
Import run listing containerd_list.

Context {Time : Type}.
Variable timeSinceInHuman : Time -> string.

#[local] Abbreviation gen := (generic timeSinceInHuman).
#[local] Abbreviation produce := (produceGenericContainerList timeSinceInHuman).

Lemma produceGenericContainerList_loop_generics input : forall acc,
  produceGenericContainerList_loop timeSinceInHuman input acc
  = ctrs ← generics timeSinceInHuman input; Value (acc ++ ctrs)%list.
Proof.
  induction input as [|i rest IH]; intros acc; simpl.
  - by rewrite app_nil_r.
  - destruct (gen i) as [ctr| |]; simpl; [|done..].
    rewrite IH. destruct (generics timeSinceInHuman rest); simpl; [|done..].
    by rewrite <- (assoc_L app).
Qed.

Lemma produceGenericContainerList_generics input :
  produce input = generics timeSinceInHuman input.
Proof.
  unfold produceGenericContainerList. rewrite produceGenericContainerList_loop_generics.
  by destruct (generics timeSinceInHuman input).
Qed.

Lemma generics_Value input : forall l,
  generics timeSinceInHuman input = Value l ->
  Forall2 (fun i g => gen i = Value g) input l.
Proof.
  induction input as [|i rest IH]; intros l; simpl.
  - intros [= <-]. constructor.
  - destruct (gen i) as [ctr| |] eqn:Hg; simpl; [|done..].
    destruct (generics timeSinceInHuman rest) as [ctrs| |]; simpl; [|done..].
    intros [= <-]. constructor; [done|by apply IH].
Qed.

Lemma generics_not_Value input :
  (forall e, generics timeSinceInHuman input = Error e ->
     exists i, i ∈ input /\ gen i = Error e)
  /\ (forall s, generics timeSinceInHuman input = Stopped s ->
        exists i, i ∈ input /\ gen i = Stopped s).
Proof.
  induction input as [|i rest [IHe IHs]]; simpl; [done|].
  destruct (gen i) as [ctr| |] eqn:Hg; simpl.
  - destruct (generics timeSinceInHuman rest) as [ctrs| |]; simpl.
    + done.
    + split; [|done]. intros e' [= <-]. destruct (IHe e eq_refl) as (j & ? & ?).
      exists j. split; [by apply list_elem_of_further|done].
    + split; [done|]. intros s' [= <-]. destruct (IHs s eq_refl) as (j & ? & ?).
      exists j. split; [by apply list_elem_of_further|done].
  - split; [|done]. intros e' [= <-]. exists i. split; [apply list_elem_of_here|done].
  - split; [done|]. intros s' [= <-]. exists i. split; [apply list_elem_of_here|done].
Qed.

(** What is appended for one container. *)
Lemma generic_Value (i : Container) g :
  gen i = Value g ->
  ID g = container_ID i /\ Names g = [container_ID i] /\ ShortID g = ""
  /\ (exists image labels,
        container_Info i = inr (image, labels) /\ Image g = image /\ Labels g = labels
        /\ containerd_labels.extractIPInfoFromLabels labels = Ret (NetworkSettings g))
  /\ match container_Task i with
     | TaskFound t =>
         exists st, task_Status t = inr st
           /\ Pid g = task_Pid t
           /\ State g = ProcessStatus_string (Status_ st)
           /\ Status g
              = match Status_ st with
                | containerd.Running => "Up"
                | containerd.Stopped =>
                    "Exited (" +:+ strconv_fmt.Itoa (ExitStatus st) +:+ ") "
                    +:+ timeSinceInHuman (ExitTime st)
                | containerd.Created => "Created"
                | containerd.Paused => "Paused"
                | containerd.Pausing => "Pausing"
                | containerd.Unknown => "Unknown"
                end
     | TaskNotFound _ => Pid g = (-1)%Z /\ State g = "Unknown" /\ Status g = "Unknown"
     | TaskError _ => False
     end.
Proof.
  unfold generic. unfold mbind, mret, result_bind, result_ret.
  destruct (container_Info i) as [err|[image labels]]; simpl; [done|].
  destruct (containerd_labels.extractIPInfoFromLabels labels) as [ns| |] eqn:Hx;
    simpl; [|done..].
  destruct (container_Task i) as [t|e|e]; simpl; [| |done].
  - destruct (task_Status t) as [err|st]; simpl; [done|].
    intros [= <-]. simpl. do 3 (split; [done|]). split; [by eexists _, _|].
    exists st. repeat split; destruct (Status_ st); try done; by vm_compute.
  - intros [= <-]. simpl. do 3 (split; [done|]). split; [by eexists _, _|].
    repeat split; by vm_compute.
Qed.

(** X21.  In a listing of the containerd driver the process id is -1
    exactly for the containers without a task, and exactly for these
    the state is [Unknown]; their status is [Unknown] too.  Every
    container is listed under its id as its only name, and without a
    short id. *)
Theorem produceGenericContainerList_pid (input : list Container) l :
  Forall (fun i => match container_Task i with
                   | TaskFound t => (0 <= task_Pid t)%Z
                   | _ => True
                   end) input ->
  produce input = Value l ->
  Forall2 (fun i g =>
             ID g = container_ID i /\ Names g = [container_ID i] /\ ShortID g = ""
             /\ (Pid g = (-1)%Z <-> exists e, container_Task i = TaskNotFound e)
             /\ (Pid g = (-1)%Z <-> State g = "Unknown")
             /\ (Pid g = (-1)%Z -> Status g = "Unknown"))
          input l.
Proof.
  rewrite produceGenericContainerList_generics. intros Hpid Hl%generics_Value.
  induction Hl as [|i g input l Hg _ IH]; [constructor|].
  apply Forall_cons in Hpid as [Hi Hpid]. constructor; [|by apply IH].
  apply generic_Value in Hg as (-> & -> & -> & _ & Ht).
  do 3 (split; [done|]).
  destruct (container_Task i) as [t|e|e]; [|destruct Ht as (-> & -> & ->)|done].
  - destruct Ht as (st & _ & -> & -> & _).
    split; [split; [lia|by intros [? ?]]|].
    split; [split; [lia|by destruct (Status_ st)]|lia].
  - split; [split; eauto|done].
Qed.

(** X22.  The state of a listed container with a task is the name of
    the status of the task in small letters; its status is [Up] when it
    runs, [Exited], the exit status in brackets and the time since the
    exit when it has stopped, and the name of the status with a capital
    otherwise; the image, the labels and the management addresses are
    those of the container's record. *)
Theorem produceGenericContainerList_status (input : list Container) l :
  produce input = Value l ->
  Forall2 (fun i g =>
             (exists image labels,
                container_Info i = inr (image, labels) /\ Image g = image
                /\ Labels g = labels
                /\ containerd_labels.extractIPInfoFromLabels labels
                   = Ret (NetworkSettings g))
             /\ forall t, container_Task i = TaskFound t ->
                  exists st, task_Status t = inr st
                    /\ Pid g = task_Pid t
                    /\ State g = ProcessStatus_string (Status_ st)
                    /\ Status g
                       = match Status_ st with
                         | containerd.Running => "Up"
                         | containerd.Stopped =>
                             "Exited (" +:+ strconv_fmt.Itoa (ExitStatus st) +:+ ") "
                             +:+ timeSinceInHuman (ExitTime st)
                         | containerd.Created => "Created"
                         | containerd.Paused => "Paused"
                         | containerd.Pausing => "Pausing"
                         | containerd.Unknown => "Unknown"
                         end)
          input l.
Proof.
  rewrite produceGenericContainerList_generics. intros Hl%generics_Value.
  eapply Forall2_impl; [exact Hl|]. intros i g (_ & _ & _ & Hinfo & Ht)%generic_Value.
  split; [done|]. intros t Heq. by rewrite Heq in Ht.
Qed.

(** X23.  One container is enough to lose the whole listing: the
    listing returns an error exactly when the record of one of the
    containers cannot be read or its netmask labels are no integers;
    it exits the process when the status of a task cannot be read; and
    it runs into a nil task when the lookup of a task fails with an
    error other than not-found. *)
Theorem produceGenericContainerList_lost (input : list Container) :
  (forall e, produce input = Error e ->
     exists i, i ∈ input
       /\ (container_Info i = inl e
           \/ exists image labels, container_Info i = inr (image, labels)
                /\ containerd_labels.extractIPInfoFromLabels labels = Fail e))
  /\ (forall s, produce input = Stopped s ->
        exists i, i ∈ input
          /\ ((s = Exit 1 /\ exists t e, container_Task i = TaskFound t
                                        /\ task_Status t = inl e)
              \/ (s = NilDereference /\ exists e, container_Task i = TaskError e))).
Proof.
  rewrite produceGenericContainerList_generics.
  destruct (generics_not_Value input) as [He Hs]. split.
  - intros e (i & Hin & Hg)%He. exists i. split; [done|]. revert Hg.
    unfold generic. unfold mbind, mret, result_bind, result_ret.
    destruct (container_Info i) as [err|[image labels]]; simpl; [intros [= <-]; by left|].
    destruct (containerd_labels.extractIPInfoFromLabels labels) as [ns|e'|p] eqn:Hx;
      simpl; [|intros [= <-]; right; eauto|done].
    destruct (container_Task i) as [t|?|?]; simpl; [|done..].
    by destruct (task_Status t).
  - intros s (i & Hin & Hg)%Hs. exists i. split; [done|]. revert Hg.
    unfold generic. unfold mbind, mret, result_bind, result_ret.
    destruct (container_Info i) as [err|[image labels]]; simpl; [done|].
    destruct (containerd_labels.extractIPInfoFromLabels labels) as [ns|e'|p] eqn:Hx;
      simpl; [|done|].
    + destruct (container_Task i) as [t|?|?]; simpl; [|done|].
      * destruct (task_Status t) as [err|st] eqn:Hst; simpl; [|done].
        intros [= <-]. left. eauto.
      * intros [= <-]. right. eauto.
    + exfalso. by apply (extractIPInfoFromLabels_no_panic labels p).
Qed.

End ContainerdListFacts.

Lemma produceGenericContainerList_pid_witness :
  let input := containerd_list.three in
  let since := fun t : Z => strconv_fmt.Itoa t +:+ " seconds ago" in
  Forall (fun i => match containerd_list.container_Task i with
                   | containerd_list.TaskFound t => (0 <= containerd_list.task_Pid t)%Z
                   | _ => True
                   end) input
  /\ exists l,
       containerd_list.produceGenericContainerList since input = run.Value l
       /\ map listing.Pid l = [(-1)%Z; 4242%Z; 0%Z]
       /\ map listing.Status l = ["Unknown"; "Up"; "Exited (137) 60 seconds ago"]
       /\ Forall2 (fun i g =>
             listing.ID g = containerd_list.container_ID i
             /\ listing.Names g = [containerd_list.container_ID i]
             /\ listing.ShortID g = ""
             /\ (listing.Pid g = (-1)%Z
                 <-> exists e, containerd_list.container_Task i
                               = containerd_list.TaskNotFound e)
             /\ (listing.Pid g = (-1)%Z <-> listing.State g = "Unknown")
             /\ (listing.Pid g = (-1)%Z -> listing.Status g = "Unknown"))
          input l.
Proof.
  intros input since.
  assert (Forall (fun i => match containerd_list.container_Task i with
                           | containerd_list.TaskFound t =>
                               (0 <= containerd_list.task_Pid t)%Z
                           | _ => True
                           end) input) as Hpid.
  { repeat constructor; discriminate. }
  split; [exact Hpid|].
  destruct (containerd_list.produceGenericContainerList since input) as [l| |] eqn:Hl;
    try (vm_compute in Hl; discriminate).
  exists l. split; [done|].
  pose proof (produceGenericContainerList_pid since input l Hpid Hl) as H.
  vm_compute in Hl. injection Hl as <-.
  split; [reflexivity|]. split; [reflexivity|]. exact H.
Defined.

(** ** Listing containers with the podman driver *)

Section PodmanListFacts.
Import run listing podman_list.

Variable Inspect : string -> option InspectContainerData * option error.

#[local] Abbreviation extract := (extractMgmtIP Inspect).
#[local] Abbreviation gen := (generic Inspect).
#[local] Abbreviation produce := (produceGenericContainerList Inspect).

(** [extractMgmtIP] returns no error, and stops on a nil pointer only. *)
Lemma extractMgmtIP_stops (cID : string) :
  (forall e, extract cID <> Error e)
  /\ forall s, extract cID = Stopped s -> s = NilDereference.
Proof.
  unfold extractMgmtIP. unfold mbind, mret, result_bind, result_ret.
  destruct (Inspect cID) as [[d|] err]; simpl; [|by split; [|intros s [= <-]]].
  destruct (Config d) as [labels|]; simpl; [|by split; [|intros s [= <-]]].
  destruct (labels !! "clab-net-mgmt") as [netName|]; simpl; [|done].
  destruct (String.eqb netName ""); simpl; [done|].
  destruct (NetworkSettings_ d) as [nets|]; simpl; [|by split; [|intros s [= <-]]].
  by destruct (nets !! netName) as [[data|]|].
Qed.

(** X24.  [extractMgmtIP] of the podman driver never returns an error,
    whatever the inspection returns, and stops only on a nil pointer of
    the inspection.  What it returns never has the flag [Set] and never
    has an IPv6 gateway: it is the empty record, or the addresses,
    prefix lengths and IPv4 gateway of the network that the label
    [clab-net-mgmt] of the container names. *)
Theorem extractMgmtIP_result (cID : string) :
  (forall e, extract cID <> Error e)
  /\ (forall s, extract cID = Stopped s -> s = NilDereference)
  /\ forall g, extract cID = Value g ->
       Set_ g = false /\ IPv6Gw g = ""
       /\ (g = GenericMgmtIPs_zero
           \/ exists d labels netName nets data,
                fst (Inspect cID) = Some d /\ Config d = Some labels
                /\ labels !! "clab-net-mgmt" = Some netName /\ netName <> ""
                /\ NetworkSettings_ d = Some nets /\ nets !! netName = Some (Some data)
                /\ g = mkMgmtIPs false (IPAddress data) (IPPrefixLen data) (Gateway data)
                                 (GlobalIPv6Address data) (GlobalIPv6PrefixLen data) "").
Proof.
  unfold extractMgmtIP. unfold mbind, mret, result_bind, result_ret.
  assert (forall s0 : stop,
            (forall e, @Stopped GenericMgmtIPs s0 <> Error e)
            /\ (forall s, @Stopped GenericMgmtIPs s0 = Stopped s -> s0 = s)
            /\ forall g, @Stopped GenericMgmtIPs s0 = Value g -> False) as Hstop.
  { intros s0. split; [done|]. split; [by intros s [= ->]|done]. }
  assert (forall P : GenericMgmtIPs -> Prop,
            (forall e, Value GenericMgmtIPs_zero <> Error e)
            /\ (forall s, Value GenericMgmtIPs_zero = Stopped s -> s = NilDereference)
            /\ forall g, Value GenericMgmtIPs_zero = Value g ->
                 Set_ g = false /\ IPv6Gw g = "" /\ (g = GenericMgmtIPs_zero \/ P g))
    as Hzero.
  { intros P. split; [done|]. split; [done|]. intros g [= <-]. by repeat split; [..|left]. }
  destruct (Inspect cID) as [[d|] err]; simpl.
  2: { split; [done|]. split; [by intros s [= <-]|done]. }
  destruct (Config d) as [labels|] eqn:Hc; simpl.
  2: { split; [done|]. split; [by intros s [= <-]|done]. }
  destruct (labels !! "clab-net-mgmt") as [netName|] eqn:Hl; simpl; [|apply Hzero].
  destruct (String.eqb_spec netName "") as [->|Hne]; simpl; [apply Hzero|].
  destruct (NetworkSettings_ d) as [nets|] eqn:Hn; simpl.
  2: { split; [done|]. split; [by intros s [= <-]|done]. }
  destruct (nets !! netName) as [[data|]|] eqn:Hd; simpl; [|apply Hzero..].
  split; [done|]. split; [done|]. intros g [= <-]. do 2 (split; [done|]).
  right. exists d, labels, netName, nets, data. by repeat split.
Qed.

Lemma take_bytes_Some n : forall s p,
  take_bytes n s = Some p -> String.length p = n /\ exists rest, s = p +:+ rest.
Proof.
  induction n as [|n IH]; intros s p; simpl.
  - intros [= <-]. split; [done|]. by exists s.
  - destruct s as [|c s]; [done|].
    destruct (take_bytes n s) as [q|] eqn:Hq; simpl; [|done].
    intros [= <-]. destruct (IH s q Hq) as [Hlen [rest ->]].
    split; [simpl; by rewrite Hlen|]. by exists rest.
Qed.

Lemma take_bytes_None n : forall s,
  take_bytes n s = None -> (String.length s < n)%nat.
Proof.
  induction n as [|n IH]; intros s; simpl; [done|].
  destruct s as [|c s]; [simpl; lia|].
  destruct (take_bytes n s) eqn:Hq; simpl; [done|].
  intros _. specialize (IH s Hq). simpl. lia.
Qed.

Lemma podman_loop_generics cList : forall i genericList,
  (i + length cList <= length genericList)%nat ->
  produceGenericContainerList_loop Inspect i cList genericList
  = gs ← generics Inspect cList;
    Value (take i genericList ++ gs ++ drop (i + length cList) genericList)%list.
Proof.
  induction cList as [|v rest IH]; intros i genericList Hlen; simpl in *.
  - rewrite Nat.add_0_r. by rewrite take_drop.
  - destruct (gen v) as [g| |]; simpl; [|done..].
    rewrite IH by (rewrite length_insert; lia).
    destruct (generics Inspect rest) as [gs| |]; simpl; [|done..].
    rewrite (take_S_r _ _ g) by (apply list_lookup_insert_eq; lia).
    rewrite take_insert_ge by lia. rewrite drop_insert_lt by lia.
    rewrite <- (assoc_L app). simpl.
    by replace (S (i + length rest)) with (i + S (length rest))%nat by lia.
Qed.

Lemma podman_produce_generics cList : produce cList = generics Inspect cList.
Proof.
  unfold produceGenericContainerList.
  rewrite podman_loop_generics by (rewrite length_replicate; simpl; lia).
  destruct (generics Inspect cList) as [gs| |]; simpl; [|done..].
  rewrite drop_ge by (rewrite length_replicate; lia). by rewrite app_nil_r.
Qed.

Lemma podman_generic (v : ListContainer) :
  (forall e, gen v <> Error e)
  /\ (forall s, gen v = Stopped s ->
        s = NilDereference
        \/ (s = SliceBounds 12 (String.length (lc_ID v))
            /\ (String.length (lc_ID v) < 12)%nat))
  /\ forall g, gen v = Value g ->
       Names g = lc_Names v /\ ID g = lc_ID v /\ Image g = lc_Image v
       /\ State g = lc_State v /\ Status g = lc_Status v /\ Labels g = lc_Labels v
       /\ Pid g = lc_Pid v
       /\ String.length (ShortID g) = 12%nat
       /\ (exists rest, lc_ID v = ShortID g +:+ rest)
       /\ extract (lc_ID v) = Value (NetworkSettings g).
Proof.
  unfold generic, slice_to. unfold mbind, mret, result_bind, result_ret.
  destruct (extractMgmtIP_stops (lc_ID v)) as (He & Hs).
  destruct (extract (lc_ID v)) as [ns|e|s] eqn:Hx; cbv beta iota.
  - destruct (take_bytes 12 (lc_ID v)) as [p|] eqn:Hp; cbv beta iota.
    + split; [done|]. split; [done|]. intros g [= <-]. cbn [Names ID ShortID Image State
        Status Labels Pid NetworkSettings].
      apply take_bytes_Some in Hp as [Hlen Hrest]. by repeat split.
    + apply take_bytes_None in Hp. split; [done|]. split; [|done].
      intros s [= <-]. by right.
  - by destruct (He e).
  - split; [done|]. split; [|done]. intros s' [= <-]. left. by apply Hs.
Qed.

(** X25.  The listing of the podman driver never returns an error.
    What it returns has one container for each container listed by the
    engine, in order, with the names, id, image, state, status, labels
    and process id copied, the first twelve bytes of the id as short
    id, and the management addresses of [extractMgmtIP]; an id of fewer
    than twelve bytes stops the listing at the slice of the id. *)
Theorem podman_produceGenericContainerList_result (cList : list ListContainer) :
  (forall e, produce cList <> Error e)
  /\ (forall s, produce cList = Stopped s ->
        s = NilDereference
        \/ exists v, v ∈ cList /\ s = SliceBounds 12 (String.length (lc_ID v))
                     /\ (String.length (lc_ID v) < 12)%nat)
  /\ forall l, produce cList = Value l ->
       Forall2 (fun v g =>
                  Names g = lc_Names v /\ ID g = lc_ID v /\ Image g = lc_Image v
                  /\ State g = lc_State v /\ Status g = lc_Status v
                  /\ Labels g = lc_Labels v /\ Pid g = lc_Pid v
                  /\ String.length (ShortID g) = 12%nat
                  /\ (exists rest, lc_ID v = ShortID g +:+ rest)
                  /\ extract (lc_ID v) = Value (NetworkSettings g))
               cList l.
Proof.
  rewrite podman_produce_generics.
  induction cList as [|v rest (IHe & IHs & IHv)]; simpl.
  { split; [done|]. split; [done|]. intros l [= <-]. constructor. }
  destruct (podman_generic v) as (He & Hs & Hv).
  unfold mbind, mret, result_bind, result_ret.
  destruct (gen v) as [g|e|s]; simpl.
  - destruct (generics Inspect rest) as [gs|e|s]; simpl.
    + split; [done|]. split; [done|]. intros l [= <-].
      constructor; [by apply Hv|by apply IHv].
    + by destruct (IHe e).
    + split; [done|]. split; [|done]. intros s' [= <-].
      destruct (IHs s eq_refl) as [->|(w & Hin & -> & Hlt)]; [by left|].
      right. exists w. split; [by apply list_elem_of_further|done].
  - by destruct (He e).
  - split; [done|]. split; [|done]. intros s' [= <-].
    destruct (Hs s eq_refl) as [->|[-> Hlt]]; [by left|].
    right. exists v. split; [apply list_elem_of_here|done].
Qed.

End PodmanListFacts.

Lemma extractMgmtIP_result_witness :
  exists g,
    podman_list.extractMgmtIP podman_list.inspect_one "0123456789abcdef" = run.Value g
    /\ g = mkMgmtIPs false "172.20.20.2" 24 "172.20.20.1" "" 0 ""
    /\ Set_ g = false /\ IPv6Gw g = "".
Proof.
  eexists. split; [reflexivity|]. split; [reflexivity|].
  destruct (proj2 (proj2 (extractMgmtIP_result podman_list.inspect_one
                            "0123456789abcdef")) _ eq_refl) as (H1 & H2 & _).
  split; [exact H1|exact H2].
Defined.

Lemma podman_produceGenericContainerList_result_witness :
  exists l,
    podman_list.produceGenericContainerList podman_list.inspect_one
      [podman_list.listed_one] = run.Value l
    /\ map listing.ShortID l = ["0123456789ab"]
    /\ Forall2 (fun v g =>
                  listing.Names g = podman_list.lc_Names v
                  /\ listing.ID g = podman_list.lc_ID v
                  /\ listing.Image g = podman_list.lc_Image v
                  /\ listing.State g = podman_list.lc_State v
                  /\ listing.Status g = podman_list.lc_Status v
                  /\ listing.Labels g = podman_list.lc_Labels v
                  /\ listing.Pid g = podman_list.lc_Pid v
                  /\ String.length (listing.ShortID g) = 12%nat
                  /\ (exists rest, podman_list.lc_ID v = listing.ShortID g +:+ rest)
                  /\ podman_list.extractMgmtIP podman_list.inspect_one
                       (podman_list.lc_ID v) = run.Value (listing.NetworkSettings g))
               [podman_list.listed_one] l.
Proof.
  destruct (podman_list.produceGenericContainerList podman_list.inspect_one
              [podman_list.listed_one]) as [l| |] eqn:Hl;
    try (vm_compute in Hl; discriminate).
  exists l. split; [done|].
  pose proof (proj2 (proj2 (podman_produceGenericContainerList_result
                              podman_list.inspect_one [podman_list.listed_one]))
                l Hl) as H.
  vm_compute in Hl. injection Hl as <-. split; [reflexivity|exact H].
Defined.

Lemma produceGenericContainerList_status_witness :
  let since := fun t : Z => strconv_fmt.Itoa t +:+ " seconds ago" in
  exists l,
    containerd_list.produceGenericContainerList since containerd_list.three = run.Value l
    /\ map listing.State l = ["Unknown"; "running"; "stopped"]
    /\ Forall2 (fun i g =>
          (exists image labels,
             containerd_list.container_Info i = inr (image, labels)
             /\ listing.Image g = image /\ listing.Labels g = labels
             /\ containerd_labels.extractIPInfoFromLabels labels
                = Ret (listing.NetworkSettings g))
          /\ forall t, containerd_list.container_Task i = containerd_list.TaskFound t ->
               exists st, containerd_list.task_Status t = inr st
                 /\ listing.Pid g = containerd_list.task_Pid t
                 /\ listing.State g
                    = containerd_list.ProcessStatus_string (containerd_list.Status_ st)
                 /\ listing.Status g
                    = match containerd_list.Status_ st with
                      | containerd.Running => "Up"
                      | containerd.Stopped =>
                          "Exited (" +:+ strconv_fmt.Itoa (containerd_list.ExitStatus st)
                          +:+ ") " +:+ since (containerd_list.ExitTime st)
                      | containerd.Created => "Created"
                      | containerd.Paused => "Paused"
                      | containerd.Pausing => "Pausing"
                      | containerd.Unknown => "Unknown"
                      end)
       containerd_list.three l.
Proof.
  intros since.
  destruct (containerd_list.produceGenericContainerList since containerd_list.three)
    as [l| |] eqn:Hl; try (vm_compute in Hl; discriminate).
  exists l. split; [done|].
  pose proof (produceGenericContainerList_status since containerd_list.three l Hl) as H.
  vm_compute in Hl. injection Hl as <-. split; [reflexivity|exact H].
Defined.

Lemma produceGenericContainerList_lost_witness :
  let since := fun t : Z => strconv_fmt.Itoa t +:+ " seconds ago" in
  containerd_list.produceGenericContainerList since containerd_list.unreadable
  = run.Error (Engine "unavailable")
  /\ exists i, i ∈ containerd_list.unreadable
       /\ (containerd_list.container_Info i = inl (Engine "unavailable")
           \/ exists image labels,
                containerd_list.container_Info i = inr (image, labels)
                /\ containerd_labels.extractIPInfoFromLabels labels
                   = Fail (Engine "unavailable")).
Proof.
  intros since.
  assert (containerd_list.produceGenericContainerList since containerd_list.unreadable
          = run.Error (Engine "unavailable")) as H by reflexivity.
  split; [exact H|].
  exact (proj1 (produceGenericContainerList_lost since containerd_list.unreadable) _ H).
Defined.

Lemma CreateContainer_mounts_result_witness :
  let binds := ["/src:/dst:ro"; "a:b:c:d"] in
  let ms := [mkMount "/dst" "" "/src" ["rbind"; "rprivate"];
             mkMount "b" "" "a" ["rbind"; "rprivate"]] in
  containerd_mounts.CreateContainer_mounts binds = Ret ms
  /\ Forall2 (fun mount m =>
                exists src dst rest,
                  strings.Split mount ":" = src :: dst :: rest
                  /\ Source m = src /\ Destination m = dst /\ Type_ m = ""
                  /\ take 2 (Options m) = ["rbind"; "rprivate"]
                  /\ (String.length mount <> 3%nat ->
                      Options m = ["rbind"; "rprivate"]))
             binds ms.
Proof.
  intros binds ms.
  assert (containerd_mounts.CreateContainer_mounts binds = Ret ms) as H by reflexivity.
  split; [exact H|].
  exact (proj2 (CreateContainer_mounts_result binds) ms H).
Defined.
